(** * Unit 2 active power prediction: the prediction-and-logging pipeline

    A shallow embedding of the two Streamlit scripts of the repository,
    [stream1.py] (module [Stream1]) and [stream11.py] (module [Stream11]),
    and the properties of their predict / log / view / clear blocks.

    Python floats are IEEE 754 binary64 values; they are modelled by
    [spec_float] of the Standard Library (sign, mantissa, exponent, with the
    infinities and NaN), and every comparison is [SFcompare], the IEEE
    comparison.  The files the scripts touch are modelled by their text. *)

From Stdlib Require Import ZArith Bool List Ascii String DecimalString.
From Stdlib Require Import DecimalN DecimalPos Lia.
From Stdlib Require Import Floats.SpecFloat.
From stdpp Require Import base option gmap strings.

Import ListNotations.
Local Open Scope string_scope.
Local Open Scope Z_scope.

(** ** Python values that reach the clamp and the log row *)

(** binary64, Python's [float]. *)
Definition prec64 : Z := 53.
Definition emax64 : Z := 1024.
(** binary32, numpy's [float32]. *)
Definition prec32 : Z := 24.
Definition emax32 : Z := 128.

(** The float a Python literal or an [int] converts to. *)
Definition float_of_Z (z : Z) : spec_float :=
  binary_normalize prec64 emax64 z 0 false.

(** Re-rounding of a float to a format: [np.float32(x)] for binary32,
    [float(y)] for binary64 (exact on every binary32 value). *)
Definition round_to (prec emax : Z) (f : spec_float) : spec_float :=
  match f with
  | S754_finite s m e =>
      binary_normalize prec emax (cond_Zopp s (Zpos m)) e s
  | _ => f
  end.

Definition to_float32 : spec_float -> spec_float := round_to prec32 emax32.
Definition to_float64 : spec_float -> spec_float := round_to prec64 emax64.

Inductive pyval : Type :=
  | PyStr (s : string)
  | PyInt (z : Z)
  | PyFloat (f : spec_float)
  | NpFloat32 (f : spec_float).

(** The binary64 value of a number ([float(v)]); strings have none. *)
Definition py_float (v : pyval) : option spec_float :=
  match v with
  | PyStr _ => None
  | PyInt z => Some (float_of_Z z)
  | PyFloat f => Some f
  | NpFloat32 f => Some (to_float64 f)
  end.

(** [a < b] on numbers: both sides are compared as binary64 values (the
    conversion of an [int] bound or of a binary32 value is exact). *)
Definition py_lt (a b : pyval) : bool :=
  match py_float a, py_float b with
  | Some x, Some y => SFltb x y
  | _, _ => false
  end.

(** Python's two-argument [min] and [max]: the first argument is kept
    unless the second is strictly smaller (resp. strictly greater). *)
Definition py_min (a b : pyval) : pyval := if py_lt b a then b else a.
Definition py_max (a b : pyval) : pyval := if py_lt a b then b else a.

Definition float_min (a b : spec_float) : spec_float :=
  if SFltb b a then b else a.
Definition float_max (a b : spec_float) : spec_float :=
  if SFltb a b then b else a.

Definition f140 : spec_float := Eval vm_compute in float_of_Z 140.
Definition f290 : spec_float := Eval vm_compute in float_of_Z 290.

Definition is_nan (f : spec_float) : bool :=
  match f with S754_nan => true | _ => false end.

(** [140.0 <= v <= 290.0] as Python evaluates it. *)
Definition in_range (v : spec_float) : bool :=
  SFleb f140 v && SFleb v f290.

(** ** Text: decimal numbers, timestamps and float formatting *)

(** [str(n)] for a natural number. *)
Definition digits (n : N) : string :=
  NilEmpty.string_of_uint (N.to_uint n).

(** [str(z)] for a Python int. *)
Definition int_str (z : Z) : string :=
  match z with
  | Zneg p => "-" ++ digits (Npos p)
  | _ => digits (Z.to_N z)
  end.

Fixpoint zeros (n : nat) : string :=
  match n with O => "" | S k => String "0" (zeros k) end.

(** Zero padding on the left to [w] characters ([%02d], [%04d]). *)
Definition pad (w : nat) (n : N) : string :=
  let s := digits n in zeros (w - String.length s) ++ s.

Record datetime : Type := {
  year : N; month : N; day : N; hour : N; minute : N; second : N }.

(** [t.strftime("%Y-%m-%d %H:%M:%S")]. *)
Definition strftime (t : datetime) : string :=
  pad 4 (year t) ++ "-" ++ pad 2 (month t) ++ "-" ++ pad 2 (day t) ++ " "
  ++ pad 2 (hour t) ++ ":" ++ pad 2 (minute t) ++ ":" ++ pad 2 (second t).

(** What [datetime.datetime.now()] can return. *)
Definition valid_datetime (t : datetime) : bool :=
  (1000 <=? year t)%N && (year t <=? 9999)%N
  && (1 <=? month t)%N && (month t <=? 12)%N
  && (1 <=? day t)%N && (day t <=? 31)%N
  && (hour t <=? 23)%N && (minute t <=? 59)%N && (second t <=? 59)%N.

(** Rounding of the rational [n / d] to the nearest integer, ties to even. *)
Definition round_half_even (n d : Z) : Z :=
  let q := n / d in
  let r := n mod d in
  match 2 * r ?= d with
  | Lt => q
  | Gt => q + 1
  | Eq => if Z.even q then q else q + 1
  end.

Definition sign_str (s : bool) : string := if s then "-" else "".

(** [format(x, ".2f")]: the exact binary value correctly rounded to two
    decimals. *)
Definition format_2f (f : spec_float) : string :=
  match f with
  | S754_nan => "nan"
  | S754_infinity s => sign_str s ++ "inf"
  | S754_zero s => sign_str s ++ "0.00"
  | S754_finite s m e =>
      let n := if 0 <=? e then Zpos m * 100 * 2 ^ e
               else round_half_even (Zpos m * 100) (2 ^ (- e)) in
      sign_str s ++ digits (Z.to_N (n / 100)) ++ "."
      ++ pad 2 (Z.to_N (n mod 100))
  end.

(** *** [repr(x)]: the shortest decimal that reads back as [x] *)

(** Comparison of [d * 10^q] with [v * 2^e], all factors made integral. *)
Definition cmp_dec_bin (d q v e : Z) : comparison :=
  (d * 10 ^ Z.max q 0 * 2 ^ Z.max (- e) 0
   ?= v * 2 ^ Z.max e 0 * 10 ^ Z.max (- q) 0).

(** [floor (v * 2^e / 10^q)]. *)
Definition floor_dec (v e q : Z) : Z :=
  (v * 2 ^ Z.max e 0 * 10 ^ Z.max (- q) 0)
  / (2 ^ Z.max (- e) 0 * 10 ^ Z.max q 0).

(** The least [p], from a lower estimate on, with [v * 2^e < 10^p]: the
    number of digits before the decimal point. *)
Fixpoint decimal_point (fuel : nat) (p v e : Z) : Z :=
  match fuel with
  | O => p
  | S k =>
      match cmp_dec_bin 1 p v e with
      | Gt => p
      | _ => decimal_point k (p + 1) v e
      end
  end.

(** The decimals that read back as the binary64 value [m * 2^e] lie
    between [lo * 2^(e-2)] and [hi * 2^(e-2)], half way to its two
    neighbours; the bounds themselves do when [m] is even. *)
Definition inside (m : positive) (e d q : Z) : bool :=
  let lo := if (Pos.eqb m (2 ^ 52) && (-1074 <? e))%bool
            then 4 * Zpos m - 1 else 4 * Zpos m - 2 in
  let hi := 4 * Zpos m + 2 in
  let even := Z.even (Zpos m) in
  match cmp_dec_bin d q lo (e - 2), cmp_dec_bin d q hi (e - 2) with
  | Gt, Lt => true
  | Eq, Lt | Gt, Eq => even
  | _, _ => false
  end.

(** Search for the shortest digit string: [k] significant digits, then
    [k + 1], up to 17. Returns the digits as a number and its power of ten. *)
Fixpoint shortest (fuel : nat) (k : Z) (m : positive) (e p : Z) : Z * Z :=
  let q := p - k in
  let dl := floor_dec (4 * Zpos m) (e - 2) q in
  let dh := dl + 1 in
  match fuel with
  | O => (dl, q)
  | S fuel' =>
      match inside m e dl q, inside m e dh q with
      | true, true =>
          match cmp_dec_bin (dl + dh) q (8 * Zpos m) (e - 2) with
          | Gt => (dl, q)
          | Lt => (dh, q)
          | Eq => if Z.even dl then (dl, q) else (dh, q)
          end
      | true, false => (dl, q)
      | false, true => (dh, q)
      | false, false => shortest fuel' (k + 1) m e p
      end
  end.

Fixpoint strip_zeros (s : string) : string :=
  match s with
  | EmptyString => EmptyString
  | String c r =>
      match strip_zeros r with
      | EmptyString => if Ascii.eqb c "0" then EmptyString else String c EmptyString
      | r' => String c r'
      end
  end.

Definition string_drop (n : nat) (s : string) : string :=
  substring n (String.length s - n) s.

(** The layout of [repr]: fixed notation when the decimal point falls
    within [-3 .. 16], exponent notation otherwise. *)
Definition repr_layout (ds : string) (decpt : Z) : string :=
  let n := Z.of_nat (String.length ds) in
  if (decpt <=? -4) || (16 <? decpt) then
    let x := decpt - 1 in
    substring 0 1 ds
    ++ (if 1 <? n then "." ++ string_drop 1 ds else "")
    ++ "e" ++ (if x <? 0 then "-" else "+") ++ pad 2 (Z.to_N (Z.abs x))
  else if decpt <=? 0 then
    "0." ++ zeros (Z.to_nat (- decpt)) ++ ds
  else if n <=? decpt then
    ds ++ zeros (Z.to_nat (decpt - n)) ++ ".0"
  else
    substring 0 (Z.to_nat decpt) ds ++ "." ++ string_drop (Z.to_nat decpt) ds.

(** [repr(x)] of a Python float (a binary64 value), which is also what
    [csv.writer] writes for it. *)
Definition float_repr (f : spec_float) : string :=
  match f with
  | S754_nan => "nan"
  | S754_infinity s => sign_str s ++ "inf"
  | S754_zero s => sign_str s ++ "0.0"
  | S754_finite s m e =>
      let b := Z.log2 (Zpos m) + e in
      let p := decimal_point 4 (b * 30103 / 100000 - 1) (Zpos m) e in
      let '(d, q) := shortest 17 1 m e p in
      let ds := digits (Z.to_N d) in
      sign_str s
      ++ repr_layout (strip_zeros ds) (Z.of_nat (String.length ds) + q)
  end.

(** *** [str(y)] of a numpy binary32 scalar

    numpy prints a [float32] with the shortest decimal that reads back as
    that binary32 value, in the layout of [repr]; it is the text pandas
    writes for a value of a float32 column. The search is the one above
    with the neighbours of the format: [top] is the least mantissa of full
    width and [emin] the least exponent (2^52 and -1074 for binary64,
    2^23 and -149 for binary32). *)
Definition inside_in (top : positive) (emin : Z) (m : positive) (e d q : Z)
  : bool :=
  let lo := if (Pos.eqb m top && (emin <? e))%bool
            then 4 * Zpos m - 1 else 4 * Zpos m - 2 in
  let hi := 4 * Zpos m + 2 in
  let even := Z.even (Zpos m) in
  match cmp_dec_bin d q lo (e - 2), cmp_dec_bin d q hi (e - 2) with
  | Gt, Lt => true
  | Eq, Lt | Gt, Eq => even
  | _, _ => false
  end.

Fixpoint shortest_in (top : positive) (emin : Z) (fuel : nat) (k : Z)
    (m : positive) (e p : Z) : Z * Z :=
  let q := p - k in
  let dl := floor_dec (4 * Zpos m) (e - 2) q in
  let dh := dl + 1 in
  match fuel with
  | O => (dl, q)
  | S fuel' =>
      match inside_in top emin m e dl q, inside_in top emin m e dh q with
      | true, true =>
          match cmp_dec_bin (dl + dh) q (8 * Zpos m) (e - 2) with
          | Gt => (dl, q)
          | Lt => (dh, q)
          | Eq => if Z.even dl then (dl, q) else (dh, q)
          end
      | true, false => (dl, q)
      | false, true => (dh, q)
      | false, false => shortest_in top emin fuel' (k + 1) m e p
      end
  end.

(** The shortest text of a number of the format, at most [digits_max]
    significant digits long. *)
Definition shortest_repr (top : positive) (emin : Z) (digits_max : nat)
    (f : spec_float) : string :=
  match f with
  | S754_nan => "nan"
  | S754_infinity s => sign_str s ++ "inf"
  | S754_zero s => sign_str s ++ "0.0"
  | S754_finite s m e =>
      let b := Z.log2 (Zpos m) + e in
      let p := decimal_point 4 (b * 30103 / 100000 - 1) (Zpos m) e in
      let '(d, q) := shortest_in top emin digits_max 1 m e p in
      let ds := digits (Z.to_N d) in
      sign_str s
      ++ repr_layout (strip_zeros ds) (Z.of_nat (String.length ds) + q)
  end.

Definition float32_repr : spec_float -> string :=
  shortest_repr (2 ^ 23) (-149) 9.

(** ** CSV text

    [csv.writer] (dialect excel, QUOTE_MINIMAL), which pandas' [to_csv]
    drives too, writes a record as its fields joined by commas; a field
    holding a comma, a double quote or a character of the line terminator
    is wrapped in double quotes, with its quotes doubled. *)

Definition dquote : ascii := ascii_of_nat 34.
Definition cr : ascii := ascii_of_nat 13.
Definition lf : ascii := ascii_of_nat 10.
Definition comma : ascii := ","%char.

Definition crlf : string := String cr (String lf EmptyString).
Definition posix_linesep : string := String lf EmptyString.

(** The characters that force quotes, for a writer whose line terminator
    is [eol]. *)
Definition must_quote (eol : string) (c : ascii) : bool :=
  Ascii.eqb c comma || Ascii.eqb c dquote
  || existsb (Ascii.eqb c) (list_ascii_of_string eol).

Fixpoint needs_quotes (eol s : string) : bool :=
  match s with
  | EmptyString => false
  | String c r => must_quote eol c || needs_quotes eol r
  end.

Fixpoint double_quotes (s : string) : string :=
  match s with
  | EmptyString => EmptyString
  | String c r =>
      if Ascii.eqb c dquote then String dquote (String dquote (double_quotes r))
      else String c (double_quotes r)
  end.

Definition quote_field (eol s : string) : string :=
  if needs_quotes eol s
  then String dquote (double_quotes s ++ String dquote EmptyString)
  else s.

Fixpoint join_fields (fs : list string) : string :=
  match fs with
  | [] => EmptyString
  | [f] => f
  | f :: r => f ++ "," ++ join_fields r
  end.

(** One record, without its line terminator. A lone empty field is written
    as a pair of quotes. *)
Definition csv_record (eol : string) (fields : list string) : string :=
  match fields with
  | [EmptyString] => String dquote (String dquote EmptyString)
  | _ => join_fields (map (quote_field eol) fields)
  end.

(** What [csv.writer] is given in stream11.py: strings, ints and floats. *)
Inductive cell : Type :=
  | CellStr (s : string)
  | CellInt (z : Z)
  | CellFloat (f : spec_float).

(** The text [csv.writer] makes of a cell: [str] for strings and ints,
    [repr] for floats. *)
Definition cell_str (c : cell) : string :=
  match c with
  | CellStr s => s
  | CellInt z => int_str z
  | CellFloat f => float_repr f
  end.

(** The text pandas makes of a value of a frame built from a list of dicts:
    the same for strings, ints and floats, but a NaN is a missing value,
    written as an empty field; a numpy binary32 scalar makes a float32
    column, whose values are written as numpy prints them. *)
Definition pandas_str (v : pyval) : string :=
  match v with
  | PyStr s => s
  | PyInt z => int_str z
  | PyFloat f => if is_nan f then EmptyString else float_repr f
  | NpFloat32 f => if is_nan f then EmptyString else float32_repr f
  end.

(** *** Reading: the tokenizer of [pandas.read_csv]

    A state machine over the characters of the file. Fields end at a comma,
    records at LF, CR or CR LF; empty lines and lines of spaces and tabs
    only are skipped; a double quote at the start of a field opens a quoted
    field, in which a doubled quote stands for one quote. *)

Inductive tstate : Type :=
  StartRecord | StartField | InField | InQuoted | QuoteInQuoted | EatCRNL.

(** What a character does to the records read so far: it joins the current
    field, is dropped, completes the field, or completes the field and the
    record. *)
Inductive action : Type := Push | Skip | EndField | EndRecord.

Definition at_line_start (st : tstate) : bool :=
  match st with StartRecord | EatCRNL => true | _ => false end.

Definition transition (st : tstate) (c : ascii) : tstate * action :=
  match st with
  | InQuoted =>
      if Ascii.eqb c dquote then (QuoteInQuoted, Skip) else (InQuoted, Push)
  | _ =>
      if Ascii.eqb c lf then
        (StartRecord, if at_line_start st then Skip else EndRecord)
      else if Ascii.eqb c cr then
        (EatCRNL, if at_line_start st then Skip else EndRecord)
      else if Ascii.eqb c comma then (StartField, EndField)
      else if Ascii.eqb c dquote then
        match st with
        | QuoteInQuoted => (InQuoted, Push)
        | InField => (InField, Push)
        | _ => (InQuoted, Skip)
        end
      else (InField, Push)
  end.

(** The records are built from the right: the first list is the record
    being read, its first string the field being read. *)
Definition push_char (c : ascii) (recs : list (list string)) : list (list string) :=
  match recs with
  | (f :: fs) :: rest => (String c f :: fs) :: rest
  | [] :: rest => [String c EmptyString] :: rest
  | [] => [[String c EmptyString]]
  end.

Definition new_field (recs : list (list string)) : list (list string) :=
  match recs with
  | r :: rest => (EmptyString :: r) :: rest
  | [] => [[EmptyString; EmptyString]]
  end.

Definition new_record (recs : list (list string)) : list (list string) :=
  [EmptyString] :: recs.

Definition act (a : action) (c : ascii) (recs : list (list string))
  : list (list string) :=
  match a with
  | Push => push_char c recs
  | Skip => recs
  | EndField => new_field recs
  | EndRecord => new_record recs
  end.

(** A space or a tab. *)
Definition is_blank (c : ascii) : bool :=
  Ascii.eqb c " " || Ascii.eqb c (ascii_of_nat 9).

(** The text holds only spaces and tabs up to the end of its first line. *)
Fixpoint blank_line (s : string) : bool :=
  match s with
  | EmptyString => true
  | String c r =>
      Ascii.eqb c lf || Ascii.eqb c cr || (is_blank c && blank_line r)
  end.

(** At the start of a line the spaces and tabs of a line that holds
    nothing else are dropped: the line is skipped like an empty one. At the
    end of the text a record that was begun is complete. *)
Fixpoint tokenize (st : tstate) (s : string) : list (list string) :=
  match s with
  | EmptyString => if at_line_start st then [] else [[EmptyString]]
  | String c r =>
      if at_line_start st && is_blank c && blank_line r then tokenize st r
      else let '(st', a) := transition st c in act a c (tokenize st' r)
  end.

(** The state in which the text ends (a skipped line ends at the start of
    a line whether its blanks are dropped or read). *)
Fixpoint final_state (st : tstate) (s : string) : tstate :=
  match s with
  | EmptyString => st
  | String c r => final_state (fst (transition st c)) r
  end.

Record dataframe : Type := {
  columns : list string;
  rows : list (list string) }.

Inductive exn : Type :=
  | PermissionError (path : string)
  | FileNotFoundError (path : string)
  | NoSuchFile (path : string)
  | InvalidProtobuf (path : string)
  | RuntimeException
  | EmptyDataError
  | ParserError.

(** [pandas.read_csv] on the text of a file: the first record names the
    columns, the others are the rows. A text that ends inside a quoted
    field cannot be parsed; an empty text has no columns to parse; nor can
    a record after the first row be longer than both the header and the
    first row. Cells are kept as read: pandas' padding of short rows, its
    index for a longer first row and its dtype inference are not
    modelled. *)
Definition row_width (header : list string) (data : list (list string)) : nat :=
  match data with
  | [] => length header
  | r :: _ => Nat.max (length header) (length r)
  end.

Definition parse_csv (text : string) : exn + dataframe :=
  match final_state StartRecord text with
  | InQuoted => inl ParserError
  | _ =>
      match tokenize StartRecord text with
      | [] => inl EmptyDataError
      | header :: data =>
          if forallb (fun r => Nat.leb (length r) (row_width header data)) data
          then inr {| columns := header; rows := data |}
          else inl ParserError
      end
  end.

(** ** The world of a script run *)

(** A regression model file: the name of its first input and what
    [session.run] returns for a 1x6 binary32 vector ([None]: the runtime
    raises). *)
Record onnx_model : Type := {
  input_slot : string;
  infer : list spec_float -> option spec_float }.

(** An [InferenceSession] object; [sess_id] tells two objects apart. *)
Record session : Type := {
  sess_id : nat;
  sess_model : onnx_model }.

(** What the scripts put on the page (only the widgets of the predict, log
    viewer and clear blocks are recorded). *)
Inductive widget : Type :=
  | st_markdown (html : string)
  | st_info (msg : string)
  | st_success (msg : string)
  | st_warning (msg : string)
  | st_dataframe (df : dataframe)
  | st_download_button (label : string) (data : dataframe)
      (file_name mime : string).

(** The modes in which the scripts open a file for writing: [w] and [a]. *)
Inductive open_mode : Type := ModeW | ModeA.

Record world : Type := {
  (** text files of the working directory, by path *)
  files : gmap string string;
  (** whether files of the directory can be created, written and removed *)
  writable : bool;
  (** model files, by path; [Some None] is a file that is no valid model *)
  model_files : gmap string (option onnx_model);
  (** [os.linesep] *)
  linesep : string;
  (** the store of [st.cache_resource] and that of [st.cache_data]; both
      live as long as the server process *)
  resource_cache : gmap string session;
  data_cache : gmap string (option dataframe);
  (** how many inference sessions have been built so far *)
  sessions_built : nat;
  (** the files opened for writing so far, latest first, with the mode *)
  opened : list (string * open_mode);
  (** the page of the current run, latest widget first *)
  screen : list widget }.

Definition set_files (f : gmap string string) (w : world) : world :=
  {| files := f; writable := writable w; model_files := model_files w;
     linesep := linesep w; resource_cache := resource_cache w;
     data_cache := data_cache w; sessions_built := sessions_built w;
     opened := opened w; screen := screen w |}.

Definition set_resource_cache (c : gmap string session) (w : world) : world :=
  {| files := files w; writable := writable w; model_files := model_files w;
     linesep := linesep w; resource_cache := c;
     data_cache := data_cache w; sessions_built := sessions_built w;
     opened := opened w; screen := screen w |}.

Definition set_data_cache (c : gmap string (option dataframe)) (w : world) : world :=
  {| files := files w; writable := writable w; model_files := model_files w;
     linesep := linesep w; resource_cache := resource_cache w;
     data_cache := c; sessions_built := sessions_built w;
     opened := opened w; screen := screen w |}.

Definition set_sessions_built (n : nat) (w : world) : world :=
  {| files := files w; writable := writable w; model_files := model_files w;
     linesep := linesep w; resource_cache := resource_cache w;
     data_cache := data_cache w; sessions_built := n;
     opened := opened w; screen := screen w |}.

Definition set_opened (o : list (string * open_mode)) (w : world) : world :=
  {| files := files w; writable := writable w; model_files := model_files w;
     linesep := linesep w; resource_cache := resource_cache w;
     data_cache := data_cache w; sessions_built := sessions_built w;
     opened := o; screen := screen w |}.

Definition set_screen (s : list widget) (w : world) : world :=
  {| files := files w; writable := writable w; model_files := model_files w;
     linesep := linesep w; resource_cache := resource_cache w;
     data_cache := data_cache w; sessions_built := sessions_built w;
     opened := opened w; screen := s |}.

(** *** Scripts: state and exceptions *)

Inductive result (A : Type) : Type :=
  | Returned (a : A)
  | Raised (e : exn).
Arguments Returned {A} a.
Arguments Raised {A} e.

Definition script (A : Type) : Type := world -> result A * world.

Definition ret {A : Type} (a : A) : script A :=
  fun w => (Returned a, w).

Definition bind {A B : Type} (c : script A) (k : A -> script B) : script B :=
  fun w =>
    match c w with
    | (Returned a, w') => k a w'
    | (Raised e, w') => (Raised e, w')
    end.

Declare Scope script_scope.
Delimit Scope script_scope with script.
Bind Scope script_scope with script.
Notation "x <- c ;; k" := (bind c (fun x => k))
  (at level 100, c at next level, right associativity) : script_scope.
Notation "c ;; k" := (bind c (fun _ => k))
  (at level 100, right associativity) : script_scope.
Local Open Scope script_scope.

Definition raise {A : Type} (e : exn) : script A :=
  fun w => (Raised e, w).

(** [try: body / except Exception as e: handler e]. What the body did
    before raising stays done. *)
Definition try_except {A : Type} (body : script A) (handler : exn -> script A)
  : script A :=
  fun w =>
    match body w with
    | (Returned a, w') => (Returned a, w')
    | (Raised e, w') => handler e w'
    end.

Definition when (b : bool) (c : script unit) : script unit :=
  if b then c else ret tt.

Definition get_world : script world := fun w => (Returned w, w).

Definition emit (x : widget) : script unit :=
  fun w => (Returned tt, set_screen (x :: screen w) w).

(** *** The file system calls *)

Definition os_path_exists (path : string) : script bool :=
  fun w => (Returned (bool_decide (is_Some (files w !! path))), w).

(** [open(path, mode)] for writing: mode [w] empties or creates the file,
    mode [a] creates it when it is missing. *)
Definition open_file (path : string) (mode : open_mode) : script unit :=
  fun w =>
    if writable w then
      let w' := set_opened ((path, mode) :: opened w) w in
      match mode, files w !! path with
      | ModeA, Some _ => (Returned tt, w')
      | _, _ => (Returned tt, set_files (<[path := EmptyString]> (files w)) w')
      end
    else (Raised (PermissionError path), w).

(** [f.write(text)] on a file opened for writing: the text goes to the end. *)
Definition file_write (path : string) (text : string) : script unit :=
  fun w =>
    (Returned tt,
     set_files (<[path := default EmptyString (files w !! path) ++ text]> (files w)) w).

Definition os_remove (path : string) : script unit :=
  fun w =>
    match files w !! path with
    | None => (Raised (FileNotFoundError path), w)
    | Some _ =>
        if writable w then (Returned tt, set_files (delete path (files w)) w)
        else (Raised (PermissionError path), w)
    end.

Definition read_csv (path : string) : script dataframe :=
  fun w =>
    match files w !! path with
    | None => (Raised (FileNotFoundError path), w)
    | Some text =>
        match parse_csv text with
        | inl e => (Raised e, w)
        | inr df => (Returned df, w)
        end
    end.

(** [ort.InferenceSession(path, ...)]: reads and checks the model file and
    builds a new session object. *)
Definition InferenceSession (path : string) : script session :=
  fun w =>
    match model_files w !! path with
    | None => (Raised (NoSuchFile path), w)
    | Some None => (Raised (InvalidProtobuf path), w)
    | Some (Some m) =>
        (Returned {| sess_id := sessions_built w; sess_model := m |},
         set_sessions_built (S (sessions_built w)) w)
    end.

(** [session.run(None, {input_name: x})], reduced to its scalar. *)
Definition session_run (s : session) (input_name : string)
    (x : list spec_float) : script spec_float :=
  if String.eqb input_name (input_slot (sess_model s)) then
    match infer (sess_model s) x with
    | Some y => ret y
    | None => raise RuntimeException
    end
  else raise RuntimeException.

(** *** Streamlit's two memoizing decorators, keyed by the argument *)

Definition cache_resource (f : string -> script session) (path : string)
  : script session :=
  fun w =>
    match resource_cache w !! path with
    | Some s => (Returned s, w)
    | None =>
        match f path w with
        | (Returned s, w') =>
            (Returned s, set_resource_cache (<[path := s]> (resource_cache w')) w')
        | (Raised e, w') => (Raised e, w')
        end
    end.

Definition cache_data (f : string -> script (option dataframe)) (path : string)
  : script (option dataframe) :=
  fun w =>
    match data_cache w !! path with
    | Some v => (Returned v, w)
    | None =>
        match f path w with
        | (Returned v, w') =>
            (Returned v, set_data_cache (<[path := v]> (data_cache w')) w')
        | (Raised e, w') => (Raised e, w')
        end
    end.

(** ** What the user does before a run *)

Inductive language : Type := English | Arabic.

(** The six sliders; the two temperatures of the steam are integer sliders. *)
Record sliders : Type := {
  steam_flow : spec_float;
  hrh_p : spec_float;
  hrh_t : Z;
  main_p : spec_float;
  hp_t : Z;
  ambient : spec_float }.

Record interaction : Type := {
  LANG : language;
  inputs : sliders;
  predict_pressed : bool;
  show_log : bool;
  clear_pressed : bool;
  (** what [datetime.datetime.now()] returns in this run *)
  now : datetime }.

(** The ranges the sliders enforce (lines 77-82 of stream1.py, 99-105 of
    stream11.py). The three bounds that are no integers are the binary64
    values of the literals [1.2], [4.39] and [17.39]. *)
Definition f1_2 : spec_float := S754_finite false 5404319552844595 (-52).
Definition f4_39 : spec_float := S754_finite false 4942700591039119 (-50).
Definition f17_39 : spec_float := S754_finite false 4894849844998308 (-48).

Definition slider_ok (lo hi x : spec_float) : bool := SFleb lo x && SFleb x hi.

Definition sliders_in_range (i : sliders) : bool :=
  slider_ok (float_of_Z 180) (float_of_Z 910) (steam_flow i)
  && slider_ok f1_2 f4_39 (hrh_p i)
  && (390 <=? hrh_t i) && (hrh_t i <=? 540)
  && slider_ok (float_of_Z 7) f17_39 (main_p i)
  && (390 <=? hp_t i) && (hp_t i <=? 540)
  && slider_ok (float_of_Z (-4)) (float_of_Z 50) (ambient i).

(** [np.array([[...]], dtype=np.float32)]. *)
Definition input_vector (i : sliders) : list spec_float :=
  [ to_float32 (steam_flow i); to_float32 (hrh_p i);
    to_float32 (float_of_Z (hrh_t i)); to_float32 (main_p i);
    to_float32 (float_of_Z (hp_t i)); to_float32 (ambient i) ].

(** The labels the blocks below use, [l["output"]] and [l["download"]];
    the two scripts have the same entries for them. *)
Definition l_output (lang : language) : string :=
  match lang with
  | English => "Predicted Output"
  | Arabic => "القيمة المتوقعة"
  end.

Definition l_download (lang : language) : string :=
  match lang with
  | English => "Download Log as CSV"
  | Arabic => "تحميل السجل"
  end.

(** [f"{v:.2f}"] for a number. *)
Definition py_format_2f (v : pyval) : string :=
  match py_float v with
  | Some f => format_2f f
  | None => EmptyString
  end.

Definition result_html (lang : language) (shown : string) : string :=
  "<h2 style='color:darkblue;'>" ++ l_output lang ++ ": " ++ shown ++ " MW</h2>".

Definition log_path : string := "unit2_log.csv".
Definition MODEL_PATH : string := "unit2mwbig_model.onnx".

Definition header : list string :=
  ["Time"; "Steam Flow"; "HRH P"; "HRH T"; "Main Steam P"; "HP Temp";
   "Ambient"; "Predicted MW"].

Definition msg_no_log : string := "📭 No predictions logged yet.".
Definition msg_cleared : string := "✅ Log cleared successfully.".
Definition msg_nothing_to_clear : string := "No log file to clear.".

(** [str(e)] of an exception. *)
Definition exn_str (e : exn) : string :=
  match e with
  | PermissionError p => "[Errno 13] Permission denied: '" ++ p ++ "'"
  | FileNotFoundError p => "[Errno 2] No such file or directory: '" ++ p ++ "'"
  | NoSuchFile p => "[ONNXRuntimeError] : 3 : NO_SUCHFILE : Load model from " ++ p ++ " failed"
  | InvalidProtobuf p => "[ONNXRuntimeError] : 7 : INVALID_PROTOBUF : Load model from " ++ p ++ " failed"
  | RuntimeException => "[ONNXRuntimeError] : 6 : RUNTIME_EXCEPTION"
  | EmptyDataError => "No columns to parse from file"
  | ParserError => "Error tokenizing data"
  end.

(** ** stream1.py *)

Module Stream1.

(** Line 92: [clipped_result = max(min(predicted_mw, 290), 140)], where
    [predicted_mw] is the numpy binary32 scalar [result[0][0][0]] and the
    bounds are Python ints. *)
Definition clipped_result (predicted_mw : spec_float) : pyval :=
  py_max (py_min (NpFloat32 predicted_mw) (PyInt 290)) (PyInt 140).

(** Lines 97-102: the dict [log], in insertion order. *)
Definition log (t : datetime) (i : sliders) (clipped : pyval)
  : list (string * pyval) :=
  [ ("Time", PyStr (strftime t));
    ("Steam Flow", PyFloat (steam_flow i)); ("HRH P", PyFloat (hrh_p i));
    ("HRH T", PyInt (hrh_t i));
    ("Main Steam P", PyFloat (main_p i)); ("HP Temp", PyInt (hp_t i));
    ("Ambient", PyFloat (ambient i));
    ("Predicted MW", clipped) ].

(** [pd.DataFrame([log]).to_csv(path, mode=..., header=..., index=False)]:
    the one-row frame written with pandas' defaults (line terminator
    [os.linesep]). *)
Definition to_csv (df : list (string * pyval)) (path : string)
    (mode : open_mode) (with_header : bool) : script unit :=
  open_file path mode;;
  w <- get_world;;
  when with_header
    (file_write path (csv_record (linesep w) (map fst df) ++ linesep w));;
  file_write path
    (csv_record (linesep w) (map (fun c => pandas_str (snd c)) df) ++ linesep w).

(** Lines 103-107: the frame of the one record goes to the log file. *)
Definition append_log (df : list (string * pyval)) : script unit :=
  file_exists <- os_path_exists log_path;;
  if file_exists then to_csv df log_path ModeA false
  else to_csv df log_path ModeW true.

(** Lines 85-107. *)
Definition predict_block (i : interaction) (sess : session)
    (input_name : string) : script unit :=
  let input_data := input_vector (inputs i) in
  predicted_mw <- session_run sess input_name input_data;;
  let clipped := clipped_result predicted_mw in
  emit (st_markdown (result_html (LANG i) (py_format_2f clipped)));;
  append_log (log (now i) (inputs i) clipped).

(** Lines 111-118. *)
Definition log_viewer (i : interaction) : script unit :=
  file_exists <- os_path_exists log_path;;
  if file_exists then
    df_log <- read_csv log_path;;
    emit (st_dataframe df_log);;
    emit (st_download_button ("📥 " ++ l_download (LANG i)) df_log
            log_path "text/csv")
  else emit (st_info msg_no_log).

(** Lines 121-124. *)
Definition clear_block : script unit :=
  file_exists <- os_path_exists log_path;;
  if file_exists then
    os_remove log_path;;
    emit (st_success msg_cleared)
  else ret tt.

(** One run of the script, top to bottom: the session is built anew in
    every run (lines 71-74). *)
Definition run (i : interaction) : script unit :=
  sess <- InferenceSession MODEL_PATH;;
  let input_name := input_slot (sess_model sess) in
  when (predict_pressed i) (predict_block i sess input_name);;
  when (show_log i) (log_viewer i);;
  when (clear_pressed i) clear_block.

End Stream1.

(** ** stream11.py *)

Module Stream11.

(** Lines 75-89: [get_session], under [st.cache_resource]. *)
Definition get_session : string -> script session :=
  cache_resource InferenceSession.

(** Line 113: [clipped_result = max(min(predicted_mw, 290.0), 140.0)]. *)
Definition clipped_result (predicted_mw : spec_float) : spec_float :=
  float_max (float_min predicted_mw f290) f140.

(** Lines 118-121: the list [row]. *)
Definition row (t : datetime) (i : sliders) (clipped : spec_float)
  : list cell :=
  [ CellStr (strftime t);
    CellFloat (steam_flow i); CellFloat (hrh_p i); CellInt (hrh_t i);
    CellFloat (main_p i); CellInt (hp_t i); CellFloat (ambient i);
    CellFloat clipped ].

(** [csv.writer(f).writerow(cells)]. *)
Definition writerow (path : string) (cells : list cell) : script unit :=
  file_write path (csv_record crlf (map cell_str cells) ++ crlf).

(** Lines 122-130: the row goes to the log file. *)
Definition append_log (r : list cell) : script unit :=
  file_exists <- os_path_exists log_path;;
  try_except
    (open_file log_path ModeA;;
     when (negb file_exists) (writerow log_path (map CellStr header));;
     writerow log_path r)
    (fun e => emit (st_warning ("Could not write log: " ++ exn_str e))).

(** Lines 109-130. *)
Definition predict_block (i : interaction) (sess : session)
    (input_name : string) : script unit :=
  let x := input_vector (inputs i) in
  y <- session_run sess input_name x;;
  let predicted_mw := to_float64 y in
  let clipped := clipped_result predicted_mw in
  emit (st_markdown (result_html (LANG i) (format_2f clipped)));;
  append_log (row (now i) (inputs i) clipped).

(** Lines 136-144: [load_log], under [st.cache_data]. *)
Definition load_log_body (path : string) : script (option dataframe) :=
  file_exists <- os_path_exists path;;
  if negb file_exists then ret None
  else try_except (df <- read_csv path;; ret (Some df)) (fun _ => ret None).

Definition load_log : string -> script (option dataframe) :=
  cache_data load_log_body.

(** Lines 146-153. *)
Definition log_viewer (i : interaction) : script unit :=
  df_log <- load_log log_path;;
  match df_log with
  | Some df =>
      emit (st_dataframe df);;
      emit (st_download_button ("📥 " ++ l_download (LANG i)) df
              log_path "text/csv")
  | None => emit (st_info msg_no_log)
  end.

(** Lines 156-164. *)
Definition clear_block : script unit :=
  try_except
    (file_exists <- os_path_exists log_path;;
     if file_exists then
       os_remove log_path;;
       emit (st_success msg_cleared)
     else emit (st_info msg_nothing_to_clear))
    (fun e => emit (st_warning ("Could not clear log: " ++ exn_str e))).

(** One run of the script, top to bottom. *)
Definition run (i : interaction) : script unit :=
  sess <- get_session MODEL_PATH;;
  let input_name := input_slot (sess_model sess) in
  when (predict_pressed i) (predict_block i sess input_name);;
  when (show_log i) (log_viewer i);;
  when (clear_pressed i) clear_block.

End Stream11.

(** A run starts from an empty page. *)
Definition rerun (r : script unit) (w : world) : result unit * world :=
  r (set_screen [] w).

(** ** Sample data *)

(** The defaults of the six sliders. *)
Definition default_sliders : sliders :=
  {| steam_flow := float_of_Z 850; hrh_p := float_of_Z 4; hrh_t := 525;
     main_p := float_of_Z 16; hp_t := 538; ambient := float_of_Z 25 |}.

Definition sample_time : datetime :=
  {| year := 2025; month := 8; day := 20; hour := 9; minute := 5; second := 7 |}.

(** A model that answers [y] whatever the input. *)
Definition constant_model (y : spec_float) : onnx_model :=
  {| input_slot := "float_input"; infer := fun _ => Some y |}.

Definition sample_session (y : spec_float) : session :=
  {| sess_id := 0; sess_model := constant_model y |}.

(** A server that has just started in a directory holding the model file
    and no log. *)
Definition fresh_world (m : onnx_model) (can_write : bool) : world :=
  {| files := ∅; writable := can_write;
     model_files := {[ MODEL_PATH := Some m ]};
     linesep := posix_linesep;
     resource_cache := ∅; data_cache := ∅;
     sessions_built := 0; opened := []; screen := [] |}.

Definition user (predict view clear : bool) : interaction :=
  {| LANG := English; inputs := default_sliders;
     predict_pressed := predict; show_log := view; clear_pressed := clear;
     now := sample_time |}.

Definition f200 : spec_float := Eval vm_compute in float_of_Z 200.
Definition f310 : spec_float := Eval vm_compute in float_of_Z 310.
Definition f50 : spec_float := Eval vm_compute in float_of_Z 50.

(** The binary64 value of the literal [200.1]; as a binary32 number it is
    200.100006103515625. *)
Definition f200_1 : spec_float := S754_finite false 7040392854975283 (-45).

(** ** Vocabulary of the statements *)

(** A plain text has no comma, no double quote and no line break: the
    tokenizer reads it as it is, and the writers do not quote it. *)
Definition special (c : ascii) : bool :=
  Ascii.eqb c comma || Ascii.eqb c dquote || Ascii.eqb c cr || Ascii.eqb c lf.

Fixpoint plain (s : string) : bool :=
  match s with
  | EmptyString => true
  | String c r => negb (special c) && plain r
  end.

(** The text of the log once a record is appended: the header goes first
    when there was no log. *)
Definition log_after (old : option string) (head line : string) : string :=
  match old with
  | Some t => t ++ line
  | None => head ++ line
  end.

Definition could_not_write : widget :=
  st_warning ("Could not write log: " ++ exn_str (PermissionError log_path)).

Definition could_not_clear : widget :=
  st_warning ("Could not clear log: " ++ exn_str (PermissionError log_path)).

(** The heading that shows a prediction. *)
Definition shown (lang : language) (text : string) : widget :=
  st_markdown (result_html lang text).

(** The timestamp layout [YYYY-MM-DD HH:MM:SS]. *)
Definition is_digit (c : ascii) : bool :=
  (48 <=? nat_of_ascii c)%nat && (nat_of_ascii c <=? 57)%nat.

Definition is_timestamp (s : string) : bool :=
  match list_ascii_of_string s with
  | [y1; y2; y3; y4; d1; m1; m2; d2; a1; a2; sp; h1; h2; c1; n1; n2; c2; s1; s2] =>
      forallb is_digit [y1; y2; y3; y4; m1; m2; a1; a2; h1; h2; n1; n2; s1; s2]
      && Ascii.eqb d1 "-" && Ascii.eqb d2 "-" && Ascii.eqb sp " "
      && Ascii.eqb c1 ":" && Ascii.eqb c2 ":"
  | _ => false
  end.

Definition two_digits (s : string) : bool :=
  match s with
  | String a (String b EmptyString) => is_digit a && is_digit b
  | _ => false
  end.

Definition four_digits (s : string) : bool :=
  match s with
  | String a (String b (String c (String d EmptyString))) =>
      is_digit a && is_digit b && is_digit c && is_digit d
  | _ => false
  end.


(** What happens in the server process of stream11.py: calls of
    [get_session] and runs of the script, in any order. *)
Inductive event : Type :=
  | Call (path : string)
  | Run (i : interaction).

Definition step (w : world) (e : event) : world :=
  match e with
  | Call path => snd (Stream11.get_session path w)
  | Run i => snd (rerun (Stream11.run i) w)
  end.

Definition after (w : world) (es : list event) : world := fold_left step es w.

(** A script that leaves the sessions alone. *)
Definition keeps_sessions {A : Type} (c : script A) : Prop :=
  forall w, resource_cache (snd (c w)) = resource_cache w.

(** One prediction event: when it was made, the sliders and the raw
    output of the model. *)
Record prediction : Type := {
  at_time : datetime;
  readings : sliders;
  raw : spec_float }.

(** What each script appends for it, and the texts of the eight cells. *)
Definition row_11 (p : prediction) : list cell :=
  Stream11.row (at_time p) (readings p)
    (Stream11.clipped_result (to_float64 (raw p))).

Definition frame_1 (p : prediction) : list (string * pyval) :=
  Stream1.log (at_time p) (readings p) (Stream1.clipped_result (raw p)).

Definition cells_11 (p : prediction) : list string := map cell_str (row_11 p).

Definition cells_1 (p : prediction) : list string :=
  map (fun c => pandas_str (snd c)) (frame_1 p).

(** The world after the records of some predictions were appended. *)
Definition appended_11 (w : world) (ps : list prediction) : world :=
  fold_left (fun w p => snd (Stream11.append_log (row_11 p) w)) ps w.

Definition appended_1 (w : world) (ps : list prediction) : world :=
  fold_left (fun w p => snd (Stream1.append_log (frame_1 p) w)) ps w.

(** The records a read gives: none when the log is absent. *)
Definition records (v : option dataframe) : list (list string) :=
  match v with
  | Some df => rows df
  | None => []
  end.

(** Characters pushed in front of the field being read. *)
Fixpoint push_str (f : string) (recs : list (list string)) : list (list string) :=
  match f with
  | EmptyString => recs
  | String c r => push_char c (push_str r recs)
  end.

(** The line terminators of the platforms: CR LF and LF. *)
Definition line_break (eol : string) : bool :=
  String.eqb eol crlf || String.eqb eol posix_linesep.

(** Lines of unquoted fields. *)
Fixpoint log_text (eol : string) (recs : list (list string)) : string :=
  match recs with
  | [] => EmptyString
  | r :: rest => join_fields r ++ eol ++ log_text eol rest
  end.

(** A text without double quotes. *)
Fixpoint quote_free (s : string) : bool :=
  match s with
  | EmptyString => true
  | String c r => negb (Ascii.eqb c dquote) && quote_free r
  end.

(** A record of two or more plain fields. *)
Definition wide (r : list string) : bool :=
  match r with
  | _ :: _ :: _ => forallb plain r
  | _ => false
  end.

(** ** Reading the texts back

    What the fields of a record say is told by reading them as a program
    that opens the log would: a number field by the decimal it spells, the
    Time field by its six numbers. *)

(** Numbers of the form [c * 2^a * 10^b], for [a >= -1100] and
    [b >= -400], all multiplied by [2^1100 * 10^400], which makes them
    integers that can be compared. *)
Definition scaled (c a b : Z) : Z := c * 2 ^ (a + 1100) * 10 ^ (b + 400).

(** The two numbers of a binary format next to [m * 2^e]: the one below
    is half as far when [m * 2^e] is a power of two. *)
Definition next_below (prec emin : Z) (m : positive) (e : Z) : Z :=
  if (Zpos m =? 2 ^ (prec - 1)) && (emin <? e)
  then scaled (2 ^ prec - 1) (e - 1) 0
  else scaled (Zpos m - 1) e 0.

Definition next_above (m : positive) (e : Z) : Z := scaled (Zpos m + 1) e 0.

(** The decimal [d * 10^q] is read as [m * 2^e]: it lies nearer to it than
    to the numbers next to it, or half way to one of them when [m] is
    even. *)
Definition nearest (prec emin : Z) (m : positive) (e d q : Z) : Prop :=
  let x := scaled d 0 q in
  let v := scaled (Zpos m) e 0 in
  let lo := next_below prec emin m e in
  let hi := next_above m e in
  -400 <= q
  /\ ((lo + v < 2 * x /\ 2 * x < v + hi)
      \/ (Z.even (Zpos m) = true /\ (2 * x = lo + v \/ 2 * x = v + hi))).

(** The number a string of digits spells, continuing from [acc]. *)
Definition digit_value (c : ascii) : option Z :=
  if is_digit c then Some (Z.of_nat (nat_of_ascii c) - 48) else None.

Fixpoint read_digits (acc : Z) (s : string) : option Z :=
  match s with
  | EmptyString => Some acc
  | String c r =>
      match digit_value c with
      | Some v => read_digits (10 * acc + v) r
      | None => None
      end
  end.

(** A number without sign: one digit or more. *)
Definition read_nat (s : string) : option Z :=
  match s with
  | EmptyString => None
  | _ => read_digits 0 s
  end.

(** An integer, as [int(text)] reads it. *)
Definition read_int (s : string) : option Z :=
  match s with
  | EmptyString => None
  | String c r =>
      if Ascii.eqb c "-" then option_map Z.opp (read_nat r) else read_nat s
  end.

(** The text before the first [c], and the text after it if there is
    one. *)
Fixpoint split_at (c : ascii) (s : string) : string * option string :=
  match s with
  | EmptyString => (EmptyString, None)
  | String x r =>
      if Ascii.eqb x c then (EmptyString, Some r)
      else let '(a, b) := split_at c r in (String x a, b)
  end.

(** The exponent of a decimal: digits after an optional sign. *)
Definition read_exponent (s : string) : option Z :=
  match s with
  | EmptyString => None
  | String c r =>
      if Ascii.eqb c "+" then read_nat r
      else if Ascii.eqb c "-" then option_map Z.opp (read_nat r)
      else read_nat s
  end.

(** A decimal without sign: digits, an optional point followed by digits,
    an optional exponent. [Some (d, q)] is the number [d * 10^q]. *)
Definition read_unsigned (body : string) : option (Z * Z) :=
  let '(mantissa, ex) := split_at "e" body in
  let '(whole, point) := split_at "." mantissa in
  let frac := default EmptyString point in
  match read_nat whole with
  | None => None
  | Some a =>
      match read_digits a frac,
            match ex with None => Some 0 | Some x => read_exponent x end with
      | Some d, Some x => Some (d, x - Z.of_nat (String.length frac))
      | _, _ => None
      end
  end.

(** A decimal as [float(text)] reads it; [Some (neg, d, q)] is the number
    [d * 10^q], negated when [neg]. *)
Definition read_decimal (s : string) : option (bool * Z * Z) :=
  match s with
  | EmptyString => None
  | String c r =>
      if Ascii.eqb c "-"
      then option_map (fun dq => (true, fst dq, snd dq)) (read_unsigned r)
      else option_map (fun dq => (false, fst dq, snd dq)) (read_unsigned s)
  end.

(** The text reads as the number [f] of a binary format: [float(text)]
    for binary64, [numpy.float32(text)] for binary32. *)
Definition reads_float (prec emin : Z) (text : string) (f : spec_float)
  : Prop :=
  match f with
  | S754_nan => text = "nan"
  | S754_infinity s => text = if s then "-inf" else "inf"
  | S754_zero s => exists q, read_decimal text = Some (s, 0, q)
  | S754_finite s m e =>
      exists d q,
        read_decimal text = Some (s, d, q) /\ nearest prec emin m e d q
  end.

(** A text of digits; a text without the character [c]. *)
Fixpoint all_digits (s : string) : bool :=
  match s with
  | EmptyString => true
  | String c r => is_digit c && all_digits r
  end.

Fixpoint lacks (c : ascii) (s : string) : bool :=
  match s with
  | EmptyString => true
  | String x r => negb (Ascii.eqb x c) && lacks c r
  end.

(** The time a text of the layout [YYYY-MM-DD HH:MM:SS] tells. *)
Definition read_timestamp (s : string) : option datetime :=
  match list_ascii_of_string s with
  | [y1; y2; y3; y4; d1; m1; m2; d2; a1; a2; sp; h1; h2; c1; n1; n2; c2; s1; s2] =>
      if Ascii.eqb d1 "-" && Ascii.eqb d2 "-" && Ascii.eqb sp " "
         && Ascii.eqb c1 ":" && Ascii.eqb c2 ":"
      then
        match read_nat (string_of_list_ascii [y1; y2; y3; y4]),
              read_nat (string_of_list_ascii [m1; m2]),
              read_nat (string_of_list_ascii [a1; a2]),
              read_nat (string_of_list_ascii [h1; h2]),
              read_nat (string_of_list_ascii [n1; n2]),
              read_nat (string_of_list_ascii [s1; s2]) with
        | Some y, Some mo, Some d, Some h, Some mi, Some se =>
            Some {| year := Z.to_N y; month := Z.to_N mo; day := Z.to_N d;
                    hour := Z.to_N h; minute := Z.to_N mi;
                    second := Z.to_N se |}
        | _, _, _, _, _, _ => None
        end
      else None
  | _ => None
  end.

(** The powers of ten [x, 10 x, 100 x, ...], computed once for a table. *)
Fixpoint tens_from (n : nat) (x : Z) : list Z :=
  match n with
  | O => []
  | S k => x :: tens_from k (10 * x)
  end.

(** The estimate [b * 30103 / 100000 - 1] of the decimal point of a number
    between [2^b] and [2^(b+1)] is at most four short of it. *)
Definition estimate_ok (tens : list Z) (b : Z) : bool :=
  let p0 := b * 30103 / 100000 - 1 in
  let ten := fun q => nth (Z.to_nat (q + 400)) tens 0 in
  (-380 <=? p0) && (p0 <=? 380)
  && (1 * 2 ^ (0 + 1100) * ten (p0 - 1) <=? 1 * 2 ^ (b + 1100) * ten 0)
  && (1 * 2 ^ (b + 1 + 1100) * ten 0 <=? 1 * 2 ^ (0 + 1100) * ten (p0 + 4)).

Definition reads_float64 : string -> spec_float -> Prop :=
  reads_float prec64 (-1074).
Definition reads_float32 : string -> spec_float -> Prop :=
  reads_float prec32 (-149).

(** The text shows [v] to two decimals: it has two digits after the point
    and spells a number no further than half a hundredth from [v]. *)
Definition shows_two_decimals (text : string) (v : spec_float) : Prop :=
  match v with
  | S754_nan => text = "nan"
  | S754_infinity s => text = if s then "-inf" else "inf"
  | S754_zero s => read_decimal text = Some (s, 0, -2)
  | S754_finite s m e =>
      exists d,
        read_decimal text = Some (s, d, -2)
        /\ 2 * Z.abs (scaled d 0 (-2) - scaled (Zpos m) e 0) <= scaled 1 0 (-2)
  end.

(** A slider value that is a number: a binary64 value, no NaN. *)
Definition is_number (f : spec_float) : bool :=
  valid_binary prec64 emax64 f && negb (is_nan f).

Definition sliders_are_numbers (sl : sliders) : bool :=
  is_number (steam_flow sl) && is_number (hrh_p sl)
  && is_number (main_p sl) && is_number (ambient sl).

(** The eight fields of a record: plain texts, so that the commas of the
    line are those between them, of which the first seven tell the time
    and the six slider values, and the eighth is described by [P]. *)
Definition tells (fields : list string) (t : datetime) (sl : sliders)
    (P : string -> Prop) : Prop :=
  match fields with
  | [c1; c2; c3; c4; c5; c6; c7; c8] =>
      forallb plain fields = true
      /\ is_timestamp c1 = true /\ read_timestamp c1 = Some t
      /\ reads_float64 c2 (steam_flow sl)
      /\ reads_float64 c3 (hrh_p sl)
      /\ read_int c4 = Some (hrh_t sl)
      /\ reads_float64 c5 (main_p sl)
      /\ read_int c6 = Some (hp_t sl)
      /\ reads_float64 c7 (ambient sl)
      /\ P c8
  | _ => False
  end.

(** What the Predicted MW field of stream1.py says of the raw binary32
    output [y]: the int bound where [y] was clamped, [y] itself as numpy
    prints it where it was not, nothing for a NaN. *)
Definition tells_clamped32 (y : spec_float) (text : string) : Prop :=
  if is_nan y then text = EmptyString
  else if SFltb f290 (to_float64 y) then read_int text = Some 290
  else if SFltb (to_float64 y) f140 then read_int text = Some 140
  else reads_float32 text y.

(** The mode in which a script opens the log, by whether it exists. *)
Definition mode_when (existing absent : open_mode) (old : option string)
  : open_mode :=
  match old with
  | Some _ => existing
  | None => absent
  end.

Definition header_line : string :=
  "Time,Steam Flow,HRH P,HRH T,Main Steam P,HP Temp,Ambient,Predicted MW".

(** * Properties *)

(** ** The order of floats *)

Section FloatOrder.

Lemma SFcompare_antisym (x y : spec_float) :
  SFcompare y x = option_map CompOpp (SFcompare x y).
Proof.
  destruct x as [sx|sx| |sx mx ex], y as [sy|sy| |sy my ey]; simpl;
    try reflexivity; try (destruct sx, sy; reflexivity);
    try (destruct sx; reflexivity); try (destruct sy; reflexivity).
  destruct sx, sy; simpl; try reflexivity;
    rewrite (Z.compare_antisym ex ey);
    destruct (ex ?= ey); simpl; try reflexivity;
    change (Pos.compare_cont Eq my mx) with (Pos.compare my mx);
    change (Pos.compare_cont Eq mx my) with (Pos.compare mx my);
    rewrite (Pos.compare_antisym mx my); destruct (mx ?= my)%positive; reflexivity.
Qed.

Lemma SFcompare_total (x y : spec_float) :
  is_nan x = false -> is_nan y = false -> exists c, SFcompare x y = Some c.
Proof.
  destruct x, y; simpl; intros; try discriminate; eauto.
Qed.

Lemma SFltb_trans (x y z : spec_float) :
  SFltb x y = true -> SFltb y z = true -> SFltb x z = true.
Proof.
  unfold SFltb.
  destruct x as [sx|sx| |sx mx ex], y as [sy|sy| |sy my ey],
           z as [sz|sz| |sz mz ez]; simpl;
    repeat match goal with s : bool |- _ => destruct s end; simpl;
    try congruence.
  all: change (Pos.compare_cont Eq) with Pos.compare.
  all: destruct (Z.compare_spec ex ey), (Z.compare_spec ey ez),
         (Z.compare_spec ex ez); try congruence; try lia.
  all: destruct (Pos.compare_spec mx my), (Pos.compare_spec my mz),
         (Pos.compare_spec mx mz); simpl; try congruence; try lia.
Qed.

(** [x < y] excludes [y < x] and [y <= x]. *)
Lemma SFltb_asym (x y : spec_float) :
  SFltb x y = true -> SFltb y x = false /\ SFleb y x = false.
Proof.
  unfold SFltb, SFleb. rewrite (SFcompare_antisym x y).
  destruct (SFcompare x y) as [[]|]; simpl; intros; split; congruence.
Qed.

Lemma SFleb_not_ltb (x y : spec_float) :
  SFleb x y = true -> SFltb y x = false.
Proof.
  unfold SFltb, SFleb. rewrite (SFcompare_antisym x y).
  destruct (SFcompare x y) as [[]|]; simpl; congruence.
Qed.

(** Among numbers, [not (y < x)] is [x <= y]. *)
Lemma SFleb_of_not_ltb (x y : spec_float) :
  is_nan x = false -> is_nan y = false -> SFltb y x = false -> SFleb x y = true.
Proof.
  intros Hx Hy. destruct (SFcompare_total x y Hx Hy) as [c Hc].
  unfold SFltb, SFleb. rewrite (SFcompare_antisym x y), Hc.
  destruct c; simpl; congruence.
Qed.

End FloatOrder.

(** ** Re-rounding never makes a NaN *)

Section Rounding.

Variables prec emax : Z.

Lemma shr_1_nonneg (mrs : shr_record) :
  0 <= shr_m mrs -> 0 <= shr_m (shr_1 mrs).
Proof.
  destruct mrs as [m r s]; simpl.
  destruct m as [|p|p]; [simpl; lia | | lia].
  destruct p; simpl; lia.
Qed.

Lemma iter_shr_1_nonneg (n : positive) :
  forall mrs, 0 <= shr_m mrs -> 0 <= shr_m (SpecFloat.iter_pos shr_1 n mrs).
Proof.
  induction n as [n IH|n IH|]; simpl; intros mrs H.
  - apply IH, IH, shr_1_nonneg, H.
  - apply IH, IH, H.
  - apply shr_1_nonneg, H.
Qed.

Lemma shr_fexp_nonneg (m e : Z) (l : location) :
  0 <= m -> 0 <= shr_m (fst (shr_fexp prec emax m e l)).
Proof.
  intros H. unfold shr_fexp, shr.
  assert (H0 : 0 <= shr_m (shr_record_of_loc m l))
    by (destruct l as [|[]]; simpl; exact H).
  destruct (fexp prec emax (Zdigits2 m + e) - e); simpl; auto.
  apply iter_shr_1_nonneg, H0.
Qed.

Lemma round_nearest_even_nonneg (m : Z) (l : location) :
  0 <= m -> 0 <= round_nearest_even m l.
Proof.
  intros H. destruct l as [|[]]; simpl; try lia.
  destruct (Z.even m); lia.
Qed.

Lemma binary_round_aux_not_nan (sx : bool) (mx ex : Z) (lx : location) :
  0 <= mx -> is_nan (binary_round_aux prec emax sx mx ex lx) = false.
Proof.
  intros H. unfold binary_round_aux.
  pose proof (shr_fexp_nonneg mx ex lx H) as H1.
  destruct (shr_fexp prec emax mx ex lx) as [mrs' e']; simpl in H1.
  pose proof (round_nearest_even_nonneg (shr_m mrs') (loc_of_shr_record mrs') H1) as H2.
  pose proof (shr_fexp_nonneg _ e' loc_Exact H2) as H3.
  destruct (shr_fexp prec emax _ e' loc_Exact) as [mrs'' e'']; simpl in H3.
  destruct (shr_m mrs'') as [|p|p]; [reflexivity| |lia].
  destruct (e'' <=? emax - prec); reflexivity.
Qed.

Lemma binary_round_not_nan (sx : bool) (m : positive) (e : Z) :
  is_nan (binary_round prec emax sx m e) = false.
Proof.
  unfold binary_round.
  destruct (shl_align m e _) as [mz ez].
  apply binary_round_aux_not_nan. lia.
Qed.

Lemma round_to_nan (f : spec_float) :
  is_nan (round_to prec emax f) = is_nan f.
Proof.
  destruct f as [s|s| |s m e]; try reflexivity.
  unfold round_to, binary_normalize.
  destruct s; simpl; apply binary_round_not_nan.
Qed.

End Rounding.

(** ** The clamp *)

Section Clamp.

(** The float literals of the scripts, as [repr] prints them back. *)
Example float_literals :
  map float_repr [f140; f290; f1_2; f4_39; f17_39; float_of_Z 850]
  = ["140.0"; "290.0"; "1.2"; "4.39"; "17.39"; "850.0"].
Proof. vm_compute. reflexivity. Qed.

Example format_2f_examples :
  map format_2f [f140; f290; f4_39; S754_nan] = ["140.00"; "290.00"; "4.39"; "nan"].
Proof. vm_compute. reflexivity. Qed.

Lemma float_of_Z_290 : float_of_Z 290 = f290.
Proof. reflexivity. Qed.

Lemma float_of_Z_140 : float_of_Z 140 = f140.
Proof. reflexivity. Qed.

(** The clamp of stream11.py, by cases. *)
Lemma clipped_above (x : spec_float) :
  SFltb f290 x = true -> Stream11.clipped_result x = f290.
Proof.
  intros H. unfold Stream11.clipped_result, float_min. rewrite H. reflexivity.
Qed.

Lemma clipped_below (x : spec_float) :
  SFltb x f140 = true -> Stream11.clipped_result x = f140.
Proof.
  intros H. unfold Stream11.clipped_result, float_min, float_max.
  assert (H1 : SFltb x f290 = true) by (apply (SFltb_trans x f140 f290 H); reflexivity).
  destruct (SFltb_asym _ _ H1) as [-> _]. rewrite H. reflexivity.
Qed.

Lemma clipped_between (x : spec_float) :
  SFltb f290 x = false -> SFltb x f140 = false -> Stream11.clipped_result x = x.
Proof.
  intros H1 H2. unfold Stream11.clipped_result, float_min, float_max.
  rewrite H1, H2. reflexivity.
Qed.

(** The clamp of stream1.py computes the same number, as a Python int at
    the two bounds. *)
Lemma clipped_result_agree (y : spec_float) :
  py_float (Stream1.clipped_result y)
  = Some (Stream11.clipped_result (to_float64 y)).
Proof.
  unfold Stream1.clipped_result, Stream11.clipped_result,
    py_min, py_max, float_min, float_max.
  assert (E1 : py_lt (PyInt 290) (NpFloat32 y) = SFltb f290 (to_float64 y))
    by reflexivity.
  rewrite E1. destruct (SFltb f290 (to_float64 y)) eqn:H1.
  - reflexivity.
  - assert (E2 : py_lt (NpFloat32 y) (PyInt 140) = SFltb (to_float64 y) f140)
      by reflexivity.
    rewrite E2. destruct (SFltb (to_float64 y) f140); reflexivity.
Qed.

(** A number leaves the clamp within the bounds. *)
Lemma clipped_in_range (x : spec_float) :
  is_nan x = false -> in_range (Stream11.clipped_result x) = true.
Proof.
  intros Hx.
  destruct (SFltb f290 x) eqn:H1; [rewrite clipped_above by exact H1; reflexivity|].
  destruct (SFltb x f140) eqn:H2; [rewrite clipped_below by exact H2; reflexivity|].
  rewrite clipped_between by assumption.
  unfold in_range.
  rewrite (SFleb_of_not_ltb f140 x), (SFleb_of_not_ltb x f290); auto.
Qed.

End Clamp.

(** ** The fields the scripts write need no quoting *)

Section PlainText.

Lemma plain_app (a b : string) : plain (a ++ b) = plain a && plain b.
Proof.
  induction a as [|c a IH]; simpl; [reflexivity|].
  rewrite IH. apply andb_assoc.
Qed.

Lemma plain_append (a b : string) :
  plain a = true -> plain b = true -> plain (a ++ b) = true.
Proof. intros Ha Hb. rewrite plain_app, Ha, Hb. reflexivity. Qed.

Lemma plain_string_of_uint (u : Decimal.uint) :
  plain (NilEmpty.string_of_uint u) = true.
Proof. induction u; simpl; auto. Qed.

Lemma plain_digits (n : N) : plain (digits n) = true.
Proof. apply plain_string_of_uint. Qed.

Lemma plain_zeros (n : nat) : plain (zeros n) = true.
Proof. induction n; simpl; auto. Qed.

Lemma plain_pad (w : nat) (n : N) : plain (pad w n) = true.
Proof. apply plain_append; [apply plain_zeros | apply plain_digits]. Qed.

Lemma plain_substring (s : string) :
  plain s = true -> forall n m, plain (substring n m s) = true.
Proof.
  induction s as [|c s IH]; intros H n m.
  - destruct n, m; reflexivity.
  - simpl in H. apply andb_prop in H as [Hc Hs].
    destruct n as [|n]; simpl.
    + destruct m as [|m]; [reflexivity|]. simpl. rewrite Hc. apply IH, Hs.
    + apply IH, Hs.
Qed.

Lemma plain_string_drop (n : nat) (s : string) :
  plain s = true -> plain (string_drop n s) = true.
Proof. intros H. apply plain_substring, H. Qed.

Lemma plain_strip_zeros (s : string) :
  plain s = true -> plain (strip_zeros s) = true.
Proof.
  induction s as [|c s IH]; simpl; intros H; [reflexivity|].
  apply andb_prop in H as [Hc Hs]. specialize (IH Hs).
  destruct (strip_zeros s) as [|c' s'].
  - destruct (Ascii.eqb c "0"); simpl; [reflexivity|]. rewrite Hc. reflexivity.
  - simpl. rewrite Hc. exact IH.
Qed.

Lemma plain_sign_str (s : bool) : plain (sign_str s) = true.
Proof. destruct s; reflexivity. Qed.

End PlainText.

Create HintDb plain.
#[export] Hint Resolve plain_append plain_digits plain_zeros plain_pad
  plain_substring plain_string_drop plain_strip_zeros plain_sign_str : plain.
#[export] Hint Extern 1 (plain (String _ EmptyString) = true) => reflexivity : plain.
#[export] Hint Extern 1 (plain EmptyString = true) => reflexivity : plain.
#[export] Hint Extern 1 (plain (String _ (String _ EmptyString)) = true) => reflexivity : plain.

Section PlainFields.

Lemma plain_int_str (z : Z) : plain (int_str z) = true.
Proof. destruct z; unfold int_str; auto with plain. Qed.

Lemma plain_strftime (t : datetime) : plain (strftime t) = true.
Proof. unfold strftime. auto 20 with plain. Qed.

Lemma plain_repr_layout (ds : string) (decpt : Z) :
  plain ds = true -> plain (repr_layout ds decpt) = true.
Proof.
  intros H. unfold repr_layout.
  repeat match goal with |- context [if ?b then _ else _] => destruct b end;
    auto 20 with plain.
Qed.

Lemma plain_float_repr (f : spec_float) : plain (float_repr f) = true.
Proof.
  destruct f as [s|s| |s m e];
    [destruct s; reflexivity | destruct s; reflexivity | reflexivity |].
  unfold float_repr.
  destruct (shortest 17 1 m e _) as [d q].
  apply plain_append; [apply plain_sign_str|].
  apply plain_repr_layout, plain_strip_zeros, plain_digits.
Qed.

Lemma plain_shortest_repr (top : positive) (emin : Z) (n : nat) (f : spec_float) :
  plain (shortest_repr top emin n f) = true.
Proof.
  destruct f as [s|s| |s m e];
    [destruct s; reflexivity | destruct s; reflexivity | reflexivity |].
  unfold shortest_repr.
  destruct (shortest_in top emin n 1 m e _) as [d q].
  apply plain_append; [apply plain_sign_str|].
  apply plain_repr_layout, plain_strip_zeros, plain_digits.
Qed.

Lemma plain_float32_repr (f : spec_float) : plain (float32_repr f) = true.
Proof. apply plain_shortest_repr. Qed.

Lemma plain_pandas_str (v : pyval) :
  match v with PyStr s => plain s = true | _ => True end ->
  plain (pandas_str v) = true.
Proof.
  destruct v as [s|z|f|f]; simpl; intros H;
    auto using plain_int_str, plain_float_repr;
    destruct (is_nan f); auto using plain_float_repr, plain_float32_repr.
Qed.

(** A plain field is written without quotes when lines end in LF or
    CR LF. *)
Lemma must_quote_line_break (eol : string) (c : ascii) :
  line_break eol = true -> special c = false -> must_quote eol c = false.
Proof.
  unfold line_break, special, must_quote. intros He Hc.
  repeat (apply orb_false_elim in Hc as [Hc ?]).
  rewrite Hc. match goal with H : Ascii.eqb c dquote = false |- _ => rewrite H end.
  apply orb_prop in He as [He|He]; apply String.eqb_eq in He; subst eol;
    simpl; repeat match goal with H : Ascii.eqb c _ = false |- _ => rewrite H end;
    reflexivity.
Qed.

Lemma needs_quotes_plain (eol s : string) :
  line_break eol = true -> plain s = true -> needs_quotes eol s = false.
Proof.
  intros He. induction s as [|c s IH]; simpl; intros H; [reflexivity|].
  apply andb_prop in H as [Hc Hs]. apply negb_true_iff in Hc.
  rewrite (must_quote_line_break eol c He Hc), (IH Hs). reflexivity.
Qed.

Lemma quote_field_plain (eol s : string) :
  line_break eol = true -> plain s = true -> quote_field eol s = s.
Proof.
  intros He H. unfold quote_field. rewrite needs_quotes_plain by assumption.
  reflexivity.
Qed.

Lemma map_quote_field_plain (eol : string) (fs : list string) :
  line_break eol = true -> forallb plain fs = true ->
  map (quote_field eol) fs = fs.
Proof.
  intros He. induction fs as [|f fs IH]; simpl; intros H; [reflexivity|].
  apply andb_prop in H as [Hf Hfs].
  rewrite quote_field_plain, IH by assumption. reflexivity.
Qed.

(** A record of two or more plain fields is written unquoted. *)
Lemma csv_record_plain (eol f g : string) (fs : list string) :
  line_break eol = true -> forallb plain (f :: g :: fs) = true ->
  csv_record eol (f :: g :: fs) = join_fields (f :: g :: fs).
Proof.
  intros He H. unfold csv_record.
  rewrite map_quote_field_plain by assumption.
  destruct f; reflexivity.
Qed.

Lemma csv_record_wide (eol : string) (r : list string) :
  line_break eol = true -> wide r = true -> csv_record eol r = join_fields r.
Proof.
  intros He. destruct r as [|f [|g fs]]; try discriminate.
  apply csv_record_plain, He.
Qed.

(** The cells of a row of stream11.py, and those of a frame of stream1.py. *)
Lemma plain_row (t : datetime) (i : sliders) (v : spec_float) :
  forallb plain (map cell_str (Stream11.row t i v)) = true.
Proof.
  simpl. rewrite plain_strftime, !plain_float_repr, !plain_int_str. reflexivity.
Qed.

Lemma plain_log (t : datetime) (i : sliders) (v : pyval) :
  match v with PyStr s => plain s = true | _ => True end ->
  forallb plain (map (fun c => pandas_str (snd c)) (Stream1.log t i v)) = true.
Proof.
  intros H. cbn [map forallb Stream1.log snd].
  repeat match goal with
         | |- context [plain (pandas_str ?x)] =>
             rewrite (plain_pandas_str x)
               by first [exact H | exact I | apply plain_strftime]
         end.
  reflexivity.
Qed.

Lemma plain_clipped (y : spec_float) :
  match Stream1.clipped_result y with PyStr s => plain s = true | _ => True end.
Proof.
  unfold Stream1.clipped_result, py_max, py_min.
  repeat match goal with
         | |- context [if ?b then _ else _] => destruct b
         end; exact I.
Qed.

End PlainFields.

(** ** What the blocks do, in closed form *)

Section Blocks.

Lemma exists_Some (w : world) (p t : string) :
  files w !! p = Some t -> os_path_exists p w = (Returned true, w).
Proof.
  intros E. unfold os_path_exists. rewrite E.
  rewrite bool_decide_true by (eexists; reflexivity). reflexivity.
Qed.

Lemma exists_None (w : world) (p : string) :
  files w !! p = None -> os_path_exists p w = (Returned false, w).
Proof.
  intros E. unfold os_path_exists. rewrite E.
  rewrite bool_decide_false by apply is_Some_None. reflexivity.
Qed.

Lemma session_run_own_slot (sess : session) (x : list spec_float) (w : world) :
  session_run sess (input_slot (sess_model sess)) x w =
  match infer (sess_model sess) x with
  | Some y => (Returned y, w)
  | None => (Raised RuntimeException, w)
  end.
Proof.
  unfold session_run. rewrite String.eqb_refl.
  destruct (infer _ x); reflexivity.
Qed.

(** stream11.py: the log is opened in append mode and the row is appended,
    after the header when the log is new; when the file cannot be opened a
    warning is shown instead. *)
Lemma append_log_11 (r : list cell) (w : world) :
  Stream11.append_log r w =
  if writable w then
    (Returned tt,
     set_files (<[log_path := log_after (files w !! log_path)
                    (csv_record crlf header ++ crlf)
                    (csv_record crlf (map cell_str r) ++ crlf)]> (files w))
       (set_opened ((log_path, ModeA) :: opened w) w))
  else (Returned tt, set_screen (could_not_write :: screen w) w).
Proof.
  unfold Stream11.append_log, bind.
  destruct (files w !! log_path) as [t|] eqn:E.
  - rewrite (exists_Some w _ t E).
    unfold try_except, bind, open_file, when, ret, Stream11.writerow,
      file_write, emit.
    destruct (writable w) eqn:W; [|reflexivity].
    rewrite E. simpl. rewrite E. reflexivity.
  - rewrite (exists_None w _ E).
    unfold try_except, bind, open_file, when, ret, Stream11.writerow,
      file_write, emit.
    destruct (writable w) eqn:W; [|reflexivity].
    rewrite E. simpl. rewrite !lookup_insert_eq. simpl.
    unfold set_files; simpl. rewrite !insert_insert_eq. reflexivity.
Qed.

(** stream1.py: the same, with the line terminator of the platform, but a
    new log is opened in write mode; when the file cannot be opened the
    exception leaves the block. *)
Lemma append_log_1 (df : list (string * pyval)) (w : world) :
  Stream1.append_log df w =
  if writable w then
    (Returned tt,
     set_files (<[log_path := log_after (files w !! log_path)
                    (csv_record (linesep w) (map fst df) ++ linesep w)
                    (csv_record (linesep w)
                       (map (fun c => pandas_str (snd c)) df) ++ linesep w)]>
                  (files w))
       (set_opened ((log_path, match files w !! log_path with
                               | Some _ => ModeA
                               | None => ModeW
                               end) :: opened w) w))
  else (Raised (PermissionError log_path), w).
Proof.
  unfold Stream1.append_log, bind.
  destruct (files w !! log_path) as [t|] eqn:E.
  - rewrite (exists_Some w _ t E).
    unfold Stream1.to_csv, bind, open_file, get_world, when, ret, file_write.
    destruct (writable w) eqn:W; [|reflexivity].
    rewrite E. simpl. rewrite E. reflexivity.
  - rewrite (exists_None w _ E).
    unfold Stream1.to_csv, bind, open_file, get_world, when, ret, file_write.
    destruct (writable w) eqn:W; [|reflexivity].
    simpl. rewrite !lookup_insert_eq. simpl.
    unfold set_files; simpl. rewrite !insert_insert_eq. reflexivity.
Qed.

Lemma predict_block_11 (i : interaction) (sess : session) (w : world) :
  Stream11.predict_block i sess (input_slot (sess_model sess)) w =
  match infer (sess_model sess) (input_vector (inputs i)) with
  | None => (Raised RuntimeException, w)
  | Some y =>
      let v := Stream11.clipped_result (to_float64 y) in
      Stream11.append_log (Stream11.row (now i) (inputs i) v)
        (set_screen (shown (LANG i) (format_2f v) :: screen w) w)
  end.
Proof.
  unfold Stream11.predict_block, bind. rewrite session_run_own_slot.
  destruct (infer _ _); reflexivity.
Qed.

Lemma predict_block_1 (i : interaction) (sess : session) (w : world) :
  Stream1.predict_block i sess (input_slot (sess_model sess)) w =
  match infer (sess_model sess) (input_vector (inputs i)) with
  | None => (Raised RuntimeException, w)
  | Some y =>
      let v := Stream1.clipped_result y in
      Stream1.append_log (Stream1.log (now i) (inputs i) v)
        (set_screen (shown (LANG i) (py_format_2f v) :: screen w) w)
  end.
Proof.
  unfold Stream1.predict_block, bind. rewrite session_run_own_slot.
  destruct (infer _ _); reflexivity.
Qed.

End Blocks.

(** ** The clamp and the prediction shown (claims C1 and C2) *)

(** C2. The clamp, by cases. In stream11.py ([x] is the float
    [predicted_mw]): a value with [140.0 <= x <= 290.0] comes back
    unchanged, a value below 140.0 gives exactly 140.0, a value above 290.0
    gives exactly 290.0. In stream1.py ([y] is the binary32 scalar
    [predicted_mw]): the same, the two bounds being returned as the Python
    ints 140 and 290. So 310.0 gives 290.0 and 50.0 gives 140.0. *)
Theorem clamp_by_cases (x y : spec_float) :
  (in_range x = true -> Stream11.clipped_result x = x)
  /\ (SFltb x f140 = true -> Stream11.clipped_result x = f140)
  /\ (SFltb f290 x = true -> Stream11.clipped_result x = f290)
  /\ (in_range (to_float64 y) = true -> Stream1.clipped_result y = NpFloat32 y)
  /\ (SFltb (to_float64 y) f140 = true ->
      Stream1.clipped_result y = PyInt 140
      /\ py_float (Stream1.clipped_result y) = Some f140)
  /\ (SFltb f290 (to_float64 y) = true ->
      Stream1.clipped_result y = PyInt 290
      /\ py_float (Stream1.clipped_result y) = Some f290)
  /\ Stream11.clipped_result f310 = f290
  /\ Stream11.clipped_result f50 = f140
  /\ Stream1.clipped_result (to_float32 f310) = PyInt 290
  /\ Stream1.clipped_result (to_float32 f50) = PyInt 140.
Proof.
  assert (E1 : py_lt (PyInt 290) (NpFloat32 y) = SFltb f290 (to_float64 y))
    by reflexivity.
  assert (E2 : py_lt (NpFloat32 y) (PyInt 140) = SFltb (to_float64 y) f140)
    by reflexivity.
  repeat split; try reflexivity.
  - intros H. unfold in_range in H. apply andb_prop in H as [H1 H2].
    apply clipped_between; apply SFleb_not_ltb; assumption.
  - apply clipped_below.
  - apply clipped_above.
  - intros H. unfold in_range in H. apply andb_prop in H as [H1 H2].
    unfold Stream1.clipped_result, py_min, py_max.
    rewrite E1, (SFleb_not_ltb _ _ H2), E2, (SFleb_not_ltb _ _ H1). reflexivity.
  - unfold Stream1.clipped_result, py_min, py_max.
    rewrite E1.
    assert (H1 : SFltb (to_float64 y) f290 = true)
      by (apply (SFltb_trans _ f140 f290 H); reflexivity).
    destruct (SFltb_asym _ _ H1) as [-> _]. rewrite E2, H. reflexivity.
  - rewrite clipped_result_agree.
    rewrite clipped_below by assumption. reflexivity.
  - unfold Stream1.clipped_result, py_min, py_max. rewrite E1, H. reflexivity.
  - rewrite clipped_result_agree.
    rewrite clipped_above by assumption. reflexivity.
Qed.

Lemma clamp_by_cases_witness :
  Stream11.clipped_result f200 = f200
  /\ Stream11.clipped_result f50 = f140
  /\ Stream11.clipped_result f310 = f290
  /\ Stream1.clipped_result (to_float32 f200) = NpFloat32 (to_float32 f200).
Proof.
  split; [apply (clamp_by_cases f200 f200); reflexivity|].
  split; [apply (clamp_by_cases f50 f50); reflexivity|].
  split; [apply (clamp_by_cases f310 f310); reflexivity|].
  apply (clamp_by_cases f200 (to_float32 f200)); reflexivity.
Defined.

(** C1, where it fails. A model that answers NaN for the default sliders
    (which are within their ranges): the clamp returns NaN, which is not
    within [140.0, 290.0], and both scripts show it. *)
Lemma nan_prediction_out_of_bounds :
  sliders_in_range default_sliders = true
  /\ infer (constant_model S754_nan) (input_vector default_sliders) = Some S754_nan
  /\ Stream11.clipped_result (to_float64 S754_nan) = S754_nan
  /\ Stream1.clipped_result S754_nan = NpFloat32 S754_nan
  /\ in_range S754_nan = false
  /\ screen (snd (rerun (Stream11.run (user true false false))
                    (fresh_world (constant_model S754_nan) true)))
     = [shown English "nan"]
  /\ screen (snd (rerun (Stream1.run (user true false false))
                    (fresh_world (constant_model S754_nan) true)))
     = [shown English "nan"].
Proof. cbv zeta. repeat apply conj; vm_compute; reflexivity. Qed.

(** C1, amended. Whatever the sliders and the model: when the raw output
    [y] of the model is a number (finite or infinite, not NaN), the value
    [v] both scripts compute and show satisfies [140.0 <= v <= 290.0]. *)
Theorem prediction_within_bounds
    (i : interaction) (sess : session) (w : world) (y : spec_float) :
  infer (sess_model sess) (input_vector (inputs i)) = Some y ->
  is_nan y = false ->
  exists v,
    in_range v = true
    /\ Stream11.clipped_result (to_float64 y) = v
    /\ py_float (Stream1.clipped_result y) = Some v
    /\ In (shown (LANG i) (format_2f v))
         (screen (snd (Stream11.predict_block i sess
                         (input_slot (sess_model sess)) w)))
    /\ In (shown (LANG i) (format_2f v))
         (screen (snd (Stream1.predict_block i sess
                         (input_slot (sess_model sess)) w))).
Proof.
  intros Hy Hnan. exists (Stream11.clipped_result (to_float64 y)).
  split; [apply clipped_in_range; unfold to_float64; rewrite round_to_nan; exact Hnan|].
  split; [reflexivity|]. split; [apply clipped_result_agree|].
  rewrite predict_block_11, predict_block_1, Hy. cbv zeta.
  rewrite append_log_11, append_log_1.
  unfold py_format_2f. rewrite clipped_result_agree.
  split; destruct (writable _); simpl; auto.
Qed.

Lemma prediction_within_bounds_witness :
  exists v,
    in_range v = true
    /\ Stream11.clipped_result (to_float64 (to_float32 f310)) = v
    /\ py_float (Stream1.clipped_result (to_float32 f310)) = Some v
    /\ In (shown English (format_2f v))
         (screen (snd (Stream11.predict_block (user true false false)
                         (sample_session (to_float32 f310)) "float_input"
                         (fresh_world (constant_model (to_float32 f310)) true))))
    /\ In (shown English (format_2f v))
         (screen (snd (Stream1.predict_block (user true false false)
                         (sample_session (to_float32 f310)) "float_input"
                         (fresh_world (constant_model (to_float32 f310)) true)))).
Proof.
  apply (prediction_within_bounds (user true false false)
           (sample_session (to_float32 f310))
           (fresh_world (constant_model (to_float32 f310)) true)
           (to_float32 f310)); reflexivity.
Defined.

(** ** Timestamps *)

Section Timestamps.

Lemma pad_two_digits (n : N) : (n <= 99)%N -> two_digits (pad 2 n) = true.
Proof.
  intros H.
  assert (A : forallb (fun k => two_digits (pad 2 (N.of_nat k))) (seq 0 100) = true)
    by (vm_compute; reflexivity).
  rewrite forallb_forall in A.
  specialize (A (N.to_nat n)). rewrite N2Nat.id in A.
  apply A, in_seq. lia.
Qed.

Lemma pad_four_digits (n : N) :
  (1000 <= n)%N -> (n <= 9999)%N -> four_digits (pad 4 n) = true.
Proof.
  intros H1 H2.
  assert (A : forallb (fun k => four_digits (pad 4 (N.of_nat k))) (seq (N.to_nat 1000) (N.to_nat 9000)) = true)
    by (vm_compute; reflexivity).
  rewrite forallb_forall in A.
  specialize (A (N.to_nat n)). rewrite N2Nat.id in A.
  apply A, in_seq. lia.
Qed.

Lemma strftime_layout (t : datetime) :
  valid_datetime t = true -> is_timestamp (strftime t) = true.
Proof.
  unfold valid_datetime. intros H.
  repeat (apply andb_prop in H as [H ?]).
  repeat match goal with
         | H : (_ <=? _)%N = true |- _ => apply N.leb_le in H
         end.
  pose proof (pad_four_digits (year t) ltac:(assumption) ltac:(assumption)) as Hy.
  pose proof (pad_two_digits (month t) ltac:(lia)) as Hm.
  pose proof (pad_two_digits (day t) ltac:(lia)) as Hd.
  pose proof (pad_two_digits (hour t) ltac:(lia)) as Hh.
  pose proof (pad_two_digits (minute t) ltac:(lia)) as Hn.
  pose proof (pad_two_digits (second t) ltac:(lia)) as Hs.
  unfold strftime.
  destruct (pad 4 (year t)) as [|y1 [|y2 [|y3 [|y4 [|]]]]]; try discriminate Hy.
  destruct (pad 2 (month t)) as [|m1 [|m2 [|]]]; try discriminate Hm.
  destruct (pad 2 (day t)) as [|a1 [|a2 [|]]]; try discriminate Hd.
  destruct (pad 2 (hour t)) as [|h1 [|h2 [|]]]; try discriminate Hh.
  destruct (pad 2 (minute t)) as [|n1 [|n2 [|]]]; try discriminate Hn.
  destruct (pad 2 (second t)) as [|s1 [|s2 [|]]]; try discriminate Hs.
  unfold four_digits in Hy. unfold two_digits in Hm, Hd, Hh, Hn, Hs.
  repeat match goal with
         | H : _ && _ = true |- _ => apply andb_prop in H as [? ?]
         end.
  unfold is_timestamp. simpl.
  repeat match goal with
         | H : is_digit _ = true |- _ => rewrite H; clear H
         end.
  reflexivity.
Qed.

End Timestamps.

(** ** The shortest decimal reads back *)

Section Scaled.

Lemma scaled_mul (c a b : Z) : scaled c a b = c * scaled 1 a b.
Proof. unfold scaled. ring. Qed.

Lemma scaled_pos (a b : Z) : -1100 <= a -> -400 <= b -> 0 < scaled 1 a b.
Proof.
  intros Ha Hb. unfold scaled.
  assert (0 < 2 ^ (a + 1100)) by (apply Z.pow_pos_nonneg; lia).
  assert (0 < 10 ^ (b + 400)) by (apply Z.pow_pos_nonneg; lia).
  nia.
Qed.

Lemma scaled_shift2 (a b k : Z) :
  -1100 <= a -> 0 <= k -> scaled 1 (a + k) b = 2 ^ k * scaled 1 a b.
Proof.
  intros Ha Hk. unfold scaled.
  replace (a + k + 1100) with (k + (a + 1100)) by lia.
  rewrite (Z.pow_add_r 2 k (a + 1100)) by lia. ring.
Qed.

Lemma scaled_shift10 (a b k : Z) :
  -400 <= b -> 0 <= k -> scaled 1 a (b + k) = 10 ^ k * scaled 1 a b.
Proof.
  intros Hb Hk. unfold scaled.
  replace (b + k + 400) with (k + (b + 400)) by lia.
  rewrite (Z.pow_add_r 10 k (b + 400)) by lia. ring.
Qed.

(** The two sides of [cmp_dec_bin] and the two parts of [floor_dec], as
    scaled numbers divided by a common factor. *)
Lemma scaled_dec (d q e : Z) :
  -400 <= q -> -1100 <= e ->
  scaled d 0 q
  = d * 10 ^ Z.max q 0 * 2 ^ Z.max (- e) 0
    * (2 ^ (1100 - Z.max (- e) 0) * 10 ^ (400 - Z.max (- q) 0)).
Proof.
  intros Hq He. unfold scaled.
  replace (0 + 1100) with (Z.max (- e) 0 + (1100 - Z.max (- e) 0)) by lia.
  replace (q + 400) with (Z.max q 0 + (400 - Z.max (- q) 0)) by lia.
  rewrite (Z.pow_add_r 2 (Z.max (- e) 0)), (Z.pow_add_r 10 (Z.max q 0)) by lia.
  ring.
Qed.

Lemma scaled_bin (v q e : Z) :
  -400 <= q -> -1100 <= e ->
  scaled v e 0
  = v * 2 ^ Z.max e 0 * 10 ^ Z.max (- q) 0
    * (2 ^ (1100 - Z.max (- e) 0) * 10 ^ (400 - Z.max (- q) 0)).
Proof.
  intros Hq He. unfold scaled.
  replace (e + 1100) with (Z.max e 0 + (1100 - Z.max (- e) 0)) by lia.
  replace (0 + 400) with (Z.max (- q) 0 + (400 - Z.max (- q) 0)) by lia.
  rewrite (Z.pow_add_r 2 (Z.max e 0)), (Z.pow_add_r 10 (Z.max (- q) 0)) by lia.
  ring.
Qed.

Lemma common_factor_pos (q e : Z) :
  -400 <= q -> -1100 <= e ->
  0 < 2 ^ (1100 - Z.max (- e) 0) * 10 ^ (400 - Z.max (- q) 0).
Proof.
  intros Hq He.
  apply Z.mul_pos_pos; apply Z.pow_pos_nonneg; lia.
Qed.

Lemma compare_mul_pos (a b k : Z) : 0 < k -> (a * k ?= b * k) = (a ?= b).
Proof.
  intros Hk. destruct (Z.compare_spec a b) as [->|H|H].
  - apply Z.compare_refl.
  - apply Z.compare_lt_iff. nia.
  - apply Z.compare_gt_iff. nia.
Qed.

Lemma cmp_dec_bin_scaled (d q v e : Z) :
  -400 <= q -> -1100 <= e ->
  cmp_dec_bin d q v e = (scaled d 0 q ?= scaled v e 0).
Proof.
  intros Hq He. unfold cmp_dec_bin.
  rewrite (scaled_dec d q e Hq He), (scaled_bin v q e Hq He).
  symmetry. apply compare_mul_pos, common_factor_pos; assumption.
Qed.

Lemma floor_dec_scaled (v e q : Z) :
  -400 <= q -> -1100 <= e ->
  floor_dec v e q = scaled v e 0 / scaled 1 0 q.
Proof.
  intros Hq He. unfold floor_dec.
  rewrite (scaled_dec 1 q e Hq He), (scaled_bin v q e Hq He).
  pose proof (common_factor_pos q e Hq He) as K.
  replace (1 * 10 ^ Z.max q 0 * 2 ^ Z.max (- e) 0)
    with (2 ^ Z.max (- e) 0 * 10 ^ Z.max q 0) by ring.
  rewrite Z.div_mul_cancel_r; [reflexivity | | lia].
  assert (0 < 2 ^ Z.max (- e) 0) by (apply Z.pow_pos_nonneg; lia).
  assert (0 < 10 ^ Z.max q 0) by (apply Z.pow_pos_nonneg; lia).
  nia.
Qed.

End Scaled.

(** ** Reading digits *)

Section Digits.

Lemma read_digits_app (a b : string) :
  forall acc,
    read_digits acc (a ++ b)
    = match read_digits acc a with
      | Some x => read_digits x b
      | None => None
      end.
Proof.
  induction a as [|c a IH]; intros acc; [reflexivity|].
  change (String c a ++ b) with (String c (a ++ b)). cbn [read_digits].
  destruct (digit_value c); [apply IH | reflexivity].
Qed.

(** The digits count from where the reading started. *)
Lemma read_digits_shift (s : string) :
  forall acc acc',
    match read_digits acc s, read_digits acc' s with
    | Some x, Some y => y = x + (acc' - acc) * 10 ^ Z.of_nat (String.length s)
    | None, None => True
    | _, _ => False
    end.
Proof.
  induction s as [|c s IH]; intros acc acc'.
  - simpl. lia.
  - cbn [read_digits]. destruct (digit_value c) as [v|]; [|exact I].
    specialize (IH (10 * acc + v) (10 * acc' + v)).
    destruct (read_digits (10 * acc + v) s), (read_digits (10 * acc' + v) s);
      try exact IH.
    rewrite IH. cbn [String.length].
    rewrite Nat2Z.inj_succ, Z.pow_succ_r by lia. ring.
Qed.

Lemma read_digits_from (s : string) (acc x : Z) :
  read_digits 0 s = Some x ->
  read_digits acc s = Some (acc * 10 ^ Z.of_nat (String.length s) + x).
Proof.
  intros H. pose proof (read_digits_shift s 0 acc) as S. rewrite H in S.
  destruct (read_digits acc s); [|contradiction]. f_equal. lia.
Qed.

Lemma read_digits_all_digits (s : string) :
  all_digits s = true -> forall acc, exists x, read_digits acc s = Some x.
Proof.
  induction s as [|c s IH]; intros H acc; [eexists; reflexivity|].
  cbn [all_digits] in H. apply andb_prop in H as [Hc Hs].
  cbn [read_digits]. unfold digit_value. rewrite Hc. apply IH, Hs.
Qed.

Lemma read_digits_zeros (n : nat) (acc : Z) :
  read_digits acc (zeros n) = Some (acc * 10 ^ Z.of_nat n).
Proof.
  revert acc. induction n as [|n IH]; intros acc.
  - simpl. f_equal. lia.
  - change (read_digits acc (zeros (S n)))
      with (read_digits (10 * acc + 0) (zeros n)).
    rewrite IH. f_equal.
    rewrite Nat2Z.inj_succ, Z.pow_succ_r by lia. ring.
Qed.

Lemma read_digits_uint_acc (u : Decimal.uint) :
  forall acc : positive,
    read_digits (Zpos acc) (NilEmpty.string_of_uint u)
    = Some (Zpos (Pos.of_uint_acc u acc)).
Proof.
  induction u as [|u IH|u IH|u IH|u IH|u IH|u IH|u IH|u IH|u IH|u IH];
    intros acc; [reflexivity|..];
    cbn [NilEmpty.string_of_uint Pos.of_uint_acc read_digits];
    rewrite <- IH;
    match goal with
    | |- context [digit_value ?c] =>
        let v := eval vm_compute in (digit_value c) in
        change (digit_value c) with v
    end;
    cbv iota; f_equal; lia.
Qed.

Lemma read_digits_uint (u : Decimal.uint) :
  read_digits 0 (NilEmpty.string_of_uint u) = Some (Z.of_N (Pos.of_uint u)).
Proof.
  induction u as [|u IH|u IH|u IH|u IH|u IH|u IH|u IH|u IH|u IH|u IH];
    [reflexivity | exact IH |..];
    cbn [NilEmpty.string_of_uint Pos.of_uint read_digits Z.of_N];
    rewrite <- (read_digits_uint_acc u);
    match goal with
    | |- context [digit_value ?c] =>
        let v := eval vm_compute in (digit_value c) in
        change (digit_value c) with v
    end;
    reflexivity.
Qed.

Lemma read_digits_digits (n : N) : read_digits 0 (digits n) = Some (Z.of_N n).
Proof.
  unfold digits. rewrite read_digits_uint.
  change (Pos.of_uint (N.to_uint n)) with (N.of_uint (N.to_uint n)).
  rewrite DecimalN.Unsigned.of_to. reflexivity.
Qed.

Lemma all_digits_uint (u : Decimal.uint) :
  all_digits (NilEmpty.string_of_uint u) = true.
Proof. induction u; simpl; auto. Qed.

Lemma all_digits_digits (n : N) : all_digits (digits n) = true.
Proof. apply all_digits_uint. Qed.

Lemma digits_not_empty (n : N) : digits n <> EmptyString.
Proof.
  unfold digits. destruct n as [|p]; [discriminate|].
  cbn [N.to_uint]. pose proof (DecimalPos.Unsigned.to_uint_nonnil p) as H.
  destruct (Pos.to_uint p); [congruence | discriminate..].
Qed.

Lemma read_nat_digits (n : N) : read_nat (digits n) = Some (Z.of_N n).
Proof.
  unfold read_nat. pose proof (digits_not_empty n) as H.
  destruct (digits n) eqn:E; [congruence|]. rewrite <- E.
  apply read_digits_digits.
Qed.

(** C-style printing of an integer reads back. *)
Lemma read_int_int_str (z : Z) : read_int (int_str z) = Some z.
Proof.
  destruct z as [|p|p]; unfold int_str.
  - reflexivity.
  - pose proof (read_nat_digits (Z.to_N (Zpos p))) as H.
    pose proof (all_digits_digits (Z.to_N (Zpos p))) as A.
    unfold read_int. destruct (digits (Z.to_N (Zpos p))) as [|c r]; [discriminate H|].
    cbn [all_digits] in A. apply andb_prop in A as [A _].
    destruct (Ascii.eqb_spec c "-") as [->|_]; [discriminate A|].
    rewrite H. reflexivity.
  - change ("-" ++ digits (Npos p)) with (String "-" (digits (Npos p))).
    unfold read_int. rewrite Ascii.eqb_refl, read_nat_digits. reflexivity.
Qed.

End Digits.

(** ** Reading a timestamp *)

Section ReadTimestamp.

Lemma pad_two_reads (n : N) :
  (n <= 99)%N ->
  exists a b,
    pad 2 n = String a (String b EmptyString)
    /\ read_nat (String a (String b EmptyString)) = Some (Z.of_N n).
Proof.
  intros H.
  assert (A : forallb (fun k =>
                match pad 2 (N.of_nat k) with
                | String a (String b EmptyString) =>
                    match read_nat (String a (String b EmptyString)) with
                    | Some z => Z.eqb z (Z.of_nat k)
                    | None => false
                    end
                | _ => false
                end) (seq 0 100) = true)
    by (vm_compute; reflexivity).
  rewrite forallb_forall in A.
  specialize (A (N.to_nat n)). rewrite N2Nat.id in A.
  specialize (A ltac:(apply in_seq; lia)).
  destruct (pad 2 n) as [|a [|b [|]]]; try discriminate A.
  exists a, b. split; [reflexivity|].
  destruct (read_nat _) as [z|]; [|discriminate A].
  apply Z.eqb_eq in A. f_equal. lia.
Qed.

Lemma pad_four_reads (n : N) :
  (1000 <= n)%N -> (n <= 9999)%N ->
  exists a b c d,
    pad 4 n = String a (String b (String c (String d EmptyString)))
    /\ read_nat (String a (String b (String c (String d EmptyString))))
       = Some (Z.of_N n).
Proof.
  intros H1 H2.
  assert (A : forallb (fun k =>
                match pad 4 (N.of_nat k) with
                | String a (String b (String c (String d EmptyString))) =>
                    match read_nat
                            (String a (String b (String c (String d EmptyString))))
                    with
                    | Some z => Z.eqb z (Z.of_nat k)
                    | None => false
                    end
                | _ => false
                end) (seq (N.to_nat 1000) (N.to_nat 9000)) = true)
    by (vm_compute; reflexivity).
  rewrite forallb_forall in A.
  specialize (A (N.to_nat n)). rewrite N2Nat.id in A.
  specialize (A ltac:(apply in_seq; lia)).
  destruct (pad 4 n) as [|a [|b [|c [|d [|]]]]]; try discriminate A.
  exists a, b, c, d. split; [reflexivity|].
  destruct (read_nat _) as [z|]; [|discriminate A].
  apply Z.eqb_eq in A. f_equal. lia.
Qed.

(** The text [strftime] makes of a time tells that time. *)
Lemma read_timestamp_strftime (t : datetime) :
  valid_datetime t = true -> read_timestamp (strftime t) = Some t.
Proof.
  unfold valid_datetime. intros H.
  repeat (apply andb_prop in H as [H ?]).
  repeat match goal with
         | H : (_ <=? _)%N = true |- _ => apply N.leb_le in H
         end.
  destruct (pad_four_reads (year t)) as (y1 & y2 & y3 & y4 & Ey & Ry);
    [assumption..|].
  destruct (pad_two_reads (month t)) as (m1 & m2 & Em & Rm); [lia|].
  destruct (pad_two_reads (day t)) as (a1 & a2 & Ed & Rd); [lia|].
  destruct (pad_two_reads (hour t)) as (h1 & h2 & Eh & Rh); [lia|].
  destruct (pad_two_reads (minute t)) as (n1 & n2 & En & Rn); [lia|].
  destruct (pad_two_reads (second t)) as (s1 & s2 & Es & Rs); [lia|].
  unfold strftime. rewrite Ey, Em, Ed, Eh, En, Es.
  cbv beta iota delta [append read_timestamp list_ascii_of_string
                       string_of_list_ascii].
  change (Ascii.eqb "-" "-") with true. change (Ascii.eqb " " " ") with true.
  change (Ascii.eqb ":" ":") with true. cbv beta iota delta [andb].
  rewrite Ry, Rm, Rd, Rh, Rn, Rs, !N2Z.id.
  destruct t; reflexivity.
Qed.

End ReadTimestamp.

(** ** Reading a decimal *)

Section ReadDecimal.

Lemma append_assoc (a b c : string) : (a ++ b) ++ c = a ++ (b ++ c).
Proof.
  induction a as [|x a IH]; [reflexivity|].
  change (String x ((a ++ b) ++ c) = String x (a ++ b ++ c)).
  rewrite IH. reflexivity.
Qed.

Lemma append_empty (a : string) : a ++ EmptyString = a.
Proof.
  induction a as [|x a IH]; [reflexivity|].
  change (String x (a ++ EmptyString) = String x a).
  rewrite IH. reflexivity.
Qed.

Lemma all_digits_app (a b : string) :
  all_digits (a ++ b) = all_digits a && all_digits b.
Proof.
  induction a as [|c a IH]; [reflexivity|].
  change (String c a ++ b) with (String c (a ++ b)). cbn [all_digits].
  rewrite IH. apply andb_assoc.
Qed.

Lemma all_digits_zeros (n : nat) : all_digits (zeros n) = true.
Proof. induction n; [reflexivity | exact IHn]. Qed.

Lemma all_digits_substring (s : string) :
  all_digits s = true -> forall n k, all_digits (substring n k s) = true.
Proof.
  induction s as [|c s IH]; intros H n k.
  - destruct n, k; reflexivity.
  - cbn [all_digits] in H. apply andb_prop in H as [Hc Hs].
    destruct n as [|n]; cbn [substring].
    + destruct k as [|k]; [reflexivity|]. cbn [all_digits]. rewrite Hc.
      apply IH, Hs.
    + apply IH, Hs.
Qed.

Lemma lacks_app (c : ascii) (a b : string) :
  lacks c (a ++ b) = lacks c a && lacks c b.
Proof.
  induction a as [|x a IH]; [reflexivity|].
  change (String x a ++ b) with (String x (a ++ b)). cbn [lacks].
  rewrite IH. apply andb_assoc.
Qed.

Lemma lacks_all_digits (c : ascii) (s : string) :
  is_digit c = false -> all_digits s = true -> lacks c s = true.
Proof.
  intros Hc. induction s as [|x s IH]; intros H; [reflexivity|].
  cbn [all_digits] in H. apply andb_prop in H as [Hx Hs].
  cbn [lacks]. rewrite (IH Hs), andb_true_r.
  destruct (Ascii.eqb_spec x c) as [->|_]; [congruence | reflexivity].
Qed.

Lemma split_at_lacks (c : ascii) (s : string) :
  lacks c s = true -> split_at c s = (s, None).
Proof.
  induction s as [|x s IH]; intros H; [reflexivity|].
  cbn [lacks] in H. apply andb_prop in H as [Hx Hs].
  cbn [split_at]. apply negb_true_iff in Hx. rewrite Hx, (IH Hs). reflexivity.
Qed.

Lemma split_at_app (c : ascii) (a b : string) :
  lacks c a = true -> split_at c (a ++ String c b) = (a, Some b).
Proof.
  induction a as [|x a IH]; intros H.
  - change (EmptyString ++ String c b) with (String c b). cbn [split_at].
    rewrite Ascii.eqb_refl. reflexivity.
  - cbn [lacks] in H. apply andb_prop in H as [Hx Ha].
    change (String x a ++ String c b) with (String x (a ++ String c b)).
    cbn [split_at]. apply negb_true_iff in Hx. rewrite Hx, (IH Ha). reflexivity.
Qed.

Lemma length_app (a b : string) :
  String.length (a ++ b) = (String.length a + String.length b)%nat.
Proof.
  induction a as [|x a IH]; [reflexivity|].
  change (String x a ++ b) with (String x (a ++ b)). cbn [String.length].
  rewrite IH. reflexivity.
Qed.

Lemma length_zeros (n : nat) : String.length (zeros n) = n.
Proof. induction n; [reflexivity | cbn [zeros String.length]; congruence]. Qed.

(** The zeros at the end of a text of digits. *)
Lemma strip_zeros_spec (s : string) :
  exists t, s = strip_zeros s ++ zeros t.
Proof.
  induction s as [|c s [t IH]]; [exists 0%nat; reflexivity|].
  cbn [strip_zeros]. destruct (strip_zeros s) as [|c' s'] eqn:E.
  - destruct (Ascii.eqb_spec c "0") as [->|_].
    + exists (S t). rewrite IH. reflexivity.
    + exists t. rewrite IH at 1. reflexivity.
  - exists t. rewrite IH at 1. reflexivity.
Qed.

Lemma all_digits_strip_zeros (s : string) :
  all_digits s = true -> all_digits (strip_zeros s) = true.
Proof.
  intros H. destruct (strip_zeros_spec s) as [t E].
  rewrite E, all_digits_app in H. apply andb_prop in H as [H _]. exact H.
Qed.

Lemma substring_all (s : string) : substring 0 (String.length s) s = s.
Proof.
  induction s as [|c s IH]; [reflexivity|].
  cbn [String.length substring]. rewrite IH. reflexivity.
Qed.

Lemma take_drop (s : string) :
  forall n, (n <= String.length s)%nat ->
    substring 0 n s ++ string_drop n s = s
    /\ String.length (substring 0 n s) = n
    /\ String.length (string_drop n s) = (String.length s - n)%nat.
Proof.
  unfold string_drop. induction s as [|c s IH]; intros n H.
  - cbn [String.length] in H. replace n with 0%nat by lia. repeat split.
  - destruct n as [|n].
    + change (substring 0 0 (String c s)) with EmptyString.
      replace (String.length (String c s) - 0)%nat
        with (String.length (String c s)) by lia.
      rewrite substring_all. repeat split.
    + cbn [String.length] in H |- *. cbn [substring].
      replace (S (String.length s) - S n)%nat with (String.length s - n)%nat
        by lia.
      destruct (IH n ltac:(lia)) as (E1 & E2 & E3).
      change (String c (substring 0 n s) ++ substring n (String.length s - n) s)
        with (String c (substring 0 n s ++ substring n (String.length s - n) s)).
      rewrite E1. cbn [String.length]. rewrite E2, E3. repeat split.
Qed.

Lemma read_nat_pad (w : nat) (n : N) : read_nat (pad w n) = Some (Z.of_N n).
Proof.
  unfold pad, read_nat.
  assert (N : zeros (w - String.length (digits n)) ++ digits n <> EmptyString).
  { pose proof (digits_not_empty n) as H.
    destruct (zeros _); [exact H | discriminate]. }
  destruct (zeros _ ++ digits n) eqn:E; [congruence|]. rewrite <- E.
  rewrite read_digits_app, read_digits_zeros. cbn [Z.mul].
  apply read_digits_digits.
Qed.

Lemma read_nat_nonempty (s : string) :
  s <> EmptyString -> read_nat s = read_digits 0 s.
Proof. destruct s; [congruence | reflexivity]. Qed.

Lemma length_pos_nonempty (s : string) :
  (0 < String.length s)%nat -> s <> EmptyString.
Proof. destruct s; [cbn; lia | discriminate]. Qed.

Lemma substring_0_1 (c : ascii) (r : string) :
  substring 0 1 (String c r) = String c EmptyString.
Proof. cbn [substring]. destruct r; reflexivity. Qed.

Lemma string_drop_1 (c : ascii) (r : string) : string_drop 1 (String c r) = r.
Proof.
  unfold string_drop. cbn [String.length].
  replace (S (String.length r) - 1)%nat with (String.length r) by lia.
  cbn [substring]. apply substring_all.
Qed.

Lemma read_exponent_signed (x : Z) :
  read_exponent ((if x <? 0 then "-" else "+") ++ pad 2 (Z.to_N (Z.abs x)))
  = Some x.
Proof.
  destruct (Z.ltb_spec x 0).
  - change ("-" ++ pad 2 (Z.to_N (Z.abs x)))
      with (String "-" (pad 2 (Z.to_N (Z.abs x)))).
    cbn [read_exponent]. change (Ascii.eqb "-" "+") with false.
    change (Ascii.eqb "-" "-") with true. cbv iota.
    rewrite read_nat_pad. cbn [option_map]. f_equal. lia.
  - change ("+" ++ pad 2 (Z.to_N (Z.abs x)))
      with (String "+" (pad 2 (Z.to_N (Z.abs x)))).
    cbn [read_exponent]. change (Ascii.eqb "+" "+") with true. cbv iota.
    rewrite read_nat_pad. f_equal. lia.
Qed.

(** The four layouts of [repr] spell the digits [ds] with the decimal
    point after the first [decpt] of them. *)
Lemma read_unsigned_layout (ds : string) (decpt D : Z) :
  all_digits ds = true -> ds <> EmptyString -> read_digits 0 ds = Some D ->
  let n := Z.of_nat (String.length ds) in
  (exists c r, repr_layout ds decpt = String c r /\ is_digit c = true)
  /\ exists d q,
       read_unsigned (repr_layout ds decpt) = Some (d, q)
       /\ ((d = D /\ q = decpt - n)
           \/ (d = D * 10 ^ (decpt - n + 1) /\ q = -1 /\ n <= decpt)).
Proof.
  intros A N R n.
  destruct ds as [|c0 r0]; [congruence|].
  cbn [all_digits] in A. apply andb_prop in A as [A0 Ar].
  assert (Ne : is_digit "e" = false) by reflexivity.
  assert (Np : is_digit "." = false) by reflexivity.
  assert (L0e : lacks "e" (String c0 EmptyString) = true)
    by (apply lacks_all_digits; [exact Ne | cbn; rewrite A0; reflexivity]).
  assert (L0p : lacks "." (String c0 EmptyString) = true)
    by (apply lacks_all_digits; [exact Np | cbn; rewrite A0; reflexivity]).
  pose proof (lacks_all_digits "e" r0 Ne Ar) as Lre.
  pose proof (lacks_all_digits "." r0 Np Ar) as Lrp.
  cbn [read_digits] in R. destruct (digit_value c0) as [v0|] eqn:V0;
    [|discriminate R].
  unfold repr_layout. fold n.
  assert (Hn : n = 1 + Z.of_nat (String.length r0))
    by (unfold n; cbn [String.length]; lia).
  destruct ((decpt <=? -4) || (16 <? decpt)) eqn:C1.
  - (* exponent notation *)
    rewrite substring_0_1, string_drop_1.
    set (x := decpt - 1).
    set (tail := (if x <? 0 then "-" else "+") ++ pad 2 (Z.to_N (Z.abs x))).
    set (X := if 1 <? n then "." ++ r0 else EmptyString).
    change (String c0 EmptyString ++ X ++ "e" ++ tail)
      with (String c0 X ++ String "e" tail).
    split; [exists c0, (X ++ String "e" tail); split; [reflexivity | exact A0]|].
    assert (Lx : lacks "e" (String c0 X) = true).
    { cbn [lacks]. cbn [lacks] in L0e. apply andb_prop in L0e as [-> _].
      unfold X. destruct (1 <? n); [|reflexivity].
      change ("." ++ r0) with (String "." r0). cbn [lacks]. exact Lre. }
    assert (Sp : exists point, split_at "." (String c0 X)
                               = (String c0 EmptyString, point)
                               /\ default EmptyString point = r0).
    { unfold X. destruct (Z.ltb_spec 1 n).
      - exists (Some r0). split; [|reflexivity].
        change (String c0 ("." ++ r0))
          with (String c0 EmptyString ++ String "." r0).
        apply split_at_app, L0p.
      - exists None. split; [apply split_at_lacks, L0p|].
        destruct r0; [reflexivity | cbn [String.length] in Hn; lia]. }
    destruct Sp as (point & Sp & Dp).
    unfold read_unsigned. rewrite (split_at_app "e" _ tail Lx), Sp, Dp.
    cbn [read_nat read_digits]. rewrite V0, R.
    unfold tail. rewrite read_exponent_signed.
    eexists _, _. split; [reflexivity|]. left. split; [reflexivity|].
    unfold x. lia.
  - destruct (Z.leb_spec decpt 0) as [C2|C2].
    + (* 0.000ddd *)
      set (k := Z.to_nat (- decpt)).
      change ("0." ++ zeros k ++ String c0 r0)
        with (String "0" EmptyString ++ String "." (zeros k ++ String c0 r0)).
      split; [eexists _, _; split; reflexivity|].
      assert (Ad : all_digits (zeros k ++ String c0 r0) = true).
      { rewrite all_digits_app, all_digits_zeros. cbn [all_digits].
        rewrite A0, Ar. reflexivity. }
      assert (Le : lacks "e" (String "0" EmptyString
                              ++ String "." (zeros k ++ String c0 r0)) = true).
      { rewrite lacks_app. cbn [lacks andb].
        change (negb (Ascii.eqb "0" "e")) with true.
        change (negb (Ascii.eqb "." "e")) with true. cbn [andb].
        apply lacks_all_digits; assumption. }
      unfold read_unsigned. rewrite (split_at_lacks "e" _ Le).
      rewrite (split_at_app "." (String "0" EmptyString)) by reflexivity.
      cbn [default from_option id]. change (read_nat (String "0" EmptyString)) with (Some 0).
      cbv iota. rewrite read_digits_app, read_digits_zeros.
      rewrite Z.mul_0_l. cbn [read_digits]. rewrite V0, R.
      eexists _, _. split; [reflexivity|]. left. split; [reflexivity|].
      rewrite length_app, length_zeros. unfold k. cbn [String.length]. lia.
    + destruct (Z.leb_spec n decpt) as [C3|C3].
      * (* ddd000.0 *)
        set (k := Z.to_nat (decpt - n)).
        assert (E : String c0 r0 ++ zeros k ++ ".0"
                    = (String c0 r0 ++ zeros k) ++ String "." (String "0" EmptyString))
          by (rewrite append_assoc; reflexivity).
        rewrite E.
        split; [exists c0, ((r0 ++ zeros k) ++ ".0"); split;
                  [reflexivity | exact A0]|].
        assert (Ad : all_digits (String c0 r0 ++ zeros k) = true).
        { rewrite all_digits_app, all_digits_zeros. cbn [all_digits].
          rewrite A0, Ar. reflexivity. }
        assert (Le : lacks "e" ((String c0 r0 ++ zeros k)
                                ++ String "." (String "0" EmptyString)) = true).
        { rewrite lacks_app, (lacks_all_digits "e" _ Ne Ad). reflexivity. }
        unfold read_unsigned. rewrite (split_at_lacks "e" _ Le).
        rewrite (split_at_app "." _ _ (lacks_all_digits "." _ Np Ad)).
        cbn [default from_option id].
        rewrite read_nat_nonempty by discriminate.
        rewrite read_digits_app. cbn [read_digits]. rewrite V0, R.
        rewrite read_digits_zeros.
        change (digit_value "0") with (Some 0). cbv iota.
        eexists _, _. split; [reflexivity|]. right.
        split; [|split; [reflexivity | exact C3]].
        replace (decpt - n + 1) with (Z.succ (Z.of_nat k)) by (unfold k; lia).
        rewrite Z.pow_succ_r by lia. ring.
      * (* ddd.ddd *)
        set (j := Z.to_nat decpt).
        destruct (take_drop (String c0 r0) j) as (E1 & E2 & E3);
          [unfold j; cbn [String.length]; cbn [String.length] in Hn; lia|].
        set (whole := substring 0 j (String c0 r0)) in *.
        set (frac := string_drop j (String c0 r0)) in *.
        assert (Aw : all_digits whole = true)
          by (apply all_digits_substring; cbn [all_digits];
              rewrite A0, Ar; reflexivity).
        assert (Af : all_digits frac = true)
          by (apply all_digits_substring; cbn [all_digits];
              rewrite A0, Ar; reflexivity).
        assert (Nw : whole <> EmptyString)
          by (apply length_pos_nonempty; rewrite E2; unfold j; lia).
        change (whole ++ "." ++ frac) with (whole ++ String "." frac).
        split.
        { destruct whole as [|c r]; [congruence|].
          exists c, (r ++ String "." frac). split; [reflexivity|].
          cbn [all_digits] in Aw. apply andb_prop in Aw as [Aw _]. exact Aw. }
        assert (Le : lacks "e" (whole ++ String "." frac) = true).
        { rewrite lacks_app, (lacks_all_digits "e" _ Ne Aw). cbn [lacks andb].
          change (negb (Ascii.eqb "." "e")) with true. cbn [andb].
          apply lacks_all_digits; assumption. }
        unfold read_unsigned. rewrite (split_at_lacks "e" _ Le).
        rewrite (split_at_app "." _ _ (lacks_all_digits "." _ Np Aw)).
        cbn [default from_option id]. rewrite read_nat_nonempty by exact Nw.
        assert (Rw : read_digits 0 (whole ++ frac) = Some D)
          by (rewrite E1; cbn [read_digits]; rewrite V0; exact R).
        rewrite read_digits_app in Rw.
        destruct (read_digits 0 whole) as [a|]; [|discriminate Rw].
        rewrite Rw.
        eexists _, _. split; [reflexivity|]. left. split; [reflexivity|].
        rewrite E3. unfold j. cbn [String.length]. lia.
Qed.

End ReadDecimal.

(** *** The text of a number reads as its digits *)

Section ReadBack.

Lemma scaled_digits (c b k : Z) :
  -400 <= b -> 0 <= k -> scaled (c * 10 ^ k) 0 b = scaled c 0 (b + k).
Proof.
  intros Hb Hk. rewrite (scaled_mul c 0 (b + k)), scaled_shift10 by assumption.
  rewrite (scaled_mul (c * 10 ^ k)). ring.
Qed.

Lemma digit_is_no_sign (c : ascii) : is_digit c = true -> Ascii.eqb c "-" = false.
Proof.
  intros H. destruct (Ascii.eqb_spec c "-") as [->|]; [discriminate H | reflexivity].
Qed.

(** The digits [d], laid out with the decimal point [q] places from their
    end, spell the number [d * 10^q]. *)
Lemma read_decimal_layout (s : bool) (d q : Z) :
  0 < d -> -400 <= q ->
  let ds := digits (Z.to_N d) in
  exists d' q',
    read_decimal (sign_str s
                  ++ repr_layout (strip_zeros ds)
                       (Z.of_nat (String.length ds) + q))
    = Some (s, d', q')
    /\ -400 <= q' /\ scaled d' 0 q' = scaled d 0 q.
Proof.
  intros Hd Hq ds.
  pose proof (all_digits_digits (Z.to_N d)) as A. fold ds in A.
  pose proof (read_digits_digits (Z.to_N d)) as R. fold ds in R.
  rewrite Z2N.id in R by lia.
  destruct (strip_zeros_spec ds) as [t E].
  pose proof (all_digits_strip_zeros ds A) as As.
  destruct (read_digits_all_digits _ As 0) as [D RD].
  assert (Dd : d = D * 10 ^ Z.of_nat t).
  { rewrite E, read_digits_app, RD, read_digits_zeros in R. congruence. }
  assert (Ns : strip_zeros ds <> EmptyString).
  { intros N. rewrite N in RD. cbn [read_digits] in RD.
    assert (D = 0) by congruence. subst D. lia. }
  assert (Ln : Z.of_nat (String.length ds)
               = Z.of_nat (String.length (strip_zeros ds)) + Z.of_nat t).
  { rewrite E at 1. rewrite length_app, length_zeros. lia. }
  destruct (read_unsigned_layout (strip_zeros ds)
              (Z.of_nat (String.length ds) + q) D As Ns RD)
    as ((c & r & L & Hc) & d' & q' & U & H).
  exists d', q'. split; [|].
  - rewrite L in U |- *. destruct s.
    + change (sign_str true ++ String c r) with (String "-" (String c r)).
      cbn [read_decimal]. change (Ascii.eqb "-" "-") with true. cbv iota.
      rewrite U. reflexivity.
    + change (sign_str false ++ String c r) with (String c r).
      cbn [read_decimal]. rewrite (digit_is_no_sign c Hc), U. reflexivity.
  - destruct H as [[-> ->]|(-> & -> & Hn)].
    + split; [lia|]. rewrite Dd, scaled_digits by lia. f_equal. lia.
    + split; [lia|]. rewrite Dd, !scaled_digits by lia. f_equal. lia.
Qed.

Lemma nearest_same_number (prec emin : Z) (m : positive) (e d q d' q' : Z) :
  -400 <= q' -> scaled d' 0 q' = scaled d 0 q ->
  nearest prec emin m e d q -> nearest prec emin m e d' q'.
Proof.
  unfold nearest. intros Hq E [_ H]. rewrite E. split; [exact Hq | exact H].
Qed.

End ReadBack.

(** ** The shortest text of a number reads back as the number *)

Lemma digits2_pos_bounds (m : positive) :
  2 ^ (Zpos (digits2_pos m) - 1) <= Zpos m < 2 ^ Zpos (digits2_pos m).
Proof.
  induction m as [m IH|m IH|]; [| |simpl; lia];
    cbn [digits2_pos]; rewrite Pos2Z.inj_succ;
    replace (Z.succ (Zpos (digits2_pos m)) - 1)
      with (Z.succ (Zpos (digits2_pos m) - 1)) by lia;
    rewrite !Z.pow_succ_r by lia; lia.
Qed.

(** A number of a binary format with [prec] bits of mantissa and
    exponents below [emax]. *)
Lemma valid_binary_bounds (prec emax : Z) (s : bool) (m : positive) (e : Z) :
  1 < prec ->
  valid_binary prec emax (S754_finite s m e) = true ->
  3 - emax - prec <= e <= emax - prec /\ Zpos m < 2 ^ prec.
Proof.
  unfold valid_binary, bounded, canonical_mantissa, fexp, SpecFloat.emin.
  intros prec_gt_1 H. apply andb_prop in H as [H1 H2].
  apply Z.eqb_eq in H1. apply Z.leb_le in H2.
  pose proof (digits2_pos_bounds m) as [_ B].
  split; [lia|].
  eapply Z.lt_le_trans; [exact B|].
  apply Z.pow_le_mono_r; lia.
Qed.

Section Shortest.

(** A binary format: [prec] bits of mantissa, exponents below [emax];
    [top] is its least mantissa of full width and [digits_max] the number
    of digits that tells all its numbers apart. *)
Variables (prec emax : Z) (top : positive) (digits_max : nat).

Let emin : Z := 3 - emax - prec.

Hypothesis prec_gt_1 : 1 < prec.
Hypothesis top_eq : Zpos top = 2 ^ (prec - 1).
Hypothesis digits_enough : 2 ^ prec < 10 ^ (Z.of_nat digits_max - 1).
Hypothesis digits_le : (1 <= digits_max <= 17)%nat.
Hypothesis emin_ge : -1098 <= emin.

(** The estimate of the decimal point is at most four places too low. *)
Hypothesis estimate : forall b, emin <= b < emax ->
  let p0 := b * 30103 / 100000 - 1 in
  -380 <= p0
  /\ scaled 1 0 (p0 - 1) <= scaled 1 b 0
  /\ scaled 1 (b + 1) 0 <= scaled 1 0 (p0 + 4).

Section OneNumber.

Variables (m : positive) (e : Z).
Hypothesis e_ge : emin <= e <= emax - prec.
Hypothesis m_lt : Zpos m < 2 ^ prec.

Let b : Z := Z.log2 (Zpos m) + e.
Let p : Z := decimal_point 4 (b * 30103 / 100000 - 1) (Zpos m) e.
(** The number, and a quarter of its unit in the last place. *)
Let V : Z := scaled (Zpos m) e 0.
Let T : Z := scaled 1 (e - 2) 0.

Lemma T_pos : 0 < T.
Proof. apply scaled_pos; lia. Qed.

Lemma V_eq : V = 4 * Zpos m * T.
Proof.
  unfold V, T. rewrite scaled_mul.
  replace e with (e - 2 + 2) at 1 by lia.
  rewrite scaled_shift2 by lia. change (2 ^ 2) with 4. ring.
Qed.

Lemma b_range : emin <= b < emax.
Proof.
  pose proof (Z.log2_nonneg (Zpos m)).
  assert (Z.log2 (Zpos m) < prec) by (apply Z.log2_lt_pow2; lia).
  unfold b. lia.
Qed.

Lemma V_between : scaled 1 b 0 <= V < scaled 1 (b + 1) 0.
Proof.
  destruct (Z.log2_spec (Zpos m) ltac:(lia)) as [L1 L2].
  pose proof (Z.log2_nonneg (Zpos m)) as L0.
  assert (U : 0 < scaled 1 e 0) by (apply scaled_pos; lia).
  unfold V, b. rewrite (scaled_mul (Zpos m)).
  replace (Z.log2 (Zpos m) + e + 1) with (e + Z.succ (Z.log2 (Zpos m))) by lia.
  replace (Z.log2 (Zpos m) + e) with (e + Z.log2 (Zpos m)) by lia.
  rewrite (scaled_shift2 e 0 (Z.log2 (Zpos m))),
    (scaled_shift2 e 0 (Z.succ (Z.log2 (Zpos m)))) by lia.
  rewrite Z.pow_succ_r in L2 |- * by lia. nia.
Qed.

Lemma decimal_point_scan (fuel : nat) :
  forall p1, -399 <= p1 ->
    scaled 1 0 (p1 - 1) <= V -> V < scaled 1 0 (p1 + Z.of_nat fuel) ->
    let r := decimal_point fuel p1 (Zpos m) e in
    p1 <= r <= p1 + Z.of_nat fuel
    /\ scaled 1 0 (r - 1) <= V < scaled 1 0 r.
Proof.
  induction fuel as [|fuel IH]; intros p1 Hp Lo Hi; cbn [decimal_point].
  - cbv zeta. replace (p1 + Z.of_nat 0) with p1 in Hi by lia. lia.
  - rewrite cmp_dec_bin_scaled by lia. fold V.
    assert (Hi' : V < scaled 1 0 (p1 + 1 + Z.of_nat fuel))
      by (replace (p1 + 1 + Z.of_nat fuel) with (p1 + Z.of_nat (S fuel)) by lia;
          exact Hi).
    assert (step : scaled 1 0 p1 <= V ->
              p1 <= decimal_point fuel (p1 + 1) (Zpos m) e
                 <= p1 + Z.of_nat (S fuel)
              /\ scaled 1 0 (decimal_point fuel (p1 + 1) (Zpos m) e - 1) <= V
                 < scaled 1 0 (decimal_point fuel (p1 + 1) (Zpos m) e)).
    { intros Lo'. destruct (IH (p1 + 1)) as [R1 R2]; [lia | | exact Hi' |].
      - replace (p1 + 1 - 1) with p1 by lia. exact Lo'.
      - cbv zeta in R1, R2. split; [lia | exact R2]. }
    destruct (Z.compare_spec (scaled 1 0 p1) V) as [E|L|G]; cbv zeta.
    + apply step. lia.
    + apply step. lia.
    + lia.
Qed.

(** [p] is the number of digits before the decimal point. *)
Lemma decimal_point_correct :
  -380 <= p /\ scaled 1 0 (p - 1) <= V < scaled 1 0 p.
Proof.
  destruct (estimate b b_range) as (E0 & E1 & E2). cbv zeta in E0, E1, E2.
  pose proof V_between as [B1 B2].
  destruct (decimal_point_scan 4 (b * 30103 / 100000 - 1)) as [R1 R2].
  - lia.
  - lia.
  - change (Z.of_nat 4) with 4. lia.
  - fold p in R1, R2. lia.
Qed.

(** Four times the lower end of the numbers that read back, in quarters
    of the unit in the last place. *)
Let lo : Z :=
  if (Pos.eqb m top && (emin <? e))%bool then 4 * Zpos m - 1 else 4 * Zpos m - 2.

Lemma inside_in_spec (d q : Z) :
  -400 <= q ->
  inside_in top emin m e d q = true <->
  (lo * T < scaled d 0 q < (4 * Zpos m + 2) * T
   \/ (Z.even (Zpos m) = true
       /\ (scaled d 0 q = lo * T \/ scaled d 0 q = (4 * Zpos m + 2) * T))).
Proof.
  intros Hq. unfold inside_in. fold lo.
  rewrite !cmp_dec_bin_scaled by lia.
  rewrite (scaled_mul lo), (scaled_mul (4 * Zpos m + 2)). fold T.
  pose proof T_pos as HT.
  assert (Hlo : lo < 4 * Zpos m + 2)
    by (unfold lo; destruct (Pos.eqb m top && (emin <? e))%bool; lia).
  destruct (Z.compare_spec (scaled d 0 q) (lo * T)) as [E1|L1|G1];
    destruct (Z.compare_spec (scaled d 0 q) ((4 * Zpos m + 2) * T)) as [E2|L2|G2];
    split; intros H; try discriminate H; try nia; try tauto;
    try (destruct H as [H|[H [H'|H']]]; nia).
  - destruct H as [H|[H _]]; [nia | exact H].
  - destruct H as [H|[H _]]; [nia | exact H].
Qed.

Lemma inside_in_nearest (d q : Z) :
  -400 <= q -> inside_in top emin m e d q = true -> nearest prec emin m e d q.
Proof.
  intros Hq H. apply inside_in_spec in H; [|exact Hq].
  pose proof T_pos as HT. pose proof V_eq as HV.
  unfold nearest. fold V. cbv zeta. split; [exact Hq|].
  assert (B : next_below prec emin m e + V = (2 * lo) * T).
  { unfold next_below, lo. rewrite HV.
    replace (Zpos m =? 2 ^ (prec - 1)) with (Pos.eqb m top).
    2:{ destruct (Pos.eqb_spec m top) as [->|N].
        - rewrite top_eq. symmetry. apply Z.eqb_refl.
        - symmetry. apply Z.eqb_neq. rewrite <- top_eq. congruence. }
    destruct (Pos.eqb_spec m top) as [->|N]; simpl andb.
    - destruct (emin <? e); cbv iota.
      + rewrite (scaled_mul (2 ^ prec - 1)).
        replace (e - 1) with (e - 2 + 1) by lia.
        rewrite (scaled_shift2 (e - 2) 0 1) by lia. fold T.
        replace (2 ^ prec) with (2 * 2 ^ (prec - 1)).
        2:{ rewrite <- Z.pow_succ_r by lia. f_equal. lia. }
        rewrite <- top_eq. change (2 ^ 1) with 2. ring.
      + rewrite (scaled_mul (Zpos top - 1)).
        replace e with (e - 2 + 2) at 1 by lia.
        rewrite (scaled_shift2 (e - 2) 0 2) by lia. fold T.
        change (2 ^ 2) with 4. ring.
    - cbv iota. rewrite (scaled_mul (Zpos m - 1)).
      replace e with (e - 2 + 2) at 1 by lia.
      rewrite (scaled_shift2 (e - 2) 0 2) by lia. fold T.
      change (2 ^ 2) with 4. ring. }
  assert (A : V + next_above m e = (2 * (4 * Zpos m + 2)) * T).
  { unfold next_above. rewrite HV, (scaled_mul (Zpos m + 1)).
    replace e with (e - 2 + 2) at 1 by lia.
    rewrite (scaled_shift2 (e - 2) 0 2) by lia. fold T.
    change (2 ^ 2) with 4. ring. }
  rewrite B, A.
  destruct H as [H|[Hev [H|H]]]; [left; nia | right; split; [exact Hev|]..].
  - left. nia.
  - right. nia.
Qed.

(** The search stops at the first number of digits for which a decimal
    reads back. *)
Lemma shortest_in_found (p1 : Z) (fuel : nat) :
  forall k,
    (exists j, k <= j < k + Z.of_nat fuel
       /\ (inside_in top emin m e (floor_dec (4 * Zpos m) (e - 2) (p1 - j)) (p1 - j)
           = true
           \/ inside_in top emin m e
                (floor_dec (4 * Zpos m) (e - 2) (p1 - j) + 1) (p1 - j) = true)) ->
    inside_in top emin m e (fst (shortest_in top emin fuel k m e p1))
      (snd (shortest_in top emin fuel k m e p1)) = true
    /\ k <= p1 - snd (shortest_in top emin fuel k m e p1) < k + Z.of_nat fuel.
Proof.
  induction fuel as [|fuel IH]; intros k (j & Hj & H); [lia|].
  cbn [shortest_in]. cbv zeta.
  destruct (inside_in top emin m e (floor_dec (4 * Zpos m) (e - 2) (p1 - k))
              (p1 - k)) eqn:I1;
    destruct (inside_in top emin m e
                (floor_dec (4 * Zpos m) (e - 2) (p1 - k) + 1) (p1 - k)) eqn:I2.
  - destruct (cmp_dec_bin _ _ _ _); [destruct (Z.even _)| |];
      cbn [fst snd]; (split; [assumption | lia]).
  - cbn [fst snd]. split; [assumption | lia].
  - cbn [fst snd]. split; [assumption | lia].
  - destruct (IH (k + 1)) as [R1 R2].
    + exists j. split; [|exact H].
      assert (j <> k) by (intros ->; destruct H; congruence). lia.
    + split; [exact R1 | lia].
Qed.

(** With [digits_max] digits one of the two decimals next to the number
    reads back. *)
Lemma enough_digits :
  let q := p - Z.of_nat digits_max in
  inside_in top emin m e (floor_dec (4 * Zpos m) (e - 2) q) q = true
  \/ inside_in top emin m e (floor_dec (4 * Zpos m) (e - 2) q + 1) q = true.
Proof.
  intros q. destruct decimal_point_correct as (P0 & P1 & P2).
  assert (Hq : -400 <= q) by (unfold q; lia).
  pose proof T_pos as HT. pose proof V_eq as HV.
  set (U := scaled 1 0 q).
  assert (HU : 0 < U) by (apply scaled_pos; lia).
  assert (D : floor_dec (4 * Zpos m) (e - 2) q = V / U).
  { rewrite floor_dec_scaled by lia. rewrite (scaled_mul (4 * Zpos m)).
    fold T. rewrite <- HV. reflexivity. }
  rewrite !inside_in_spec by exact Hq. rewrite D.
  rewrite (scaled_mul (V / U) 0 q), (scaled_mul (V / U + 1) 0 q). fold U.
  pose proof (Z.div_mod V U ltac:(lia)) as DM.
  pose proof (Z.mod_pos_bound V U HU) as MB.
  set (dl := V / U) in *. set (R := V mod U) in *.
  assert (W : 10 ^ (Z.of_nat digits_max - 1) * U <= V).
  { replace (p - 1) with (q + (Z.of_nat digits_max - 1)) in P1 by (unfold q; lia).
    rewrite scaled_shift10 in P1 by lia. exact P1. }
  set (G := 10 ^ (Z.of_nat digits_max - 1)) in *.
  assert (HG : 0 < G) by (apply Z.pow_pos_nonneg; lia).
  unfold lo. destruct (Pos.eqb_spec m top) as [->|N]; simpl andb.
  - destruct (emin <? e).
    + assert (HV2 : V = 2 * 2 ^ prec * T).
      { rewrite HV, top_eq.
        replace (2 ^ prec) with (2 * 2 ^ (prec - 1)); [ring|].
        rewrite <- Z.pow_succ_r by lia. f_equal. lia. }
      assert (U < 2 * T) by nia.
      destruct (Z_lt_le_dec R T); [left | right]; left; nia.
    + assert (U < 4 * T) by nia.
      destruct (Z_lt_le_dec R (2 * T)); [left | right]; left; nia.
  - assert (U < 4 * T) by nia.
    destruct (Z_lt_le_dec R (2 * T)); [left | right]; left; nia.
Qed.

(** What the search returns reads back as the number. *)
Lemma shortest_in_nearest :
  let r := shortest_in top emin digits_max 1 m e p in
  nearest prec emin m e (fst r) (snd r)
  /\ 0 < fst r
  /\ 1 <= p - snd r <= Z.of_nat digits_max.
Proof.
  cbv zeta. destruct decimal_point_correct as (P0 & P1 & P2).
  destruct (shortest_in_found p digits_max 1) as [I R].
  { exists (Z.of_nat digits_max). split; [lia | apply enough_digits]. }
  assert (Hq : -400 <= snd (shortest_in top emin digits_max 1 m e p)) by lia.
  split; [apply inside_in_nearest; assumption|]. split; [|lia].
  apply inside_in_spec in I; [|exact Hq].
  pose proof T_pos as HT.
  assert (HU : 0 < scaled 1 0 (snd (shortest_in top emin digits_max 1 m e p)))
    by (apply scaled_pos; lia).
  rewrite (scaled_mul (fst _)) in I.
  assert (0 < lo)
    by (unfold lo; destruct (Pos.eqb m top && (emin <? e))%bool; lia).
  destruct I as [I|[_ [I|I]]]; nia.
Qed.

End OneNumber.

(** The shortest text of a number of the format reads back as that
    number. *)
Lemma shortest_repr_reads (f : spec_float) :
  valid_binary prec emax f = true ->
  reads_float prec emin (shortest_repr top emin digits_max f) f.
Proof.
  intros V. destruct f as [s|s| |s m e].
  - exists (-1). destruct s; reflexivity.
  - destruct s; reflexivity.
  - reflexivity.
  - destruct (valid_binary_bounds prec emax s m e prec_gt_1 V) as [He Hm].
    pose proof (shortest_in_nearest m e He Hm) as H. cbv zeta in H.
    cbn [shortest_repr reads_float]. cbv zeta.
    destruct (shortest_in top emin digits_max 1 m e _) as [d q].
    cbn [fst snd] in H. destruct H as (N & Hd & _).
    assert (Hq : -400 <= q) by (destruct N as [Hq _]; exact Hq).
    destruct (read_decimal_layout s d q Hd Hq) as (d' & q' & R & Hq' & E).
    exists d', q'. split; [exact R|].
    exact (nearest_same_number prec emin m e d q d' q' Hq' E N).
Qed.


End Shortest.

(** *** The two formats *)

Section Formats.

Lemma nth_tens_from (n : nat) :
  forall (x : Z) (j : nat),
    (j < n)%nat -> nth j (tens_from n x) 0 = x * 10 ^ Z.of_nat j.
Proof.
  induction n as [|n IH]; intros x j Hj; [lia|].
  destruct j as [|j]; cbn [tens_from nth].
  - change (Z.of_nat 0) with 0. rewrite Z.pow_0_r. ring.
  - rewrite IH by lia. rewrite Nat2Z.inj_succ, Z.pow_succ_r by lia. ring.
Qed.

(** The estimate of the decimal point is good for every exponent of
    binary64 (those of binary32 are among them). *)
Lemma estimate_table :
  let tens := tens_from 800 1 in
  forallb (fun k => estimate_ok tens (-1074 + Z.of_nat k)) (seq 0 2098) = true.
Proof. vm_compute. reflexivity. Qed.

Lemma estimate_holds (b : Z) :
  -1074 <= b < 1024 ->
  let p0 := b * 30103 / 100000 - 1 in
  -380 <= p0 /\ scaled 1 0 (p0 - 1) <= scaled 1 b 0
  /\ scaled 1 (b + 1) 0 <= scaled 1 0 (p0 + 4).
Proof.
  intros Hb. pose proof estimate_table as T. cbv zeta in T.
  rewrite forallb_forall in T.
  specialize (T (Z.to_nat (b + 1074))).
  replace (-1074 + Z.of_nat (Z.to_nat (b + 1074))) with b in T by lia.
  assert (I : In (Z.to_nat (b + 1074)) (seq 0 2098)) by (apply in_seq; lia).
  apply T in I. unfold estimate_ok in I. cbv zeta in I.
  apply andb_prop in I as [I I4]. apply andb_prop in I as [I I3].
  apply andb_prop in I as [I1 I2].
  apply Z.leb_le in I1, I2, I3, I4.
  set (p0 := b * 30103 / 100000 - 1) in *.
  assert (E : forall q, -400 <= q < 400 ->
                nth (Z.to_nat (q + 400)) (tens_from 800 1) 0 = 10 ^ (q + 400)).
  { intros q Hq. rewrite nth_tens_from by lia. rewrite Z2Nat.id by lia. ring. }
  rewrite !E in I3, I4 by lia.
  split; [exact I1|]. unfold scaled. split; [exact I3 | exact I4].
Qed.

Lemma shortest_is_shortest_in (fuel : nat) :
  forall k m e p,
    shortest fuel k m e p = shortest_in (2 ^ 52) (-1074) fuel k m e p.
Proof.
  induction fuel as [|fuel IH]; intros k m e p; [reflexivity|].
  cbn [shortest shortest_in]. rewrite IH. reflexivity.
Qed.

Lemma float_repr_shortest (f : spec_float) :
  float_repr f = shortest_repr (2 ^ 52) (-1074) 17 f.
Proof.
  destruct f as [s|s| |s m e]; [reflexivity..|].
  unfold float_repr, shortest_repr. rewrite shortest_is_shortest_in.
  reflexivity.
Qed.

(** [float(repr(x))] is [x], for every binary64 value. *)
Lemma float_repr_reads (f : spec_float) :
  valid_binary prec64 emax64 f = true ->
  reads_float prec64 (-1074) (float_repr f) f.
Proof.
  intros V. rewrite float_repr_shortest.
  apply (shortest_repr_reads prec64 emax64 (2 ^ 52) 17).
  - unfold prec64. lia.
  - reflexivity.
  - reflexivity.
  - lia.
  - unfold emax64, prec64. lia.
  - intros b Hb. apply estimate_holds. unfold emax64, prec64 in Hb. lia.
  - exact V.
Qed.

(** [numpy.float32(str(y))] is [y], for every binary32 value. *)
Lemma float32_repr_reads (f : spec_float) :
  valid_binary prec32 emax32 f = true ->
  reads_float prec32 (-149) (float32_repr f) f.
Proof.
  intros V.
  apply (shortest_repr_reads prec32 emax32 (2 ^ 23) 9).
  - unfold prec32. lia.
  - reflexivity.
  - reflexivity.
  - lia.
  - unfold emax32, prec32. lia.
  - intros b Hb. apply estimate_holds. unfold emax32, prec32 in Hb. lia.
  - exact V.
Qed.

End Formats.

(** ** From binary32 to binary64 *)

Section Widening.

Lemma digits2_pos_iter (m d : positive) :
  digits2_pos (Pos.iter xO m d) = (digits2_pos m + d)%positive.
Proof.
  induction d as [|d IH] using Pos.peano_ind.
  - simpl. rewrite Pos.add_1_r. reflexivity.
  - rewrite Pos.iter_succ. simpl. rewrite IH, Pos.add_succ_r. reflexivity.
Qed.

Lemma iter_xO_mul (m d : positive) :
  Pos.iter xO m d = (m * 2 ^ d)%positive.
Proof.
  induction d as [|d IH] using Pos.peano_ind.
  - simpl. rewrite Pos.pow_1_r. lia.
  - rewrite Pos.iter_succ, IH, Pos.pow_succ_r. lia.
Qed.

(** The mantissa of a binary32 value has at most 24 bits, and its exponent
    lies between -149 and 104. *)
Lemma float32_bounds (s : bool) (m : positive) (e : Z) :
  valid_binary prec32 emax32 (S754_finite s m e) = true ->
  Zpos (digits2_pos m) <= 24 /\ -149 <= e <= 104.
Proof.
  unfold valid_binary, bounded, canonical_mantissa, fexp, emin, prec32, emax32.
  intros H. apply andb_prop in H as [H1 H2].
  apply Z.eqb_eq in H1. apply Z.leb_le in H2. lia.
Qed.

(** A mantissa of 53 bits with an exponent in the range of binary64 is
    left as it is by the rounding. *)
Lemma binary_round_aux_canonical (s : bool) (m : positive) (e : Z) :
  Zpos (digits2_pos m) = 53 -> -1074 <= e <= 971 ->
  binary_round_aux prec64 emax64 s (Zpos m) e loc_Exact = S754_finite s m e.
Proof.
  intros D E. unfold binary_round_aux, shr_fexp, Zdigits2.
  rewrite D. unfold fexp, emin, prec64, emax64.
  replace (Z.max (53 + e - 53) (3 - 1024 - 53) - e) with 0 by lia.
  cbn [shr shr_record_of_loc shr_m loc_of_shr_record round_nearest_even Zdigits2].
  rewrite D.
  replace (Z.max (53 + e - 53) (3 - 1024 - 53) - e) with 0 by lia.
  cbn [shr shr_record_of_loc shr_m].
  replace (e <=? 1024 - 53) with true by (symmetry; apply Z.leb_le; lia).
  reflexivity.
Qed.

Lemma to_float64_of_float32 (s : bool) (m : positive) (e : Z) :
  valid_binary prec32 emax32 (S754_finite s m e) = true ->
  to_float64 (S754_finite s m e)
  = S754_finite s (m * 2 ^ Z.to_pos (53 - Zpos (digits2_pos m)))
      (e - (53 - Zpos (digits2_pos m))).
Proof.
  intros V. destruct (float32_bounds s m e V) as [D E].
  assert (D1 : 1 <= Zpos (digits2_pos m)) by lia.
  set (k := Z.to_pos (53 - Zpos (digits2_pos m))).
  assert (K : Zpos k = 53 - Zpos (digits2_pos m)) by (unfold k; lia).
  assert (R : binary_round prec64 emax64 s m e
              = S754_finite s (m * 2 ^ k) (e - (53 - Zpos (digits2_pos m)))).
  { unfold binary_round, shl_align, fexp, emin, prec64, emax64.
    replace (Z.max (Zpos (digits2_pos m) + e - 53) (3 - 1024 - 53) - e)
      with (Zneg k) by lia.
    replace (Z.max (Zpos (digits2_pos m) + e - 53) (3 - 1024 - 53))
      with (e - (53 - Zpos (digits2_pos m))) by lia.
    rewrite <- iter_xO_mul.
    apply binary_round_aux_canonical; [|lia].
    rewrite digits2_pos_iter. lia. }
  unfold to_float64, round_to, binary_normalize.
  destruct s; simpl; exact R.
Qed.

(** [float(y)] of a binary32 value is a binary64 value. *)
Lemma to_float64_valid (y : spec_float) :
  valid_binary prec32 emax32 y = true ->
  valid_binary prec64 emax64 (to_float64 y) = true.
Proof.
  destruct y as [s|s| |s m e]; intros V; try reflexivity.
  rewrite (to_float64_of_float32 s m e V).
  destruct (float32_bounds s m e V) as [D E].
  assert (D1 : 1 <= Zpos (digits2_pos m)) by lia.
  unfold valid_binary, bounded, canonical_mantissa, fexp, emin, prec64, emax64.
  rewrite <- iter_xO_mul, digits2_pos_iter.
  apply andb_true_intro. split; [apply Z.eqb_eq | apply Z.leb_le]; lia.
Qed.

End Widening.

(** ** The prediction on the page *)

Section Shown.

Lemma read_decimal_signed (s : bool) (body : string) (d q : Z) :
  (exists c r, body = String c r /\ is_digit c = true) ->
  read_unsigned body = Some (d, q) ->
  read_decimal (sign_str s ++ body) = Some (s, d, q).
Proof.
  intros (c & r & -> & Hc) U. destruct s.
  - change (sign_str true ++ String c r) with (String "-" (String c r)).
    cbn [read_decimal]. change (Ascii.eqb "-" "-") with true. cbv iota.
    rewrite U. reflexivity.
  - change (sign_str false ++ String c r) with (String c r).
    cbn [read_decimal]. rewrite (digit_is_no_sign c Hc), U. reflexivity.
Qed.

Lemma round_half_even_near (n d : Z) :
  0 < d -> 2 * Z.abs (round_half_even n d * d - n) <= d.
Proof.
  intros Hd. unfold round_half_even.
  pose proof (Z.div_mod n d ltac:(lia)) as E.
  pose proof (Z.mod_pos_bound n d Hd) as B.
  set (q := n / d) in *. set (r := n mod d) in *.
  destruct (Z.compare_spec (2 * r) d) as [H|H|H].
  - destruct (Z.even q); nia.
  - nia.
  - nia.
Qed.

Lemma round_half_even_nonneg (n d : Z) :
  0 <= n -> 0 < d -> 0 <= round_half_even n d.
Proof.
  intros Hn Hd. unfold round_half_even.
  pose proof (Z.div_pos n d Hn Hd) as Q.
  destruct (2 * (n mod d) ?= d); [destruct (Z.even _)| |]; lia.
Qed.

(** The hundredths [n], written with two decimals, read as [n / 100]. *)
Lemma read_unsigned_hundredths (n : Z) :
  0 <= n ->
  let body := digits (Z.to_N (n / 100)) ++ "." ++ pad 2 (Z.to_N (n mod 100)) in
  (exists c r, body = String c r /\ is_digit c = true)
  /\ read_unsigned body = Some (n, -2).
Proof.
  intros Hn body.
  pose proof (Z.div_mod n 100 ltac:(lia)) as E.
  pose proof (Z.mod_pos_bound n 100 ltac:(lia)) as B.
  pose proof (Z.div_pos n 100 Hn ltac:(lia)) as Q.
  set (a := Z.to_N (n / 100)) in *. set (b := Z.to_N (n mod 100)) in *.
  pose proof (all_digits_digits a) as Aa.
  pose proof (digits_not_empty a) as Na.
  destruct (pad_two_reads b ltac:(unfold b; lia)) as (x & y & Pb & Rb).
  assert (Np : is_digit "." = false) by reflexivity.
  assert (Ne : is_digit "e" = false) by reflexivity.
  assert (Ab : all_digits (pad 2 b) = true)
    by (unfold pad; rewrite all_digits_app, all_digits_zeros;
        apply all_digits_digits).
  subst body. change ("." ++ pad 2 b) with (String "." (pad 2 b)).
  split.
  { destruct (digits a) as [|c r]; [congruence|].
    exists c, (r ++ String "." (pad 2 b)). split; [reflexivity|].
    cbn [all_digits] in Aa. apply andb_prop in Aa as [Aa _]. exact Aa. }
  assert (Le : lacks "e" (digits a ++ String "." (pad 2 b)) = true).
  { rewrite lacks_app, (lacks_all_digits "e" _ Ne Aa). cbn [lacks andb].
    change (negb (Ascii.eqb "." "e")) with true. cbn [andb].
    apply lacks_all_digits; assumption. }
  unfold read_unsigned. rewrite (split_at_lacks "e" _ Le).
  rewrite (split_at_app "." _ _ (lacks_all_digits "." _ Np Aa)).
  cbn [default from_option id]. rewrite read_nat_digits.
  rewrite Pb in *. 
  rewrite (read_digits_from _ (Z.of_N a) (Z.of_N b)) by exact Rb.
  cbn [String.length]. change (Z.of_nat 2) with 2. change (10 ^ 2) with 100.
  replace (Z.of_N a * 100 + Z.of_N b) with n by (unfold a, b; lia).
  reflexivity.
Qed.

(** [format(v, ".2f")] shows [v] to two decimals. *)
Lemma format_2f_shows (v : spec_float) :
  valid_binary prec64 emax64 v = true -> shows_two_decimals (format_2f v) v.
Proof.
  intros V. destruct v as [s|s| |s m e].
  - destruct s; reflexivity.
  - destruct s; reflexivity.
  - reflexivity.
  - destruct (valid_binary_bounds prec64 emax64 s m e ltac:(unfold prec64; lia) V)
      as [He _].
    unfold prec64, emax64 in He.
    unfold format_2f, shows_two_decimals.
    set (n := if 0 <=? e then Zpos m * 100 * 2 ^ e
              else round_half_even (Zpos m * 100) (2 ^ (- e))).
    assert (Hn : 0 <= n).
    { unfold n. destruct (Z.leb_spec 0 e).
      - assert (0 < 2 ^ e) by (apply Z.pow_pos_nonneg; lia). nia.
      - apply round_half_even_nonneg; [lia|]. apply Z.pow_pos_nonneg; lia. }
    destruct (read_unsigned_hundredths n Hn) as [F R].
    exists n. split; [apply read_decimal_signed; assumption|].
    assert (HQ : 0 < 10 ^ 398) by (apply Z.pow_pos_nonneg; lia).
    assert (HP : 0 < 2 ^ (e + 1100)) by (apply Z.pow_pos_nonneg; lia).
    assert (E10 : 10 ^ 400 = 100 * 10 ^ 398)
      by (change 400 with (2 + 398); rewrite Z.pow_add_r by lia; reflexivity).
    unfold scaled. change (-2 + 400) with 398. change (0 + 400) with 400.
    change (0 + 1100) with 1100. rewrite E10.
    set (Q := 10 ^ 398) in *. set (P := 2 ^ (e + 1100)) in *.
    unfold n. destruct (Z.leb_spec 0 e) as [C|C].
    + assert (E2 : 2 ^ 1100 * 2 ^ e = P)
        by (unfold P; rewrite <- Z.pow_add_r by lia; f_equal; lia).
      replace (Zpos m * 100 * 2 ^ e * 2 ^ 1100 * Q - Zpos m * P * (100 * Q))
        with 0 by (rewrite <- E2; ring).
      assert (0 < 2 ^ 1100) by (apply Z.pow_pos_nonneg; lia).
      change (Z.abs 0) with 0. nia.
    + set (D := 2 ^ (- e)).
      assert (HD : 0 < D) by (apply Z.pow_pos_nonneg; lia).
      pose proof (round_half_even_near (Zpos m * 100) D HD) as N.
      set (r := round_half_even (Zpos m * 100) D) in *.
      assert (E2 : 2 ^ 1100 = D * P)
        by (unfold D, P; rewrite <- Z.pow_add_r by lia; f_equal; lia).
      rewrite E2.
      replace (r * (D * P) * Q - Zpos m * P * (100 * Q))
        with ((r * D - Zpos m * 100) * (P * Q)) by ring.
      rewrite Z.abs_mul, (Z.abs_eq (P * Q)) by nia.
      replace (1 * (D * P) * Q) with (D * (P * Q)) by ring.
      assert (0 < P * Q) by nia.
      rewrite Z.mul_assoc. apply Z.mul_le_mono_nonneg_r; lia.
Qed.

End Shown.

(** ** What a prediction appends to the log (claims C3 and C10) *)

Section Appending.

Lemma join_fields_concat (fs : list string) :
  join_fields fs = String.concat "," fs.
Proof.
  induction fs as [|f [|g fs] IH]; [reflexivity | reflexivity|].
  change (join_fields (f :: g :: fs)) with (f ++ "," ++ join_fields (g :: fs)).
  rewrite IH. reflexivity.
Qed.

Lemma join_fields_header :
  join_fields header
  = "Time,Steam Flow,HRH P,HRH T,Main Steam P,HP Temp,Ambient,Predicted MW".
Proof. reflexivity. Qed.

Lemma csv_record_header (eol : string) :
  line_break eol = true -> csv_record eol header = join_fields header.
Proof. intros He. apply csv_record_wide; [exact He | reflexivity]. Qed.

Lemma csv_record_row (t : datetime) (sl : sliders) (v : spec_float) :
  csv_record crlf (map cell_str (Stream11.row t sl v))
  = join_fields (map cell_str (Stream11.row t sl v)).
Proof. apply csv_record_plain; [reflexivity | apply (plain_row t sl v)]. Qed.

Lemma csv_record_log (eol : string) (t : datetime) (sl : sliders) (y : spec_float) :
  line_break eol = true ->
  csv_record eol (map (fun c => pandas_str (snd c))
                    (Stream1.log t sl (Stream1.clipped_result y)))
  = join_fields (map (fun c => pandas_str (snd c))
                   (Stream1.log t sl (Stream1.clipped_result y))).
Proof.
  intros He.
  apply csv_record_plain; [exact He | apply (plain_log t sl _ (plain_clipped y))].
Qed.

Lemma log_columns (t : datetime) (sl : sliders) (v : pyval) :
  map fst (Stream1.log t sl v) = header.
Proof. reflexivity. Qed.

Lemma is_number_reads (f : spec_float) :
  is_number f = true ->
  reads_float64 (float_repr f) f /\ pandas_str (PyFloat f) = float_repr f.
Proof.
  unfold is_number. intros H. apply andb_prop in H as [V N].
  apply negb_true_iff in N. split; [apply float_repr_reads, V|].
  cbn [pandas_str]. rewrite N. reflexivity.
Qed.

Lemma clipped_result_valid (x : spec_float) :
  valid_binary prec64 emax64 x = true ->
  valid_binary prec64 emax64 (Stream11.clipped_result x) = true.
Proof.
  intros V. unfold Stream11.clipped_result, float_max, float_min.
  destruct (SFltb f290 x); [reflexivity|].
  destruct (SFltb x f140); [reflexivity | exact V].
Qed.

(** The Predicted MW field of stream1.py, by the cases of the clamp. *)
Lemma clipped_tells (y : spec_float) :
  valid_binary prec32 emax32 y = true ->
  tells_clamped32 y (pandas_str (Stream1.clipped_result y)).
Proof.
  intros V. unfold tells_clamped32.
  destruct (is_nan y) eqn:N; [destruct y; try discriminate N; reflexivity|].
  unfold Stream1.clipped_result, py_min, py_max.
  change (py_lt (PyInt 290) (NpFloat32 y)) with (SFltb f290 (to_float64 y)).
  destruct (SFltb f290 (to_float64 y)) eqn:H1; [reflexivity|].
  change (py_lt (NpFloat32 y) (PyInt 140)) with (SFltb (to_float64 y) f140).
  destruct (SFltb (to_float64 y) f140) eqn:H2; [reflexivity|].
  cbn [pandas_str]. rewrite N. apply float32_repr_reads, V.
Qed.

Section OneRecord.

Variables (t : datetime) (sl : sliders).
Hypothesis valid_t : valid_datetime t = true.
Hypothesis valid_sl : sliders_are_numbers sl = true.

(** The row of stream11.py tells the time, the sliders and the clamped
    value. *)
Lemma row_tells (v : spec_float) :
  valid_binary prec64 emax64 v = true ->
  tells (map cell_str (Stream11.row t sl v)) t sl (fun g => reads_float64 g v).
Proof.
  intros V. unfold sliders_are_numbers in valid_sl.
  apply andb_prop in valid_sl as [H Ha]. apply andb_prop in H as [H Hm].
  apply andb_prop in H as [Hs Hp].
  cbn [Stream11.row map cell_str tells].
  split; [apply (plain_row t sl v)|].
  split; [apply strftime_layout, valid_t|].
  split; [apply read_timestamp_strftime, valid_t|].
  split; [apply is_number_reads, Hs|]. split; [apply is_number_reads, Hp|].
  split; [apply read_int_int_str|]. split; [apply is_number_reads, Hm|].
  split; [apply read_int_int_str|]. split; [apply is_number_reads, Ha|].
  apply float_repr_reads, V.
Qed.

(** So does the frame of stream1.py, with its own text of the clamped
    value. *)
Lemma log_tells (y : spec_float) :
  valid_binary prec32 emax32 y = true ->
  tells (map (fun c => pandas_str (snd c))
           (Stream1.log t sl (Stream1.clipped_result y)))
    t sl (tells_clamped32 y).
Proof.
  intros V. unfold sliders_are_numbers in valid_sl.
  apply andb_prop in valid_sl as [H Ha]. apply andb_prop in H as [H Hm].
  apply andb_prop in H as [Hs Hp].
  pose proof (plain_log t sl _ (plain_clipped y)) as P.
  cbn [Stream1.log map snd tells] in P |- *.
  destruct (is_number_reads _ Hs) as [Rs ->].
  destruct (is_number_reads _ Hp) as [Rp ->].
  destruct (is_number_reads _ Hm) as [Rm ->].
  destruct (is_number_reads _ Ha) as [Ra ->].
  change (pandas_str (PyStr (strftime t))) with (strftime t).
  change (pandas_str (PyInt (hrh_t sl))) with (int_str (hrh_t sl)).
  change (pandas_str (PyInt (hp_t sl))) with (int_str (hp_t sl)).
  split.
  { destruct (is_number_reads _ Hs) as [_ Es].
    destruct (is_number_reads _ Hp) as [_ Ep].
    destruct (is_number_reads _ Hm) as [_ Em].
    destruct (is_number_reads _ Ha) as [_ Ea].
    rewrite <- Es, <- Ep, <- Em, <- Ea. exact P. }
  split; [apply strftime_layout, valid_t|].
  split; [apply read_timestamp_strftime, valid_t|].
  split; [exact Rs|]. split; [exact Rp|].
  split; [apply read_int_int_str|]. split; [exact Rm|].
  split; [apply read_int_int_str|]. split; [exact Ra|].
  apply clipped_tells, V.
Qed.

End OneRecord.

(** The world after the predict block, when the log can be written. *)
Lemma predict_block_11_world (i : interaction) (sess : session) (w : world)
    (y : spec_float) :
  writable w = true ->
  infer (sess_model sess) (input_vector (inputs i)) = Some y ->
  let v := Stream11.clipped_result (to_float64 y) in
  Stream11.predict_block i sess (input_slot (sess_model sess)) w
  = (Returned tt,
     set_files
       (<[log_path := log_after (files w !! log_path)
                        (header_line ++ crlf)
                        (String.concat ","
                           (map cell_str (Stream11.row (now i) (inputs i) v))
                         ++ crlf)]> (files w))
       (set_opened ((log_path, ModeA) :: opened w)
          (set_screen (shown (LANG i) (format_2f v) :: screen w) w))).
Proof.
  intros W Hy v. subst v.
  rewrite predict_block_11, Hy. cbv zeta.
  rewrite append_log_11. cbn [writable set_screen]. rewrite W.
  cbn [files opened set_screen].
  rewrite csv_record_row, csv_record_header, join_fields_header,
    join_fields_concat by reflexivity.
  reflexivity.
Qed.

Lemma predict_block_1_world (i : interaction) (sess : session) (w : world)
    (y : spec_float) :
  writable w = true ->
  line_break (linesep w) = true ->
  infer (sess_model sess) (input_vector (inputs i)) = Some y ->
  let v := Stream11.clipped_result (to_float64 y) in
  Stream1.predict_block i sess (input_slot (sess_model sess)) w
  = (Returned tt,
     set_files
       (<[log_path := log_after (files w !! log_path)
                        (header_line ++ linesep w)
                        (String.concat ","
                           (map (fun c => pandas_str (snd c))
                              (Stream1.log (now i) (inputs i)
                                 (Stream1.clipped_result y)))
                         ++ linesep w)]> (files w))
       (set_opened ((log_path, mode_when ModeA ModeW (files w !! log_path))
                    :: opened w)
          (set_screen (shown (LANG i) (format_2f v) :: screen w) w))).
Proof.
  intros W L Hy v. subst v.
  rewrite predict_block_1, Hy. cbv zeta.
  rewrite append_log_1. cbn [writable set_screen]. rewrite W.
  cbn [files opened set_screen linesep].
  unfold py_format_2f. rewrite clipped_result_agree.
  rewrite (csv_record_log _ _ _ _ L), log_columns, csv_record_header,
    join_fields_header, join_fields_concat by exact L.
  reflexivity.
Qed.

End Appending.

(** C3, where it fails. With no log file yet, stream1.py opens the log in
    write mode (the default of [to_csv]), not in append mode; stream11.py
    opens it in append mode. *)
Lemma stream1_opens_new_log_in_write_mode :
  opened (snd (rerun (Stream1.run (user true false false))
                 (fresh_world (constant_model (to_float32 f200)) true)))
  = [(log_path, ModeW)]
  /\ opened (snd (rerun (Stream11.run (user true false false))
                    (fresh_world (constant_model (to_float32 f200)) true)))
     = [(log_path, ModeA)].
Proof. split; vm_compute; reflexivity. Qed.

(** C3, amended. A prediction made while the log can be written opens the
    log file once: stream11.py in append mode; stream1.py in append mode
    when the file exists and in write mode when it does not. In both the
    file then holds its previous text followed by the new record, and
    exactly when there was no log file the header line
    [Time,Steam Flow,HRH P,HRH T,Main Steam P,HP Temp,Ambient,Predicted MW]
    comes first. The record is one line of eight fields separated by
    commas, none of which holds a comma, a quote or a line break. Read
    back, the first field is the time of the prediction, in the layout
    [YYYY-MM-DD HH:MM:SS]; the next six are the slider values steam flow,
    HRH pressure, HRH temperature, main steam pressure, HP temperature and
    ambient temperature; the eighth is the clamped prediction: in
    stream11.py the binary64 value shown, in stream1.py the int bound
    where the raw output was clamped, the raw binary32 output where it was
    not, and nothing for a NaN. stream11.py ends its lines with CR LF,
    stream1.py with the line terminator of the platform (LF or CR LF). No
    other file is touched. *)
Theorem append_header_then_row
    (i : interaction) (sess : session) (w : world) (y : spec_float) :
  writable w = true ->
  line_break (linesep w) = true ->
  infer (sess_model sess) (input_vector (inputs i)) = Some y ->
  valid_datetime (now i) = true ->
  sliders_are_numbers (inputs i) = true ->
  valid_binary prec32 emax32 y = true ->
  let old := files w !! log_path in
  let head :=
    "Time,Steam Flow,HRH P,HRH T,Main Steam P,HP Temp,Ambient,Predicted MW" in
  let v := Stream11.clipped_result (to_float64 y) in
  let w11 := snd (Stream11.predict_block i sess (input_slot (sess_model sess)) w) in
  let w1 := snd (Stream1.predict_block i sess (input_slot (sess_model sess)) w) in
  exists r11 r1 : list string,
    files w11 !! log_path
    = Some (match old with Some text => text | None => head ++ crlf end
            ++ String.concat "," r11 ++ crlf)
    /\ files w1 !! log_path
       = Some (match old with Some text => text | None => head ++ linesep w end
               ++ String.concat "," r1 ++ linesep w)
    /\ tells r11 (now i) (inputs i) (fun field => reads_float64 field v)
    /\ tells r1 (now i) (inputs i) (tells_clamped32 y)
    /\ opened w11 = (log_path, ModeA) :: opened w
    /\ opened w1
       = (log_path, match old with Some _ => ModeA | None => ModeW end)
         :: opened w
    /\ (forall q, q <> log_path ->
          files w11 !! q = files w !! q /\ files w1 !! q = files w !! q).
Proof.
  intros W L Hy Ht Hs Vy old head v w11 w1.
  exists (map cell_str (Stream11.row (now i) (inputs i) v)),
    (map (fun c => pandas_str (snd c))
       (Stream1.log (now i) (inputs i) (Stream1.clipped_result y))).
  subst w11 w1.
  rewrite (predict_block_11_world i sess w y W Hy),
    (predict_block_1_world i sess w y W L Hy).
  cbv zeta. cbn [snd files opened set_files set_opened set_screen].
  rewrite !lookup_insert_eq. fold old. fold v.
  split; [destruct old; reflexivity|].
  split; [destruct old; reflexivity|].
  split; [apply row_tells; [exact Ht | exact Hs |];
          apply clipped_result_valid, to_float64_valid, Vy|].
  split; [apply log_tells; assumption|].
  split; [reflexivity|]. split; [destruct old; reflexivity|].
  intros q Hq. rewrite !lookup_insert_ne by congruence. split; reflexivity.
Qed.

Lemma append_header_then_row_witness :
  let i := user true false false in
  let y := to_float32 f200_1 in
  let w := fresh_world (constant_model y) true in
  exists r11 r1 : list string,
    files (snd (Stream11.predict_block i (sample_session y) "float_input" w))
      !! log_path
    = Some (("Time,Steam Flow,HRH P,HRH T,Main Steam P,HP Temp,Ambient,Predicted MW"
             ++ crlf) ++ String.concat "," r11 ++ crlf)
    /\ files (snd (Stream1.predict_block i (sample_session y) "float_input" w))
         !! log_path
       = Some (("Time,Steam Flow,HRH P,HRH T,Main Steam P,HP Temp,Ambient,Predicted MW"
                ++ posix_linesep) ++ String.concat "," r1 ++ posix_linesep)
    /\ tells r11 sample_time default_sliders
         (fun field => reads_float64 field (to_float64 y))
    /\ tells r1 sample_time default_sliders (tells_clamped32 y).
Proof.
  intros i y w.
  destruct (append_header_then_row i (sample_session y) w y
              eq_refl eq_refl eq_refl eq_refl eq_refl eq_refl)
    as (r11 & r1 & F11 & F1 & T11 & T1 & _).
  exists r11, r1. repeat split; assumption.
Defined.

(** What the two scripts write for a raw output of 200.1 (as a binary32
    number, 200.100006103515625): stream11.py the [repr] of the binary64
    value, stream1.py the text numpy gives the binary32 value. *)
Example sample_records :
  let y := to_float32 f200_1 in
  let w := fresh_world (constant_model y) true in
  files (snd (rerun (Stream11.run (user true false false)) w)) !! log_path
  = Some ("Time,Steam Flow,HRH P,HRH T,Main Steam P,HP Temp,Ambient,Predicted MW"
          ++ crlf
          ++ "2025-08-20 09:05:07,850.0,4.0,525,16.0,538,25.0,200.10000610351562"
          ++ crlf)
  /\ files (snd (rerun (Stream1.run (user true false false)) w)) !! log_path
     = Some ("Time,Steam Flow,HRH P,HRH T,Main Steam P,HP Temp,Ambient,Predicted MW"
             ++ posix_linesep
             ++ "2025-08-20 09:05:07,850.0,4.0,525,16.0,538,25.0,200.1"
             ++ posix_linesep)
  /\ screen (snd (rerun (Stream1.run (user true false false)) w))
     = [shown English "200.10"].
Proof. cbv zeta. repeat apply conj; vm_compute; reflexivity. Qed.

(** C10, where it fails. With a model that answers NaN, the value logged
    is the NaN the clamp returned, which is not within [140.0, 290.0]:
    stream11.py writes [nan] in the Predicted MW field, and stream1.py
    leaves the field empty (pandas writes a NaN as a missing value). *)
Lemma nan_is_logged :
  files (snd (rerun (Stream11.run (user true false false))
                (fresh_world (constant_model S754_nan) true))) !! log_path
  = Some ("Time,Steam Flow,HRH P,HRH T,Main Steam P,HP Temp,Ambient,Predicted MW"
          ++ crlf ++ "2025-08-20 09:05:07,850.0,4.0,525,16.0,538,25.0,nan"
          ++ crlf)
  /\ files (snd (rerun (Stream1.run (user true false false))
                   (fresh_world (constant_model S754_nan) true))) !! log_path
     = Some ("Time,Steam Flow,HRH P,HRH T,Main Steam P,HP Temp,Ambient,Predicted MW"
             ++ posix_linesep
             ++ "2025-08-20 09:05:07,850.0,4.0,525,16.0,538,25.0,"
             ++ posix_linesep)
  /\ in_range S754_nan = false.
Proof. cbv zeta. repeat apply conj; vm_compute; reflexivity. Qed.

(** C10, amended. In a prediction made while the log can be written, both
    scripts show and log one value [v], the clamped prediction. The page
    shows [v] to two decimals. The appended record is a line of eight
    fields separated by commas, none of which holds a comma, a quote or a
    line break, and its eighth (Predicted MW) field reads back as [v]: in
    stream11.py it is a decimal that reads as the binary64 number [v]; in
    stream1.py it is either an int equal to [v] or a decimal that reads as
    the raw binary32 output, whose value is [v], and it is empty when the
    raw output is NaN. When the raw output is not NaN, [v] lies in
    [140.0, 290.0]. *)
Theorem logged_value_is_shown_value
    (i : interaction) (sess : session) (w : world) (y : spec_float) :
  writable w = true ->
  line_break (linesep w) = true ->
  infer (sess_model sess) (input_vector (inputs i)) = Some y ->
  valid_binary prec32 emax32 y = true ->
  let old := files w !! log_path in
  let head :=
    "Time,Steam Flow,HRH P,HRH T,Main Steam P,HP Temp,Ambient,Predicted MW" in
  let v := Stream11.clipped_result (to_float64 y) in
  let w11 := snd (Stream11.predict_block i sess (input_slot (sess_model sess)) w) in
  let w1 := snd (Stream1.predict_block i sess (input_slot (sess_model sess)) w) in
  py_float (Stream1.clipped_result y) = Some v
  /\ (is_nan y = false -> in_range v = true)
  /\ exists text : string,
      shows_two_decimals text v
      /\ screen w11 = shown (LANG i) text :: screen w
      /\ screen w1 = shown (LANG i) text :: screen w
      /\ exists (seven11 seven1 : list string) (field11 field1 : string),
          length seven11 = 7%nat /\ length seven1 = 7%nat
          /\ forallb plain (seven11 ++ [field11]) = true
          /\ forallb plain (seven1 ++ [field1]) = true
          /\ files w11 !! log_path
             = Some (match old with Some t => t | None => head ++ crlf end
                     ++ String.concat "," (seven11 ++ [field11]) ++ crlf)
          /\ files w1 !! log_path
             = Some (match old with Some t => t | None => head ++ linesep w end
                     ++ String.concat "," (seven1 ++ [field1]) ++ linesep w)
          /\ reads_float64 field11 v
          /\ (is_nan y = true -> field1 = EmptyString)
          /\ (is_nan y = false ->
              (reads_float32 field1 y /\ to_float64 y = v)
              \/ (exists z, read_int field1 = Some z /\ float_of_Z z = v)).
Proof.
  intros W L Hy Vy old head v w11 w1.
  pose proof (clipped_result_valid _ (to_float64_valid y Vy)) as Vv. fold v in Vv.
  split; [apply clipped_result_agree|].
  split.
  { intros Hn. apply clipped_in_range. unfold to_float64.
    rewrite round_to_nan. exact Hn. }
  exists (format_2f v). split; [apply format_2f_shows, Vv|].
  subst w11 w1.
  rewrite (predict_block_11_world i sess w y W Hy),
    (predict_block_1_world i sess w y W L Hy).
  cbv zeta. cbn [snd files screen set_files set_opened set_screen].
  rewrite !lookup_insert_eq. fold old. fold v.
  split; [reflexivity|]. split; [reflexivity|].
  exists [ strftime (now i); float_repr (steam_flow (inputs i));
           float_repr (hrh_p (inputs i)); int_str (hrh_t (inputs i));
           float_repr (main_p (inputs i)); int_str (hp_t (inputs i));
           float_repr (ambient (inputs i)) ].
  exists [ strftime (now i); pandas_str (PyFloat (steam_flow (inputs i)));
           pandas_str (PyFloat (hrh_p (inputs i))); int_str (hrh_t (inputs i));
           pandas_str (PyFloat (main_p (inputs i))); int_str (hp_t (inputs i));
           pandas_str (PyFloat (ambient (inputs i))) ].
  exists (float_repr v), (pandas_str (Stream1.clipped_result y)).
  split; [reflexivity|]. split; [reflexivity|].
  split; [apply (plain_row (now i) (inputs i) v)|].
  split; [apply (plain_log (now i) (inputs i) _ (plain_clipped y))|].
  split; [destruct old; reflexivity|].
  split; [destruct old; reflexivity|].
  split; [apply float_repr_reads, Vv|].
  pose proof (clipped_tells y Vy) as T. unfold tells_clamped32 in T.
  split; [intros N; rewrite N in T; exact T|].
  intros N. rewrite N in T. unfold v.
  destruct (SFltb f290 (to_float64 y)) eqn:H1.
  { right. exists 290. split; [exact T|]. rewrite clipped_above by exact H1.
    reflexivity. }
  destruct (SFltb (to_float64 y) f140) eqn:H2.
  { right. exists 140. split; [exact T|]. rewrite clipped_below by exact H2.
    reflexivity. }
  left. split; [exact T|]. rewrite clipped_between by assumption. reflexivity.
Qed.

Lemma logged_value_is_shown_value_witness :
  let i := user true false false in
  let y := to_float32 f200_1 in
  let w := fresh_world (constant_model y) true in
  let v := Stream11.clipped_result (to_float64 y) in
  let w11 := snd (Stream11.predict_block i (sample_session y) "float_input" w) in
  let w1 := snd (Stream1.predict_block i (sample_session y) "float_input" w) in
  let head :=
    "Time,Steam Flow,HRH P,HRH T,Main Steam P,HP Temp,Ambient,Predicted MW" in
  in_range v = true
  /\ exists (text : string) (seven11 seven1 : list string)
       (field11 field1 : string),
      shows_two_decimals text v
      /\ screen w11 = [shown English text]
      /\ screen w1 = [shown English text]
      /\ length seven11 = 7%nat /\ length seven1 = 7%nat
      /\ files w11 !! log_path
         = Some ((head ++ crlf)
                 ++ String.concat "," (seven11 ++ [field11]) ++ crlf)
      /\ files w1 !! log_path
         = Some ((head ++ posix_linesep)
                 ++ String.concat "," (seven1 ++ [field1]) ++ posix_linesep)
      /\ reads_float64 field11 v
      /\ ((reads_float32 field1 y /\ to_float64 y = v)
          \/ (exists z, read_int field1 = Some z /\ float_of_Z z = v)).
Proof.
  intros i y w v w11 w1 head.
  destruct (logged_value_is_shown_value i (sample_session y) w y
              eq_refl eq_refl eq_refl eq_refl)
    as (_ & R & text & S & S11 & S1 & seven11 & seven1 & field11 & field1
        & L11 & L1 & _ & _ & F11 & F1 & R11 & _ & R1).
  split; [apply R; reflexivity|].
  exists text, seven11, seven1, field11, field1.
  repeat (split; [assumption|]). apply R1. reflexivity.
Defined.

(** ** Failure of the log write (claim C8) *)

(** C8, where it fails. In a directory that cannot be written, stream1.py
    shows the prediction and then ends its run with the uncaught
    PermissionError of [to_csv]: no warning is on the page. *)
Lemma stream1_write_failure_raises :
  rerun (Stream1.run (user true false false))
    (fresh_world (constant_model (to_float32 f200)) false)
  = (Raised (PermissionError log_path),
     set_screen [shown English "200.00"]
       (set_sessions_built 1
          (fresh_world (constant_model (to_float32 f200)) false))).
Proof. vm_compute. reflexivity. Qed.

(** C8, amended. When the log file cannot be opened for writing, the
    prediction is on the page before the failure and stays there, nothing is
    written and nothing else changes (no retry, no rollback). stream11.py
    catches the error, shows the warning [Could not write log: ...] once and
    goes on; stream1.py lets the PermissionError leave the predict block. *)
Theorem write_failure_is_reported
    (i : interaction) (sess : session) (w : world) (y : spec_float) :
  writable w = false ->
  infer (sess_model sess) (input_vector (inputs i)) = Some y ->
  let v := Stream11.clipped_result (to_float64 y) in
  Stream11.predict_block i sess (input_slot (sess_model sess)) w
  = (Returned tt,
     set_screen (could_not_write :: shown (LANG i) (format_2f v) :: screen w) w)
  /\ Stream1.predict_block i sess (input_slot (sess_model sess)) w
     = (Raised (PermissionError log_path),
        set_screen (shown (LANG i) (format_2f v) :: screen w) w).
Proof.
  intros W Hy v. subst v.
  rewrite predict_block_11, predict_block_1, Hy. cbv zeta.
  rewrite append_log_11, append_log_1. cbn [writable set_screen]. rewrite W.
  unfold py_format_2f. rewrite clipped_result_agree.
  split; reflexivity.
Qed.

Lemma write_failure_is_reported_witness :
  Stream11.predict_block (user true false false)
    (sample_session (to_float32 f200)) "float_input"
    (fresh_world (constant_model (to_float32 f200)) false)
  = (Returned tt,
     set_screen [could_not_write; shown English "200.00"]
       (fresh_world (constant_model (to_float32 f200)) false)).
Proof.
  apply (write_failure_is_reported (user true false false)
           (sample_session (to_float32 f200))
           (fresh_world (constant_model (to_float32 f200)) false)
           (to_float32 f200) eq_refl eq_refl).
Defined.

(** ** The two scripts compared (claim C9) *)





(** ** Reading and clearing the log (claims C5 and C6) *)

Section ViewAndClear.

(** What a read that goes to the file returns. *)
Lemma load_log_body_result (p : string) (w : world) :
  Stream11.load_log_body p w =
  (Returned match files w !! p with
            | None => None
            | Some text =>
                match parse_csv text with
                | inr df => Some df
                | inl _ => None
                end
            end, w).
Proof.
  unfold Stream11.load_log_body, bind.
  destruct (files w !! p) as [text|] eqn:E.
  - rewrite (exists_Some w p text E). simpl.
    unfold try_except, bind, read_csv, ret. rewrite E.
    destruct (parse_csv text); reflexivity.
  - rewrite (exists_None w p E). reflexivity.
Qed.

Lemma load_log_result (p : string) (w : world) :
  Stream11.load_log p w =
  match data_cache w !! p with
  | Some v => (Returned v, w)
  | None =>
      let v := match files w !! p with
               | None => None
               | Some text =>
                   match parse_csv text with
                   | inr df => Some df
                   | inl _ => None
                   end
               end in
      (Returned v, set_data_cache (<[p := v]> (data_cache w)) w)
  end.
Proof.
  unfold Stream11.load_log, cache_data. rewrite load_log_body_result.
  destruct (data_cache w !! p); reflexivity.
Qed.

Lemma log_viewer_1 (i : interaction) (w : world) :
  Stream1.log_viewer i w =
  match files w !! log_path with
  | None => (Returned tt, set_screen (st_info msg_no_log :: screen w) w)
  | Some text =>
      match parse_csv text with
      | inl e => (Raised e, w)
      | inr df =>
          (Returned tt,
           set_screen (st_download_button ("📥 " ++ l_download (LANG i)) df
                         log_path "text/csv"
                       :: st_dataframe df :: screen w) w)
      end
  end.
Proof.
  unfold Stream1.log_viewer, bind.
  destruct (files w !! log_path) as [text|] eqn:E.
  - rewrite (exists_Some w _ text E). unfold read_csv. rewrite E.
    destruct (parse_csv text); reflexivity.
  - rewrite (exists_None w _ E). reflexivity.
Qed.

Lemma clear_block_11 (w : world) :
  Stream11.clear_block w =
  match files w !! log_path with
  | None => (Returned tt, set_screen (st_info msg_nothing_to_clear :: screen w) w)
  | Some _ =>
      if writable w then
        (Returned tt,
         set_screen (st_success msg_cleared :: screen w)
           (set_files (delete log_path (files w)) w))
      else (Returned tt, set_screen (could_not_clear :: screen w) w)
  end.
Proof.
  unfold Stream11.clear_block, try_except, bind.
  destruct (files w !! log_path) as [text|] eqn:E.
  - rewrite (exists_Some w _ text E). unfold os_remove. rewrite E.
    destruct (writable w); reflexivity.
  - rewrite (exists_None w _ E). reflexivity.
Qed.

Lemma clear_block_1 (w : world) :
  Stream1.clear_block w =
  match files w !! log_path with
  | None => (Returned tt, w)
  | Some _ =>
      if writable w then
        (Returned tt,
         set_screen (st_success msg_cleared :: screen w)
           (set_files (delete log_path (files w)) w))
      else (Raised (PermissionError log_path), w)
  end.
Proof.
  unfold Stream1.clear_block, bind.
  destruct (files w !! log_path) as [text|] eqn:E.
  - rewrite (exists_Some w _ text E). unfold os_remove. rewrite E.
    destruct (writable w); reflexivity.
  - rewrite (exists_None w _ E). reflexivity.
Qed.

(** After a clear of an absent or removable log, no log file. *)
Lemma clear_11_removes (w : world) :
  files w !! log_path = None \/ writable w = true ->
  files (snd (Stream11.clear_block w)) !! log_path = None
  /\ data_cache (snd (Stream11.clear_block w)) = data_cache w.
Proof.
  intros H. rewrite clear_block_11.
  destruct (files w !! log_path) as [t|] eqn:E.
  - destruct H as [H|H]; [discriminate H|]. rewrite H.
    split; [apply lookup_delete_eq | reflexivity].
  - split; [exact E | reflexivity].
Qed.

Lemma clear_1_removes (w : world) :
  files w !! log_path = None \/ writable w = true ->
  files (snd (Stream1.clear_block w)) !! log_path = None.
Proof.
  intros H. rewrite clear_block_1.
  destruct (files w !! log_path) as [t|] eqn:E.
  - destruct H as [H|H]; [discriminate H|]. rewrite H. apply lookup_delete_eq.
  - exact E.
Qed.

End ViewAndClear.

(** C5, where it fails. A log file that exists and is empty cannot be
    parsed; the viewer of stream1.py does not turn that into "no log": the
    EmptyDataError of [read_csv] ends the run. *)
Lemma stream1_parse_failure_raises :
  rerun (Stream1.run (user false true false))
    (set_files {[ log_path := EmptyString ]}
       (fresh_world (constant_model f200) true))
  = (Raised EmptyDataError,
     set_sessions_built 1
       (set_files {[ log_path := EmptyString ]}
          (fresh_world (constant_model f200) true))).
Proof. vm_compute. reflexivity. Qed.

(** C5, amended. [load_log] of stream11.py never raises. When no result is
    cached for the path, it returns absent if the file does not exist and
    if the file cannot be parsed, and otherwise the whole file parsed into
    its header and rows. The viewer of stream1.py shows "no log" without
    raising when the file does not exist and shows the whole file parsed
    when it can be parsed; a parse failure leaves it as the exception of
    [read_csv]. *)
Theorem read_all_absent_or_rows (i : interaction) (w : world) :
  (exists v w', Stream11.load_log log_path w = (Returned v, w'))
  /\ (data_cache w !! log_path = None ->
      fst (Stream11.load_log log_path w)
      = Returned match files w !! log_path with
                 | None => None
                 | Some text =>
                     match parse_csv text with
                     | inr df => Some df
                     | inl _ => None
                     end
                 end)
  /\ (files w !! log_path = None ->
      Stream1.log_viewer i w
      = (Returned tt, set_screen (st_info msg_no_log :: screen w) w))
  /\ (forall text df,
        files w !! log_path = Some text -> parse_csv text = inr df ->
        fst (Stream1.log_viewer i w) = Returned tt
        /\ In (st_dataframe df) (screen (snd (Stream1.log_viewer i w))))
  /\ (forall text e,
        files w !! log_path = Some text -> parse_csv text = inl e ->
        Stream1.log_viewer i w = (Raised e, w)).
Proof.
  rewrite load_log_result, log_viewer_1.
  split; [destruct (data_cache w !! log_path); eauto|].
  split; [intros ->; reflexivity|].
  split; [intros ->; reflexivity|].
  split; intros text x -> ->; simpl; auto.
Qed.

Lemma read_all_absent_or_rows_witness :
  fst (Stream11.load_log log_path (fresh_world (constant_model f200) true))
  = Returned None
  /\ fst (Stream11.load_log log_path
            (set_files {[ log_path := EmptyString ]}
               (fresh_world (constant_model f200) true)))
     = Returned None.
Proof.
  split.
  - destruct (read_all_absent_or_rows (user false true false)
                (fresh_world (constant_model f200) true)) as (_ & H & _).
    rewrite H by reflexivity. reflexivity.
  - destruct (read_all_absent_or_rows (user false true false)
                (set_files {[ log_path := EmptyString ]}
                   (fresh_world (constant_model f200) true))) as (_ & H & _).
    rewrite H by reflexivity. reflexivity.
Defined.

(** C6, where it fails. Clearing an absent log in stream1.py reports
    nothing at all. And in a directory that cannot be written, the clear of
    stream11.py only warns: the log is still there and a read that follows
    returns its rows, not absent. *)
Lemma clear_not_always_absent :
  Stream1.clear_block (fresh_world (constant_model f200) true)
  = (Returned tt, fresh_world (constant_model f200) true)
  /\ (let w := set_files {[ log_path := "Time" ++ crlf ++ "now" ++ crlf ]}
                 (fresh_world (constant_model f200) false) in
      Stream11.clear_block w
      = (Returned tt, set_screen [could_not_clear] w)
      /\ fst (Stream11.load_log log_path (snd (Stream11.clear_block w)))
         = Returned (Some {| columns := ["Time"]; rows := [["now"]] |})).
Proof. cbv zeta. repeat apply conj; vm_compute; reflexivity. Qed.

(** C6, amended. Clearing an absent log changes no file; stream11.py
    reports it with the information [No log file to clear.], stream1.py
    reports nothing. Clearing a log that exists in a writable directory
    removes the file and reports success in both scripts. When the file
    cannot be removed, stream11.py shows a warning and stream1.py raises;
    the log stays. After a clear of an absent or removable log the file
    does not exist: the viewer of stream1.py then shows "no log", and so
    does [load_log] of stream11.py when no result is cached for the path. *)
Theorem clear_removes_log (i : interaction) (w : world) :
  (files w !! log_path = None ->
   Stream11.clear_block w
   = (Returned tt, set_screen (st_info msg_nothing_to_clear :: screen w) w)
   /\ Stream1.clear_block w = (Returned tt, w))
  /\ (is_Some (files w !! log_path) -> writable w = true ->
      Stream11.clear_block w
      = (Returned tt,
         set_screen (st_success msg_cleared :: screen w)
           (set_files (delete log_path (files w)) w))
      /\ Stream1.clear_block w = Stream11.clear_block w)
  /\ (is_Some (files w !! log_path) -> writable w = false ->
      Stream11.clear_block w
      = (Returned tt, set_screen (could_not_clear :: screen w) w)
      /\ Stream1.clear_block w = (Raised (PermissionError log_path), w))
  /\ (files w !! log_path = None \/ writable w = true ->
      let w11 := snd (Stream11.clear_block w) in
      let w1 := snd (Stream1.clear_block w) in
      files w11 !! log_path = None
      /\ files w1 !! log_path = None
      /\ Stream1.log_viewer i w1
         = (Returned tt, set_screen (st_info msg_no_log :: screen w1) w1)
      /\ (data_cache w !! log_path = None ->
          fst (Stream11.load_log log_path w11) = Returned None)).
Proof.
  split; [|split; [|split]].
  - rewrite clear_block_11, clear_block_1. intros ->. split; reflexivity.
  - rewrite clear_block_11, clear_block_1. intros [t ->] ->. split; reflexivity.
  - rewrite clear_block_11, clear_block_1. intros [t ->] ->. split; reflexivity.
  - intros H. cbv zeta.
    destruct (clear_11_removes w H) as [A1 A2].
    pose proof (clear_1_removes w H) as B.
    split; [exact A1|]. split; [exact B|].
    split; [rewrite log_viewer_1, B; reflexivity|].
    intros C. rewrite load_log_result, A2, C, A1. reflexivity.
Qed.

Lemma clear_removes_log_witness :
  Stream11.clear_block
    (set_files {[ log_path := "Time" ++ crlf ]}
       (fresh_world (constant_model f200) true))
  = (Returned tt,
     set_screen [st_success msg_cleared]
       (set_files (delete log_path {[ log_path := "Time" ++ crlf ]})
          (fresh_world (constant_model f200) true)))
  /\ Stream11.clear_block (fresh_world (constant_model f200) true)
     = (Returned tt,
        set_screen [st_info msg_nothing_to_clear]
          (fresh_world (constant_model f200) true)).
Proof.
  split.
  - destruct (clear_removes_log (user false false true)
                (set_files {[ log_path := "Time" ++ crlf ]}
                   (fresh_world (constant_model f200) true))) as (_ & H & _).
    destruct H as [H _]; [eexists; vm_compute; reflexivity | reflexivity |].
    exact H.
  - destruct (clear_removes_log (user false false true)
                (fresh_world (constant_model f200) true)) as (H & _).
    destruct H as [H _]; [reflexivity|]. exact H.
Defined.

(** ** The cached session (claim C7) *)

Section Sessions.

Lemma keeps_ret {A : Type} (a : A) : keeps_sessions (ret a).
Proof. intros w. reflexivity. Qed.

Lemma keeps_raise {A : Type} (e : exn) : keeps_sessions (@raise A e).
Proof. intros w. reflexivity. Qed.

Lemma keeps_bind {A B : Type} (c : script A) (k : A -> script B) :
  keeps_sessions c -> (forall a, keeps_sessions (k a)) ->
  keeps_sessions (bind c k).
Proof.
  intros Hc Hk w. unfold bind. specialize (Hc w).
  destruct (c w) as [[a|e] w']; simpl in *; [|exact Hc].
  rewrite (Hk a w'). exact Hc.
Qed.

Lemma keeps_try_except {A : Type} (c : script A) (h : exn -> script A) :
  keeps_sessions c -> (forall e, keeps_sessions (h e)) ->
  keeps_sessions (try_except c h).
Proof.
  intros Hc Hh w. unfold try_except. specialize (Hc w).
  destruct (c w) as [[a|e] w']; simpl in *; [exact Hc|].
  rewrite (Hh e w'). exact Hc.
Qed.

Lemma keeps_when (b : bool) (c : script unit) :
  keeps_sessions c -> keeps_sessions (when b c).
Proof. intros Hc. destruct b; [exact Hc | apply keeps_ret]. Qed.

Lemma keeps_emit (x : widget) : keeps_sessions (emit x).
Proof. intros w. reflexivity. Qed.

Lemma keeps_get_world : keeps_sessions get_world.
Proof. intros w. reflexivity. Qed.

Lemma keeps_os_path_exists (p : string) : keeps_sessions (os_path_exists p).
Proof. intros w. reflexivity. Qed.

Lemma keeps_open_file (p : string) (m : open_mode) : keeps_sessions (open_file p m).
Proof.
  intros w. unfold open_file.
  destruct (writable w); [|reflexivity].
  destruct m, (files w !! p); reflexivity.
Qed.

Lemma keeps_file_write (p text : string) : keeps_sessions (file_write p text).
Proof. intros w. reflexivity. Qed.

Lemma keeps_os_remove (p : string) : keeps_sessions (os_remove p).
Proof.
  intros w. unfold os_remove.
  destruct (files w !! p); [|reflexivity].
  destruct (writable w); reflexivity.
Qed.

Lemma keeps_read_csv (p : string) : keeps_sessions (read_csv p).
Proof.
  intros w. unfold read_csv.
  destruct (files w !! p) as [text|]; [|reflexivity].
  destruct (parse_csv text); reflexivity.
Qed.

Lemma keeps_session_run (s : session) (name : string) (x : list spec_float) :
  keeps_sessions (session_run s name x).
Proof.
  unfold session_run. destruct (String.eqb _ _); [|apply keeps_raise].
  destruct (infer _ x); [apply keeps_ret | apply keeps_raise].
Qed.

Lemma keeps_cache_data (f : string -> script (option dataframe)) (p : string) :
  keeps_sessions (f p) -> keeps_sessions (cache_data f p).
Proof.
  intros Hf w. unfold cache_data. specialize (Hf w).
  destruct (data_cache w !! p); [reflexivity|].
  destruct (f p w) as [[v|e] w']; exact Hf.
Qed.

End Sessions.

Create HintDb keeps.
#[export] Hint Resolve keeps_ret keeps_raise keeps_bind keeps_try_except
  keeps_when keeps_emit keeps_get_world keeps_os_path_exists keeps_open_file
  keeps_file_write keeps_os_remove keeps_read_csv keeps_session_run
  keeps_cache_data : keeps.

Section SessionCache.

Lemma keeps_predict_block (i : interaction) (s : session) (name : string) :
  keeps_sessions (Stream11.predict_block i s name).
Proof.
  unfold Stream11.predict_block, Stream11.append_log, Stream11.writerow.
  auto 20 with keeps.
Qed.

Lemma keeps_log_viewer (i : interaction) : keeps_sessions (Stream11.log_viewer i).
Proof.
  unfold Stream11.log_viewer, Stream11.load_log. apply keeps_bind.
  - apply keeps_cache_data. unfold Stream11.load_log_body.
    apply keeps_bind; [auto with keeps|].
    intros []; simpl; auto 10 with keeps.
  - intros [df|]; auto 10 with keeps.
Qed.

Lemma keeps_clear_block : keeps_sessions Stream11.clear_block.
Proof.
  unfold Stream11.clear_block. apply keeps_try_except; [|auto with keeps].
  apply keeps_bind; [auto with keeps|].
  intros []; auto 10 with keeps.
Qed.

(** A cached session is returned as it is, and the world stays as it is. *)
Lemma get_session_hit (path : string) (w : world) (s : session) :
  resource_cache w !! path = Some s ->
  Stream11.get_session path w = (Returned s, w).
Proof.
  intros H. unfold Stream11.get_session, cache_resource. rewrite H. reflexivity.
Qed.

(** A session that was returned is cached. *)
Lemma get_session_caches (path : string) (w w1 : world) (s : session) :
  Stream11.get_session path w = (Returned s, w1) ->
  resource_cache w1 !! path = Some s.
Proof.
  unfold Stream11.get_session, cache_resource, InferenceSession.
  destruct (resource_cache w !! path) as [s0|] eqn:E.
  - intros [= <- <-]. exact E.
  - destruct (model_files w !! path) as [[m|]|]; try discriminate.
    intros [= <- <-]. simpl. apply lookup_insert_eq.
Qed.

(** A call for any path keeps what is cached. *)
Lemma get_session_keeps (q path : string) (w : world) (s : session) :
  resource_cache w !! path = Some s ->
  resource_cache (snd (Stream11.get_session q w)) !! path = Some s.
Proof.
  intros H. unfold Stream11.get_session, cache_resource, InferenceSession.
  destruct (resource_cache w !! q) as [s0|] eqn:E; [exact H|].
  destruct (model_files w !! q) as [[m|]|]; simpl; try exact H.
  rewrite lookup_insert_ne; [exact H|]. intros ->. congruence.
Qed.

Lemma run_keeps (i : interaction) (path : string) (w : world) (s : session) :
  resource_cache w !! path = Some s ->
  resource_cache (snd (rerun (Stream11.run i) w)) !! path = Some s.
Proof.
  intros H. unfold rerun, Stream11.run, bind.
  pose proof (get_session_keeps MODEL_PATH path (set_screen [] w) s H) as K.
  destruct (Stream11.get_session MODEL_PATH (set_screen [] w)) as [[s0|e] w0];
    simpl in K; [|exact K].
  assert (F : keeps_sessions
                (bind (when (predict_pressed i)
                         (Stream11.predict_block i s0 (input_slot (sess_model s0))))
                   (fun _ => bind (when (show_log i) (Stream11.log_viewer i))
                               (fun _ => when (clear_pressed i) Stream11.clear_block))))
    by auto 10 using keeps_predict_block, keeps_log_viewer, keeps_clear_block
         with keeps.
  specialize (F w0). unfold bind in F. rewrite F. exact K.
Qed.

Lemma after_keeps (es : list event) :
  forall (path : string) (w : world) (s : session),
    resource_cache w !! path = Some s ->
    resource_cache (after w es) !! path = Some s.
Proof.
  induction es as [|e es IH]; intros path w s H; [exact H|].
  apply IH. destruct e as [q|i]; simpl.
  - apply get_session_keeps, H.
  - apply run_keeps, H.
Qed.

End SessionCache.

(** C7, where it fails. stream1.py has no provider of the session: lines
    71-74 build one from the model file in every run, so two runs with the
    same path build two sessions, where two runs of stream11.py build
    one. *)
Lemma stream1_builds_a_session_per_run :
  let w0 := fresh_world (constant_model (to_float32 f200)) true in
  let w1 := snd (rerun (Stream1.run (user false false false)) w0) in
  let w2 := snd (rerun (Stream1.run (user false false false)) w1) in
  let u1 := snd (rerun (Stream11.run (user false false false)) w0) in
  let u2 := snd (rerun (Stream11.run (user false false false)) u1) in
  sessions_built w1 = 1%nat /\ sessions_built w2 = 2%nat
  /\ sessions_built u1 = 1%nat /\ sessions_built u2 = 1%nat.
Proof. cbv zeta. repeat apply conj; vm_compute; reflexivity. Qed.

(** C7, amended. In stream11.py, once [get_session] has returned a session
    for a path, every later call with that path, whatever calls (for any
    path) and runs of the script come in between, returns that same
    session object and leaves the world as it is: no session is built
    again. *)
Theorem get_session_idempotent
    (path : string) (w w1 : world) (s : session) (es : list event) :
  Stream11.get_session path w = (Returned s, w1) ->
  Stream11.get_session path (after w1 es) = (Returned s, after w1 es).
Proof.
  intros H. apply get_session_hit, after_keeps, (get_session_caches path w w1 s H).
Qed.

Lemma get_session_idempotent_witness :
  let w := fresh_world (constant_model f200) true in
  let w1 := snd (Stream11.get_session MODEL_PATH w) in
  let es := [Run (user true true false); Call "other.onnx"; Run (user false false true)] in
  Stream11.get_session MODEL_PATH (after w1 es)
  = (Returned (sample_session f200), after w1 es)
  /\ sessions_built (after w1 es) = 1%nat.
Proof.
  split.
  - apply (get_session_idempotent MODEL_PATH
             (fresh_world (constant_model f200) true)). reflexivity.
  - vm_compute. reflexivity.
Defined.

(** ** Reading back what was written (claim C4) *)

Section Tokenizer.

Lemma push_str_field (f g : string) (gs : list string) (rest : list (list string)) :
  push_str f ((g :: gs) :: rest) = ((f ++ g) :: gs) :: rest.
Proof.
  induction f as [|c f IH]; [reflexivity|].
  change (push_char c (push_str f ((g :: gs) :: rest))
          = (String c (f ++ g) :: gs) :: rest).
  rewrite IH. reflexivity.
Qed.

Lemma special_false (c : ascii) :
  special c = false ->
  Ascii.eqb c lf = false /\ Ascii.eqb c cr = false
  /\ Ascii.eqb c comma = false /\ Ascii.eqb c dquote = false.
Proof.
  unfold special. intros H.
  repeat (apply orb_false_elim in H as [H ?]). auto.
Qed.

(** Outside quotes an ordinary character joins the field being read, and
    a comma completes it. *)
Lemma transition_plain (st : tstate) (c : ascii) :
  st <> InQuoted -> special c = false -> transition st c = (InField, Push).
Proof.
  intros Hst Hc. apply special_false in Hc as (H1 & H2 & H3 & H4).
  destruct st; try congruence; unfold transition; rewrite H1, H2, H3, H4;
    reflexivity.
Qed.

Lemma transition_comma (st : tstate) :
  st <> InQuoted -> transition st comma = (StartField, EndField).
Proof. intros Hst. destruct st; try congruence; reflexivity. Qed.

(** A character that is not skipped with a line of blanks. *)
Lemma tokenize_plain_char (st : tstate) (c : ascii) (r : string) :
  st <> InQuoted -> special c = false ->
  at_line_start st && is_blank c && blank_line r = false ->
  tokenize st (String c r) = push_char c (tokenize InField r).
Proof.
  intros Hst Hc Hb. cbn [tokenize]. rewrite Hb, (transition_plain st c Hst Hc).
  reflexivity.
Qed.

Lemma tokenize_comma (st : tstate) (r : string) :
  st <> InQuoted ->
  tokenize st (String comma r) = new_field (tokenize StartField r).
Proof.
  intros Hst. cbn [tokenize].
  change (is_blank comma) with false. rewrite andb_false_r. cbn [andb].
  rewrite (transition_comma st Hst). reflexivity.
Qed.

(** A line with a comma is no line of blanks. *)
Lemma blank_line_comma (f r : string) :
  plain f = true -> blank_line (f ++ String comma r) = false.
Proof.
  induction f as [|c f IH]; intros H; [reflexivity|].
  simpl in H. apply andb_prop in H as [Hc Hf].
  apply negb_true_iff, special_false in Hc as (H1 & H2 & _).
  change (String c f ++ String comma r) with (String c (f ++ String comma r)).
  cbn [blank_line]. rewrite H1, H2, (IH Hf), andb_false_r. reflexivity.
Qed.

(** A plain field up to its comma. *)
Lemma tokenize_field_comma (f : string) :
  plain f = true -> forall (st : tstate) (r : string),
  st <> InQuoted ->
  tokenize st (f ++ String comma r)
  = push_str f (new_field (tokenize StartField r)).
Proof.
  induction f as [|c f IH]; intros H st r Hst.
  - change (tokenize st (String comma r)
            = new_field (tokenize StartField r)).
    apply tokenize_comma, Hst.
  - simpl in H. apply andb_prop in H as [Hc Hf].
    apply negb_true_iff in Hc.
    change (String c f ++ String comma r) with (String c (f ++ String comma r)).
    rewrite (tokenize_plain_char st c _ Hst Hc)
      by (rewrite (blank_line_comma f r Hf); apply andb_false_r).
    rewrite (IH Hf InField r) by discriminate. reflexivity.
Qed.

(** The end of a line closes the record, in the middle of a record. *)
Lemma tokenize_line_break (st : tstate) (eol r : string) :
  line_break eol = true ->
  st = StartField \/ st = InField ->
  tokenize st (eol ++ r) = new_record (tokenize StartRecord r).
Proof.
  unfold line_break. intros H Hst.
  apply orb_prop in H as [H|H]; apply String.eqb_eq in H; subst eol;
    destruct Hst as [-> | ->]; reflexivity.
Qed.

(** A plain last field up to the end of its line. *)
Lemma tokenize_field_eol (f : string) :
  plain f = true -> forall (st : tstate) (eol r : string),
  line_break eol = true ->
  st = StartField \/ st = InField ->
  tokenize st (f ++ eol ++ r)
  = push_str f (new_record (tokenize StartRecord r)).
Proof.
  induction f as [|c f IH]; intros H st eol r He Hst.
  - change (tokenize st (eol ++ r) = new_record (tokenize StartRecord r)).
    apply tokenize_line_break; assumption.
  - simpl in H. apply andb_prop in H as [Hc Hf].
    apply negb_true_iff in Hc.
    change (String c f ++ eol ++ r) with (String c (f ++ eol ++ r)).
    rewrite (tokenize_plain_char st c _)
      by (destruct Hst; subst st; (discriminate || assumption || reflexivity)).
    rewrite (IH Hf InField eol r He) by auto. reflexivity.
Qed.

(** The fields after a comma, up to the end of the line. *)
Lemma tokenize_fields (fs : list string) :
  fs <> [] -> forallb plain fs = true ->
  forall (eol r : string), line_break eol = true ->
  tokenize StartField (join_fields fs ++ eol ++ r)
  = fs :: tokenize StartRecord r.
Proof.
  induction fs as [|f fs IH]; intros Hne H eol r He; [congruence|].
  simpl in H. apply andb_prop in H as [Hf Hfs].
  destruct fs as [|g fs].
  - simpl join_fields. rewrite (tokenize_field_eol f Hf) by auto.
    unfold new_record. rewrite push_str_field, append_empty. reflexivity.
  - change (join_fields (f :: g :: fs)) with (f ++ "," ++ join_fields (g :: fs)).
    rewrite !append_assoc.
    change ("," ++ join_fields (g :: fs) ++ eol ++ r)
      with (String comma (join_fields (g :: fs) ++ eol ++ r)).
    rewrite (tokenize_field_comma f Hf) by discriminate.
    rewrite (IH ltac:(discriminate) Hfs eol r He).
    unfold new_field. rewrite push_str_field, append_empty. reflexivity.
Qed.

(** A whole line of two or more plain fields. *)
Lemma tokenize_line (f g : string) (fs : list string) (eol r : string) :
  forallb plain (f :: g :: fs) = true -> line_break eol = true ->
  tokenize StartRecord (join_fields (f :: g :: fs) ++ eol ++ r)
  = (f :: g :: fs) :: tokenize StartRecord r.
Proof.
  intros H He. simpl in H. apply andb_prop in H as [Hf Hfs].
  change (join_fields (f :: g :: fs)) with (f ++ "," ++ join_fields (g :: fs)).
  rewrite !append_assoc.
  change ("," ++ join_fields (g :: fs) ++ eol ++ r)
    with (String comma (join_fields (g :: fs) ++ eol ++ r)).
  rewrite (tokenize_field_comma f Hf) by discriminate.
  rewrite (tokenize_fields (g :: fs) ltac:(discriminate) Hfs eol r He).
  unfold new_field. rewrite push_str_field, append_empty. reflexivity.
Qed.

Lemma tokenize_log_text (eol : string) (recs : list (list string)) :
  line_break eol = true -> forallb wide recs = true ->
  tokenize StartRecord (log_text eol recs) = recs.
Proof.
  intros He. induction recs as [|r recs IH]; simpl; intros H; [reflexivity|].
  apply andb_prop in H as [Hr Hrs].
  destruct r as [|f [|g fs]]; try discriminate Hr.
  rewrite tokenize_line by assumption. rewrite IH by assumption. reflexivity.
Qed.

(** A text without quotes never ends inside a quoted field. *)
Lemma final_state_quote_free (s : string) :
  quote_free s = true -> forall st : tstate,
  st <> InQuoted -> final_state st s <> InQuoted.
Proof.
  induction s as [|c s IH]; simpl; intros H st Hst; [exact Hst|].
  apply andb_prop in H as [Hc Hs]. apply negb_true_iff in Hc.
  apply (IH Hs). unfold transition.
  destruct st; try congruence;
    destruct (Ascii.eqb c lf); try discriminate;
    destruct (Ascii.eqb c cr); try discriminate;
    destruct (Ascii.eqb c comma); try discriminate;
    rewrite Hc; discriminate.
Qed.

Lemma quote_free_app (a b : string) :
  quote_free (a ++ b) = quote_free a && quote_free b.
Proof.
  induction a as [|c a IH]; [reflexivity|].
  change (negb (Ascii.eqb c dquote) && quote_free (a ++ b)
          = negb (Ascii.eqb c dquote) && quote_free a && quote_free b).
  rewrite IH. apply andb_assoc.
Qed.

Lemma plain_quote_free (s : string) : plain s = true -> quote_free s = true.
Proof.
  induction s as [|c s IH]; simpl; intros H; [reflexivity|].
  apply andb_prop in H as [Hc Hs]. rewrite (IH Hs).
  apply negb_true_iff, special_false in Hc as (_ & _ & _ & ->). reflexivity.
Qed.

Lemma line_break_quote_free (eol : string) :
  line_break eol = true -> quote_free eol = true.
Proof.
  unfold line_break. intros H.
  apply orb_prop in H as [H|H]; apply String.eqb_eq in H; subst eol; reflexivity.
Qed.

Lemma join_fields_quote_free (fs : list string) :
  forallb plain fs = true -> quote_free (join_fields fs) = true.
Proof.
  induction fs as [|f fs IH]; simpl; intros H; [reflexivity|].
  apply andb_prop in H as [Hf Hfs].
  destruct fs as [|g fs]; [apply plain_quote_free, Hf|].
  rewrite !quote_free_app, (plain_quote_free f Hf), (IH Hfs). reflexivity.
Qed.

Lemma wide_plain (r : list string) : wide r = true -> forallb plain r = true.
Proof. destruct r as [|f [|g fs]]; try discriminate. auto. Qed.

Lemma log_text_quote_free (eol : string) (recs : list (list string)) :
  line_break eol = true -> forallb wide recs = true ->
  quote_free (log_text eol recs) = true.
Proof.
  intros He. induction recs as [|r recs IH]; simpl; intros H; [reflexivity|].
  apply andb_prop in H as [Hr Hrs].
  rewrite !quote_free_app, (join_fields_quote_free r (wide_plain r Hr)),
    (line_break_quote_free eol He), (IH Hrs). reflexivity.
Qed.

End Tokenizer.

Section RoundTrip.

(** A text of at least one record of two or more plain fields, all of them
    as long as the first, parses into its header and rows. *)
Lemma parse_log_text (eol : string) (hdr : list string) (data : list (list string)) :
  line_break eol = true -> forallb wide (hdr :: data) = true ->
  Forall (fun r => length r = length hdr) data ->
  parse_csv (log_text eol (hdr :: data)) = inr {| columns := hdr; rows := data |}.
Proof.
  intros He Hw Hl. unfold parse_csv.
  pose proof (final_state_quote_free _ (log_text_quote_free eol _ He Hw)
                StartRecord ltac:(discriminate)) as Hq.
  rewrite tokenize_log_text by assumption.
  assert (W : row_width hdr data = length hdr).
  { destruct data as [|r data]; [reflexivity|]. simpl.
    inversion Hl as [|? ? Hr _]; subst. rewrite Hr. apply Nat.max_id. }
  rewrite W.
  assert (F : forallb (fun r => Nat.leb (length r) (length hdr)) data = true).
  { apply forallb_forall. intros r Hr. rewrite Forall_forall in Hl.
    rewrite (Hl r) by (apply list_elem_of_In; exact Hr). apply Nat.leb_refl. }
  rewrite F. destruct (final_state StartRecord _); congruence.
Qed.

Lemma wide_cells_11 (p : prediction) : wide (cells_11 p) = true.
Proof. apply (plain_row (at_time p) (readings p)). Qed.

Lemma wide_cells_1 (p : prediction) : wide (cells_1 p) = true.
Proof.
  apply (plain_log (at_time p) (readings p) _ (plain_clipped (raw p))).
Qed.

Lemma log_text_app (eol : string) (a b : list (list string)) :
  log_text eol (a ++ b) = log_text eol a ++ log_text eol b.
Proof.
  induction a as [|r a IH]; [reflexivity|].
  change (join_fields r ++ eol ++ log_text eol (a ++ b)
          = (join_fields r ++ eol ++ log_text eol a) ++ log_text eol b).
  rewrite IH, !append_assoc. reflexivity.
Qed.

(** One append of stream11.py in a writable directory. *)
Lemma append_log_11_writable (p : prediction) (w : world) :
  writable w = true ->
  let w' := snd (Stream11.append_log (row_11 p) w) in
  files w' !! log_path
  = Some (log_after (files w !! log_path) (join_fields header ++ crlf)
            (join_fields (cells_11 p) ++ crlf))
  /\ writable w' = true /\ data_cache w' = data_cache w.
Proof.
  intros W. cbv zeta. rewrite append_log_11, W. cbn [snd files set_files].
  change (map cell_str (row_11 p)) with (cells_11 p).
  rewrite lookup_insert_eq, (csv_record_wide crlf _ eq_refl (wide_cells_11 p)),
    csv_record_header by reflexivity.
  auto.
Qed.

(** One append of stream1.py in a writable directory. *)
Lemma append_log_1_writable (p : prediction) (w : world) :
  writable w = true -> line_break (linesep w) = true ->
  let w' := snd (Stream1.append_log (frame_1 p) w) in
  files w' !! log_path
  = Some (log_after (files w !! log_path) (join_fields header ++ linesep w)
            (join_fields (cells_1 p) ++ linesep w))
  /\ writable w' = true /\ linesep w' = linesep w.
Proof.
  intros W L. cbv zeta. rewrite append_log_1, W. cbn [snd files set_files].
  change (map (fun c => pandas_str (snd c)) (frame_1 p)) with (cells_1 p).
  rewrite lookup_insert_eq, (csv_record_wide _ _ L (wide_cells_1 p)).
  change (map fst (frame_1 p)) with header.
  rewrite csv_record_header by exact L. auto.
Qed.

(** Appending to a log that exists adds the lines of the records, in
    order. *)
Lemma appended_11_text (ps : list prediction) :
  forall (w : world) (text : string),
    files w !! log_path = Some text -> writable w = true ->
    files (appended_11 w ps) !! log_path
    = Some (text ++ log_text crlf (map cells_11 ps))
    /\ data_cache (appended_11 w ps) = data_cache w.
Proof.
  induction ps as [|p ps IH]; intros w text E W.
  - simpl. rewrite append_empty. auto.
  - destruct (append_log_11_writable p w W) as (F & W' & C).
    rewrite E in F. cbn [log_after] in F.
    destruct (IH _ _ F W') as [IH1 IH2].
    change (appended_11 w (p :: ps))
      with (appended_11 (snd (Stream11.append_log (row_11 p) w)) ps).
    rewrite IH1, IH2, C. split; [|reflexivity].
    cbn [map log_text]. rewrite !append_assoc. reflexivity.
Qed.

Lemma appended_1_text (ps : list prediction) :
  forall (w : world) (text : string),
    files w !! log_path = Some text -> writable w = true ->
    line_break (linesep w) = true ->
    files (appended_1 w ps) !! log_path
    = Some (text ++ log_text (linesep w) (map cells_1 ps)).
Proof.
  induction ps as [|p ps IH]; intros w text E W L.
  - simpl. rewrite append_empty. auto.
  - destruct (append_log_1_writable p w W L) as (F & W' & L').
    rewrite E in F. cbn [log_after] in F.
    change (appended_1 w (p :: ps))
      with (appended_1 (snd (Stream1.append_log (frame_1 p) w)) ps).
    rewrite (IH _ _ F W') by (rewrite L'; exact L). rewrite L'.
    cbn [map log_text]. rewrite !append_assoc. reflexivity.
Qed.

(** From no log at all: the header line, then the lines of the records. *)
Lemma appended_11_from_absent (w : world) (p : prediction) (ps : list prediction) :
  files w !! log_path = None -> writable w = true ->
  files (appended_11 w (p :: ps)) !! log_path
  = Some (log_text crlf (header :: map cells_11 (p :: ps)))
  /\ data_cache (appended_11 w (p :: ps)) = data_cache w.
Proof.
  intros E W.
  destruct (append_log_11_writable p w W) as (F & W' & C).
  rewrite E in F. cbn [log_after] in F.
  destruct (appended_11_text ps _ _ F W') as [H1 H2].
  change (appended_11 w (p :: ps))
    with (appended_11 (snd (Stream11.append_log (row_11 p) w)) ps).
  rewrite H1, H2, C. split; [|reflexivity].
  cbn [map log_text]. rewrite !append_assoc. reflexivity.
Qed.

Lemma appended_1_from_absent (w : world) (p : prediction) (ps : list prediction) :
  files w !! log_path = None -> writable w = true ->
  line_break (linesep w) = true ->
  files (appended_1 w (p :: ps)) !! log_path
  = Some (log_text (linesep w) (header :: map cells_1 (p :: ps))).
Proof.
  intros E W L.
  destruct (append_log_1_writable p w W L) as (F & W' & L').
  rewrite E in F. cbn [log_after] in F.
  change (appended_1 w (p :: ps))
    with (appended_1 (snd (Stream1.append_log (frame_1 p) w)) ps).
  rewrite (appended_1_text ps _ _ F W') by (rewrite L'; exact L). rewrite L'.
  cbn [map log_text]. rewrite !append_assoc. reflexivity.
Qed.

Lemma appended_11_nil (w : world) : appended_11 w [] = w.
Proof. reflexivity. Qed.

(** The round trip of stream11.py, for a read that goes to the file:
    after the records of [ps] are appended to a log that did not exist,
    [load_log] gives exactly their cells, in order. *)
Lemma round_trip_11 (w : world) (ps : list prediction) :
  files w !! log_path = None -> writable w = true ->
  data_cache w !! log_path = None ->
  exists v,
    fst (Stream11.load_log log_path (appended_11 w ps)) = Returned v
    /\ records v = map cells_11 ps
    /\ (ps <> [] -> option_map columns v = Some header).
Proof.
  intros E W C. rewrite load_log_result. destruct ps as [|p ps].
  - rewrite appended_11_nil, C, E. exists None. repeat split. congruence.
  - destruct (appended_11_from_absent w p ps E W) as [H1 H2].
    rewrite H2, C, H1. cbv zeta.
    rewrite (parse_log_text crlf header (map cells_11 (p :: ps))).
    + eexists. repeat split.
    + reflexivity.
    + change (forallb wide (header :: map cells_11 (p :: ps)))
        with (forallb wide (map cells_11 (p :: ps))).
      rewrite forallb_forall. intros r Hr. apply in_map_iff in Hr as (q & <- & _).
      apply wide_cells_11.
    + apply Forall_forall. intros r Hr. apply list_elem_of_In in Hr.
      apply in_map_iff in Hr as (q & <- & _). reflexivity.
Qed.

(** The round trip of stream1.py, on a platform whose line terminator is
    LF or CR LF: the viewer shows exactly the cells of the records. *)
Lemma round_trip_1 (i : interaction) (w : world) (p : prediction) (ps : list prediction) :
  files w !! log_path = None -> writable w = true ->
  line_break (linesep w) = true ->
  fst (Stream1.log_viewer i (appended_1 w (p :: ps))) = Returned tt
  /\ In (st_dataframe {| columns := header; rows := map cells_1 (p :: ps) |})
       (screen (snd (Stream1.log_viewer i (appended_1 w (p :: ps))))).
Proof.
  intros E W L. rewrite log_viewer_1.
  rewrite (appended_1_from_absent w p ps E W L).
  rewrite (parse_log_text (linesep w) header (map cells_1 (p :: ps))).
  - simpl. auto.
  - exact L.
  - change (forallb wide (header :: map cells_1 (p :: ps)))
      with (forallb wide (map cells_1 (p :: ps))).
    rewrite forallb_forall. intros r Hr. apply in_map_iff in Hr as (q & <- & _).
    apply wide_cells_1.
  - apply Forall_forall. intros r Hr. apply list_elem_of_In in Hr.
    apply in_map_iff in Hr as (q & <- & _). reflexivity.
Qed.

End RoundTrip.

(** C4, on stream11.py. The user ticks "Show Prediction Log" before the
    first prediction: [load_log] finds no file and [st.cache_data] keeps
    that answer for the path. The user then predicts with the box still
    ticked: the record is appended to a new log file, yet [load_log]
    returns the cached "absent" and the page says that nothing was logged.
    One record was appended, starting from an absent log, and the read
    yields none. *)
Theorem cached_read_misses_appended_record :
  let w0 := fresh_world (constant_model (to_float32 f200)) true in
  let w1 := snd (rerun (Stream11.run (user false true false)) w0) in
  let w2 := snd (rerun (Stream11.run (user true true false)) w1) in
  files w0 !! log_path = None
  /\ screen w1 = [st_info msg_no_log]
  /\ files w2 !! log_path
     = Some ("Time,Steam Flow,HRH P,HRH T,Main Steam P,HP Temp,Ambient,Predicted MW"
             ++ crlf
             ++ "2025-08-20 09:05:07,850.0,4.0,525,16.0,538,25.0,200.0"
             ++ crlf)
  /\ Stream11.load_log log_path w2 = (Returned None, w2)
  /\ screen w2 = [st_info msg_no_log; shown English "200.00"].
Proof. cbv zeta. repeat apply conj; vm_compute; reflexivity. Qed.

(** The same two runs of stream1.py show the record. *)
Lemma uncached_read_shows_appended_record :
  let w0 := fresh_world (constant_model (to_float32 f200)) true in
  let w1 := snd (rerun (Stream1.run (user false true false)) w0) in
  let w2 := snd (rerun (Stream1.run (user true true false)) w1) in
  In (st_dataframe
        {| columns := header;
           rows := [["2025-08-20 09:05:07"; "850.0"; "4.0"; "525"; "16.0";
                     "538"; "25.0"; "200.0"]] |})
     (screen w2).
Proof. vm_compute. auto. Qed.

(** In stream11.py a log that was viewed and then cleared is still shown:
    the file is gone, the cached frame is not. *)
Lemma cached_read_survives_clear :
  let w0 := fresh_world (constant_model (to_float32 f200)) true in
  let w1 := snd (rerun (Stream11.run (user true true false)) w0) in
  let w2 := snd (rerun (Stream11.run (user false false true)) w1) in
  let w3 := snd (rerun (Stream11.run (user false true false)) w2) in
  files w2 !! log_path = None
  /\ screen w2 = [st_success msg_cleared]
  /\ screen w3
     = [ st_download_button ("📥 " ++ l_download English)
           {| columns := header;
              rows := [["2025-08-20 09:05:07"; "850.0"; "4.0"; "525"; "16.0";
                        "538"; "25.0"; "200.0"]] |} log_path "text/csv";
         st_dataframe
           {| columns := header;
              rows := [["2025-08-20 09:05:07"; "850.0"; "4.0"; "525"; "16.0";
                        "538"; "25.0"; "200.0"]] |} ].
Proof. cbv zeta. repeat apply conj; vm_compute; reflexivity. Qed.
